(** * pyfftw.builders._utils: shape negotiation for the FFTW builders

    A shallow embedding of [src/pyfftw/builders/_utils.py].  The module
    turns the user's [(a, s, axes)] into the shapes the FFTW engine needs
    ([_cook_nd_args], [_compute_array_shapes]), builds the slicers that copy
    a user array into a differently shaped internal array
    ([_setup_input_slicers]), and wires everything together in [_Xfftn] and
    [_FFTWWrapper].

    Python integers are [Z]; tuples and lists of integers are [list Z];
    raised exceptions are values of [exn] carried by [result]. *)

From stdpp Require Import base list strings.
From Stdlib Require Import ZArith Lia.

Open Scope string_scope.
Open Scope Z_scope.

(** ** Exceptions and the error monad *)

(** The exceptions the module's own code can raise, plus [EngineError] for
    whatever the opaque collaborators (allocator, planner, numpy's
    broadcasting and conversion) raise. *)
Inductive exn : Type :=
| ValueError (msg : string)
| IndexError (msg : string)
| KeyError (key : string)
| UnboundLocalError (var : string)
| EngineError (code : Z).

Inductive result (A : Type) : Type :=
| Ok (x : A)
| Raise (e : exn).
Arguments Ok {A} x.
Arguments Raise {A} e.

Definition bind {A B : Type} (m : result A) (k : A -> result B) : result B :=
  match m with
  | Ok x => k x
  | Raise e => Raise e
  end.

Notation "'let*' x ':=' c1 'in' c2" := (bind c1 (fun x => c2))
  (at level 10, x name, c1 at level 100, c2 at level 200, only parsing).
Notation "'let*' ' pat ':=' c1 'in' c2" :=
  (bind c1 (fun x => match x with pat => c2 end))
  (at level 10, pat pattern, c1 at level 100, c2 at level 200, only parsing).

(** The computation returned. *)
Definition is_Some_result {A : Type} (r : result A) : Prop :=
  match r with
  | Ok _ => True
  | Raise _ => False
  end.

(** [try: body except IndexError: raise e'] *)
Definition except_IndexError {A : Type} (body : result A) (e' : exn) : result A :=
  match body with
  | Raise (IndexError _) => Raise e'
  | r => r
  end.

(** ** Python sequences *)

Module Py.

(** Resolution of a subscript against a sequence of length [len]:
    [0 <= i < len] is itself, [-len <= i < 0] counts from the end,
    anything else does not resolve. *)
Definition index (len : nat) (i : Z) : option nat :=
  if bool_decide (0 <= i < Z.of_nat len) then Some (Z.to_nat i)
  else if bool_decide (- Z.of_nat len <= i < 0) then Some (Z.to_nat (Z.of_nat len + i))
  else None.

(** [l[i]] *)
Definition getitem {A : Type} (l : list A) (i : Z) : result A :=
  match index (length l) i with
  | Some k =>
      match l !! k with
      | Some v => Ok v
      | None => Raise (IndexError "index out of range")
      end
  | None => Raise (IndexError "index out of range")
  end.

(** [l[i] = v] on a list *)
Definition setitem {A : Type} (l : list A) (i : Z) (v : A) : result (list A) :=
  match index (length l) i with
  | Some k => Ok (<[k:=v]> l)
  | None => Raise (IndexError "list assignment index out of range")
  end.

(** [range(lo, hi)] *)
Definition range (lo hi : Z) : list Z :=
  map (fun k : nat => lo + Z.of_nat k) (seq 0 (Z.to_nat (hi - lo))).

(** [for x in xs: st = body(st, x)], stopping at the first exception *)
Fixpoint for_each {A S : Type} (xs : list A) (body : S -> A -> result S) (st : S)
  : result S :=
  match xs with
  | [] => Ok st
  | x :: xs' => let* st' := body st x in for_each xs' body st'
  end.

(** [x in xs] for strings *)
Definition contains (x : string) (xs : list string) : bool :=
  existsb (String.eqb x) xs.

End Py.

(** [numpy.take(shape, indices)] on a 1-d sequence, default [mode='raise']:
    negative indices count from the end, an index out of bounds raises. *)
Fixpoint numpy_take (shape : list Z) (indices : list Z) : result (list Z) :=
  match indices with
  | [] => Ok []
  | i :: rest =>
      let* v := Py.getitem shape i in
      let* vs := numpy_take shape rest in
      Ok (v :: vs)
  end.

(** ** Slices *)

(** [slice(start, stop)]; [None] is an omitted bound.  The module only
    builds [slice(None)] and [slice(0, n)]. *)
Record slice : Type := Slice { start : option Z; stop : option Z }.

Definition slice_all : slice := Slice None None.
Definition slice_to (n : Z) : slice := Slice (Some 0) (Some n).

(** [slice.indices(len)] for step 1: both bounds are clipped to the axis,
    negative bounds count from the end. *)
Definition clip (len v : Z) : Z :=
  if v <? 0 then Z.max (v + len) 0 else Z.min v len.

Definition slice_bounds (sl : slice) (len : Z) : Z * Z :=
  (match start sl with None => 0 | Some v => clip len v end,
   match stop sl with None => len | Some v => clip len v end).

(** Number of elements a slice selects on an axis of length [len]. *)
Definition slice_extent (sl : slice) (len : Z) : Z :=
  let '(lo, hi) := slice_bounds sl len in Z.max 0 (hi - lo).

(** ** [_setup_input_slicers] *)

(** One iteration of the loop over [axis]. *)
Definition slicer_axis (a_shape input_shape : list Z)
    (st : list slice * list slice) (axis : nat) : result (list slice * list slice) :=
  let '(update_input_array_slicer, FFTW_array_slicer) := st in
  let* a_n := Py.getitem a_shape (Z.of_nat axis) in
  let* i_n := Py.getitem input_shape (Z.of_nat axis) in
  if a_n >? i_n then
    let* u := Py.setitem update_input_array_slicer (Z.of_nat axis) (slice_to i_n) in
    Ok (u, FFTW_array_slicer)
  else if a_n <? i_n then
    let* f := Py.setitem FFTW_array_slicer (Z.of_nat axis) (slice_to a_n) in
    let* u := Py.setitem update_input_array_slicer (Z.of_nat axis) (slice_to a_n) in
    Ok (u, f)
  else
    let* u := Py.setitem update_input_array_slicer (Z.of_nat axis) (slice_to a_n) in
    Ok (u, FFTW_array_slicer).

(** Returns [(update_input_array_slicer, FFTW_array_slicer)]: the data is
    copied as [FFTW_array[FFTW_array_slicer] =
    input_array[update_input_array_slicer]]. *)
Definition _setup_input_slicers (a_shape input_shape : list Z)
  : result (list slice * list slice) :=
  let update_input_array_slicer := replicate (length a_shape) slice_all in
  let FFTW_array_slicer := replicate (length a_shape) slice_all in
  Py.for_each (seq 0 (length a_shape)) (slicer_axis a_shape input_shape)
    (update_input_array_slicer, FFTW_array_slicer).

(** ** [_compute_array_shapes] *)

Definition invalid_axes : exn :=
  IndexError "Invalid axes: At least one of the passed axes is invalid.".

(** [for n, axis in enumerate(axes)]: both working shapes get [s[n]] at
    [axis]; [n] counts the axes already visited. *)
Fixpoint assign_axes (n : nat) (axes s : list Z) (orig_domain_shape fft_domain_shape : list Z)
  : result (list Z * list Z) :=
  match axes with
  | [] => Ok (orig_domain_shape, fft_domain_shape)
  | axis :: axes' =>
      let* s_n := Py.getitem s (Z.of_nat n) in
      let* orig' := Py.setitem orig_domain_shape axis s_n in
      let* s_n' := Py.getitem s (Z.of_nat n) in
      let* fft' := Py.setitem fft_domain_shape axis s_n' in
      assign_axes (S n) axes' s orig' fft'
  end.

(** The array [a] is only read through [a.shape], passed as [a_shape].
    Returns [(input_shape, output_shape)]. *)
Definition _compute_array_shapes (a_shape : list Z) (s axes : list Z) (inverse real : bool)
  : result (list Z * list Z) :=
  let orig_domain_shape := a_shape in
  let fft_domain_shape := a_shape in
  let* '(orig_domain_shape, fft_domain_shape) :=
    except_IndexError
      (let* '(orig, fft) := assign_axes 0 axes s orig_domain_shape fft_domain_shape in
       if real then
         let* s_last := Py.getitem s (-1) in
         let* axis_last := Py.getitem axes (-1) in
         let* fft' := Py.setitem fft axis_last (s_last / 2 + 1) in
         Ok (orig, fft')
       else Ok (orig, fft))
      invalid_axes in
  if inverse then Ok (fft_domain_shape, orig_domain_shape)
  else Ok (orig_domain_shape, fft_domain_shape).

(** ** [_cook_nd_args] *)

Definition shape_error_lengths : exn :=
  ValueError "Shape error: Shape and axes have different lengths.".
Definition shape_error_dims : exn :=
  ValueError "Shape error: The length of s or axes cannot exceed the dimensionality of the input array, a.".

(** Lines 267-279: fill in the arguments that were passed as [None]. *)
Definition cook_defaults (a_shape : list Z) (s axes : option (list Z)) (invreal : bool)
  : result (list Z * list Z) :=
  let axes :=
    match axes with
    | None =>
        let len_s := match s with
                     | None => length a_shape
                     | Some s => length s
                     end in
        Py.range (- Z.of_nat len_s) 0
    | Some axes => axes
    end in
  match s with
  | None =>
      let* s := numpy_take a_shape axes in
      if invreal then
        let* axis_last := Py.getitem axes (-1) in
        let* n_last := Py.getitem a_shape axis_last in
        let* s' := Py.setitem s (-1) ((n_last - 1) * 2) in
        Ok (s', axes)
      else Ok (s, axes)
  | Some s => Ok (s, axes)
  end.

(** Lines 282-291: the two length checks. *)
Definition cook_checks (a_shape : list Z) (s axes : list Z) : result (list Z * list Z) :=
  if negb (length s =? length axes)%nat then Raise shape_error_lengths
  else if (length a_shape <? length s)%nat then Raise shape_error_dims
  else Ok (s, axes).

Definition _cook_nd_args (a_shape : list Z) (s axes : option (list Z)) (invreal : bool)
  : result (list Z * list Z) :=
  let* '(s, axes) := cook_defaults a_shape s axes invreal in
  cook_checks a_shape s axes.

(** ** [_precook_1d_args] *)

(** Turns [(n, axis)] into [(s, axes)]; [a.shape[axis]] forces the error of
    an invalid axis. *)
Definition _precook_1d_args (a_shape : list Z) (n : option Z) (axis : Z)
  : result (option (list Z) * list Z) :=
  let s := match n with
           | Some n => Some [n]
           | None => None
           end in
  let* _ := Py.getitem a_shape axis in
  Ok (s, [axis]).

(** * The transform adapter *)

(** ** Effects

    [_Xfftn] calls collaborators that allocate and plan.  Every such call
    is appended to a log, so that the order of a failure relative to the
    allocations can be read off the final log. *)
Inductive event : Type :=
| EvConvert (dtype : string)                          (* numpy.asarray(a, dtype=...) *)
| EvCopy                                              (* a.copy() *)
| EvAllocate (shape : list Z) (n : Z) (dtype : string) (* pyfftw.n_byte_align_empty *)
| EvAlign (n : Z)                                     (* pyfftw.n_byte_align *)
| EvPlan.                                             (* pyfftw.FFTW(...) *)

Definition M (A : Type) : Type := list event -> result A * list event.

Definition ret {A : Type} (x : A) : M A := fun w => (Ok x, w).
Definition raise {A : Type} (e : exn) : M A := fun w => (Raise e, w).
Definition pure {A : Type} (r : result A) : M A := fun w => (r, w).
Definition log (ev : event) : M unit := fun w => (Ok tt, (w ++ [ev])%list).

Definition mbindM {A B : Type} (m : M A) (k : A -> M B) : M B :=
  fun w =>
    match m w with
    | (Ok x, w') => k x w'
    | (Raise e, w') => (Raise e, w')
    end.

Notation "'let!' x ':=' c1 'in' c2" := (mbindM c1 (fun x => c2))
  (at level 10, x name, c1 at level 100, c2 at level 200, only parsing).
Notation "'let!' ' pat ':=' c1 'in' c2" :=
  (mbindM c1 (fun x => match x with pat => c2 end))
  (at level 10, pat pattern, c1 at level 100, c2 at level 200, only parsing).

(** What a collaborator hands back: a value, or a failure of its own. *)
Inductive outcome (A : Type) : Type :=
| Done (x : A)
| Failed (code : Z).
Arguments Done {A} x.
Arguments Failed {A} code.

Definition of_outcome {A : Type} (o : outcome A) : result A :=
  match o with
  | Done x => Ok x
  | Failed c => Raise (EngineError c)
  end.

(** Reading a local variable that may not have been assigned. *)
Definition local {A : Type} (name : string) (v : option A) : result A :=
  match v with
  | Some x => Ok x
  | None => Raise (UnboundLocalError name)
  end.

(** ** Module constants *)

Definition _valid_efforts : list string :=
  ["FFTW_ESTIMATE"; "FFTW_MEASURE"; "FFTW_PATIENT"; "FFTW_EXHAUSTIVE"].

Definition _rc_dtype_pairs : list (string * string) :=
  [("float32", "complex64");
   ("float64", "complex128");
   ("longdouble", "clongdouble");
   ("complex64", "float32");
   ("complex128", "float64");
   ("clongdouble", "longdouble")].

Definition _default_dtype : string := "float64".

(** [ValueError('Invalid planner effort: ', planner_effort)] *)
Definition config_error : exn := ValueError "Invalid planner effort: ".

(** [key in d] and [d[key]] on a dict with string keys; a missing key is a
    [KeyError], which the module never catches. *)
Fixpoint dict_get (d : list (string * string)) (key : string) : option string :=
  match d with
  | [] => None
  | (k, v) :: d' => if String.eqb key k then Some v else dict_get d' key
  end.

Definition dict_has (d : list (string * string)) (key : string) : bool :=
  match dict_get d key with Some _ => true | None => false end.

Definition dict_item (d : list (string * string)) (key : string) : result string :=
  match dict_get d key with
  | Some v => Ok v
  | None => Raise (KeyError key)
  end.

(** ** Arrays *)

(** What the module takes from numpy as given: the element type, the
    literal [0], conversion of an element to a dtype, and which dtypes are
    complex.  Dtypes are identified with their names [str(a.dtype)]. *)
Class Numpy : Type := {
  elt : Type;
  zero : elt;
  astype : string -> elt -> elt;
  iscomplex : string -> bool;
}.

(** An array: its shape, its dtype, and its elements by multi-index. *)
Record ndarray `{Numpy} : Type := Ndarray {
  shape : list Z;
  dtype : string;
  data : list Z -> elt;
}.

Section Arrays.
Context `{Numpy}.

Definition iscomplexobj (a : ndarray) : bool := iscomplex (dtype a).

(** [a.copy()] *)
Definition copy (a : ndarray) : M ndarray :=
  let! _ := log EvCopy in
  ret a.

(** Per axis, the first index and the extent that [a[sl]] selects: the
    slices apply to the leading axes, the remaining axes are kept whole. *)
Fixpoint view_axes (sh : list Z) (sl : list slice) : list (Z * Z) :=
  match sh with
  | [] => []
  | n :: sh' =>
      match sl with
      | [] => (0, n) :: view_axes sh' []
      | s :: sl' => (fst (slice_bounds s n), slice_extent s n) :: view_axes sh' sl'
      end
  end.

Definition too_many_indices : exn := IndexError "too many indices".

(** [a[sl]] for a non-empty list of slices [sl]: a view of [a].  (The
    module slices with the lists of [_setup_input_slicers], one slice per
    axis of an array with at least one axis, and with [[:]].) *)
Definition getslice (a : ndarray) (sl : list slice) : result ndarray :=
  if (length (shape a) <? length sl)%nat then Raise too_many_indices
  else
    let v := view_axes (shape a) sl in
    Ok {| shape := map snd v;
          dtype := dtype a;
          data := fun idx => data a (zip_with Z.add (map fst v) idx) |}.

(** Whether a multi-index of the base array falls inside a view, given
    the first index and the extent of the view on each axis. *)
Definition inside (v : list (Z * Z)) (idx : list Z) : bool :=
  bool_decide (Forall2 (fun i p => fst p <= i < fst p + snd p) idx v).

(** The array [base] after [base[sl][:] = src], for [src] of the shape of
    the view: the elements of the view are overwritten with those of
    [src], converted to the dtype of [base]; the rest is kept. *)
Definition write_view (base : ndarray) (sl : list slice) (src : ndarray) : ndarray :=
  let v := view_axes (shape base) sl in
  {| shape := shape base;
     dtype := dtype base;
     data := fun idx =>
       if inside v idx
       then astype (dtype base) (data src (zip_with Z.sub idx (map fst v)))
       else data base idx |}.

(** [a[:] = 0]: every element becomes [0]; an array without axes cannot
    be sliced. *)
Definition fill_zero (a : ndarray) : result ndarray :=
  let* _ := getslice a [slice_all] in
  Ok {| shape := shape a; dtype := dtype a; data := fun _ => astype (dtype a) zero |}.

End Arrays.

(** ** The engine *)

(** A [pyfftw.FFTW] object: the two arrays it is bound to and the
    parameters of the plan. *)
Record FFTW `{Numpy} : Type := {
  input_array : ndarray;
  output_array : ndarray;
  plan_axes : list Z;
  direction : string;
  flags : list string;
  threads : Z;
}.

(** The collaborators outside this module.
    - [alloc_failure], [uninitialised]: whether [n_byte_align_empty] fails
      for a request, and the unspecified contents of the array it returns;
    - [planning]: what building a plan leaves in the input and the output
      array (planning may destroy them), or its failure;
    - [execute]: [pyfftw.FFTW.__call__];
    - [broadcast]: numpy's assignment between arrays of different shapes;
    - [conversion_failure]: whether [numpy.asarray(a, dtype=d)] fails on the
      elements of [a], which it does on elements it cannot convert. *)
Class Engine `{Numpy} : Type := {
  alloc_failure : list Z -> Z -> string -> option Z;
  uninitialised : list Z -> Z -> string -> list Z -> elt;
  planning : ndarray -> ndarray -> list Z -> string -> list string -> Z ->
             outcome ((list Z -> elt) * (list Z -> elt));
  execute : FFTW -> option ndarray -> option ndarray -> bool -> outcome ndarray * FFTW;
  broadcast : ndarray -> list slice -> ndarray -> outcome ndarray;
  conversion_failure : ndarray -> string -> option Z;
}.

(** The adapter for a user array whose shape differs from the input shape. *)
Record _FFTWWrapper `{Numpy} : Type := {
  base : FFTW;
  input_array_slicer : list slice;
  FFTW_array_slicer : list slice;
}.

(** What [_Xfftn] returns: a plain [pyfftw.FFTW] or an [_FFTWWrapper]. *)
Inductive FFTW_object `{Numpy} : Type :=
| Plain (f : FFTW)
| Wrapped (w : _FFTWWrapper).

Section Adapter.
Context `{Engine}.

(** [numpy.asarray(a, dtype=d)] for a dtype other than [a]'s: a new array
    of the elements of [a] converted to [d], unless an element cannot be
    converted. *)
Definition asarray (a : ndarray) (d : string) : M ndarray :=
  let! _ := log (EvConvert d) in
  match conversion_failure a d with
  | Some c => raise (EngineError c)
  | None =>
      ret {| shape := shape a; dtype := d; data := fun idx => astype d (data a idx) |}
  end.

(** Modelled from the spec: [pyfftw.n_byte_align_empty(shape, n, dtype)],
    the allocator, is not in the sources.  It returns an array of exactly
    the requested shape and dtype whose contents are unspecified. *)
Definition n_byte_align_empty (sh : list Z) (n : Z) (d : string) : M ndarray :=
  let! _ := log (EvAllocate sh n d) in
  match alloc_failure sh n d with
  | Some c => raise (EngineError c)
  | None => ret {| shape := sh; dtype := d; data := uninitialised sh n d |}
  end.

(** Modelled from the spec: [pyfftw.n_byte_align(a, n)] is not in the
    sources.  It returns [a], or a copy of [a] at an aligned address; both
    have the shape, dtype and elements of [a]. *)
Definition n_byte_align (a : ndarray) (n : Z) : M ndarray :=
  let! _ := log (EvAlign n) in
  ret a.

(** Modelled from the spec: [pyfftw.FFTW(input_array, output_array, axes,
    direction, flags, threads)] is not in the sources.  The plan is bound
    to the two arrays; planning may overwrite their elements. *)
Definition FFTW_init (input output : ndarray) (axes : list Z)
    (direction : string) (flags : list string) (threads : Z) : M FFTW :=
  let! _ := log EvPlan in
  let! '(din, dout) := pure (of_outcome (planning input output axes direction flags threads)) in
  ret {| input_array := {| shape := shape input; dtype := dtype input; data := din |};
         output_array := {| shape := shape output; dtype := dtype output; data := dout |};
         plan_axes := axes; direction := direction; flags := flags; threads := threads |}.

Definition get_input_array (f : FFTW) : ndarray := input_array f.

(** The object after a write through [get_input_array()]. *)
Definition with_input_array (f : FFTW) (a : ndarray) : FFTW :=
  {| input_array := a; output_array := output_array f; plan_axes := plan_axes f;
     direction := direction f; flags := flags f; threads := threads f |}.

(** [base[sl] = src]: a plain copy when the shapes agree, numpy's
    broadcasting otherwise. *)
Definition setslice (base : ndarray) (sl : list slice) (src : ndarray) : result ndarray :=
  let* view := getslice base sl in
  if bool_decide (shape view = shape src) then Ok (write_view base sl src)
  else of_outcome (broadcast base sl src).

(** [_FFTWWrapper.__init__] *)
Definition _FFTWWrapper_init (input output : ndarray) (axes : list Z)
    (direction : string) (flags : list string) (threads : Z)
    (input_array_slicer FFTW_array_slicer : list slice) : M _FFTWWrapper :=
  let! f := FFTW_init input output axes direction flags threads in
  ret {| base := f;
         input_array_slicer := input_array_slicer;
         FFTW_array_slicer := FFTW_array_slicer |}.

Definition invalid_input_shape : exn :=
  ValueError "Invalid input shape: The new input array should be the same shape as the input array used to instantiate the object.".

(** [_FFTWWrapper.__call__]: returns what the call returns or raises,
    together with the object after the call. *)
Definition _FFTWWrapper_call (self : _FFTWWrapper)
    (input_array output_array : option ndarray) (normalise_idft : bool)
  : result ndarray * _FFTWWrapper :=
  let updated : result _FFTWWrapper :=
    match input_array with
    | Some input_array =>
        let internal_input_array := get_input_array (base self) in
        let* sliced_internal := getslice internal_input_array (FFTW_array_slicer self) in
        let* sliced_input := getslice input_array (input_array_slicer self) in
        if negb (bool_decide (shape sliced_internal = shape sliced_input))
        then Raise invalid_input_shape
        else
          let* _ := getslice sliced_internal [slice_all] in
          Ok {| base := with_input_array (base self)
                          (write_view internal_input_array (FFTW_array_slicer self)
                             sliced_input);
                input_array_slicer := input_array_slicer self;
                FFTW_array_slicer := FFTW_array_slicer self |}
    | None => Ok self
    end in
  match updated with
  | Raise e => (Raise e, self)
  | Ok self' =>
      let '(r, f) := execute (base self') None output_array normalise_idft in
      (of_outcome r,
       {| base := f;
          input_array_slicer := input_array_slicer self';
          FFTW_array_slicer := FFTW_array_slicer self' |})
  end.

(** Lines 66-83 of [_Xfftn]: make the input dtype correct. *)
Definition make_input_dtype (a : ndarray) (inverse real : bool) : M ndarray :=
  let a_is_complex := iscomplexobj a in
  if negb (dict_has _rc_dtype_pairs (dtype a)) then
    if negb real || inverse then
      let! d := pure (dict_item _rc_dtype_pairs _default_dtype) in
      asarray a d
    else asarray a _default_dtype
  else if negb (real && negb inverse) && negb a_is_complex then
    let! d := pure (dict_item _rc_dtype_pairs (dtype a)) in
    asarray a d
  else if (real && negb inverse) && a_is_complex then
    let! d := pure (dict_item _rc_dtype_pairs (dtype a)) in
    asarray a d
  else ret a.

(** [_Xfftn] *)
Definition _Xfftn (a : ndarray) (s axes : option (list Z)) (planner_effort : string)
    (threads : Z) (auto_align_input avoid_copy inverse real : bool) : M FFTW_object :=
  let invreal := inverse && real in
  let direction := if inverse then "FFTW_BACKWARD" else "FFTW_FORWARD" in
  if negb (Py.contains planner_effort _valid_efforts)
  then raise config_error
  else
  let! '(s, axes) := pure (_cook_nd_args (shape a) s axes invreal) in
  let! '(input_shape, output_shape) :=
    pure (_compute_array_shapes (shape a) s axes inverse real) in
  let! a := make_input_dtype a inverse real in
  let! output_dtype :=
    if negb real then ret (dtype a)
    else pure (dict_item _rc_dtype_pairs (dtype a)) in
  let! a_copy :=
    if negb avoid_copy then (let! c := copy a in ret (Some c))
    else ret None in
  let! output_array := n_byte_align_empty output_shape 16 output_dtype in
  let flags :=
    if negb auto_align_input then ["FFTW_UNALIGNED"; planner_effort]
    else [planner_effort] in
  if negb (bool_decide (shape a = input_shape)) then
    let! '(update_input_array_slicer, FFTW_array_slicer) :=
      pure (_setup_input_slicers (shape a) input_shape) in
    let! input_array := n_byte_align_empty input_shape 16 (dtype a) in
    let! FFTW_object :=
      _FFTWWrapper_init input_array output_array axes direction flags threads
        update_input_array_slicer FFTW_array_slicer in
    if negb avoid_copy then
      let internal_array := get_input_array (base FFTW_object) in
      let! internal_array := pure (fill_zero internal_array) in
      let! a_copy := pure (local "a_copy" a_copy) in
      let! piece := pure (getslice a_copy update_input_array_slicer) in
      let! internal_array := pure (setslice internal_array FFTW_array_slicer piece) in
      ret (Wrapped {| base := with_input_array (base FFTW_object) internal_array;
                      input_array_slicer := update_input_array_slicer;
                      FFTW_array_slicer := FFTW_array_slicer |})
    else ret (Wrapped FFTW_object)
  else
    let! input_array :=
      if auto_align_input then n_byte_align a 16 else ret a in
    let! FFTW_object :=
      FFTW_init input_array output_array axes direction flags threads in
    let! a_copy := pure (local "a_copy" a_copy) in
    let! restored :=
      pure (setslice (get_input_array FFTW_object) [slice_all] a_copy) in
    ret (Plain (with_input_array FFTW_object restored)).

End Adapter.

(** * Vocabulary of the statements *)

(** ** Slicers *)

(** What one axis of the two slicers looks like once the loop has passed
    it: [src] indexes the user array, [dst] the internal FFTW array. *)
Definition source_slice_of (u r : Z) : slice :=
  if u >? r then slice_to r else slice_to u.
Definition dest_slice_of (u r : Z) : slice :=
  if u <? r then slice_to u else slice_all.

(** ** Shapes *)

(** The loop of [_compute_array_shapes] seen on one working shape. *)
Fixpoint write_axes (n : nat) (axes s : list Z) (l : list Z) : result (list Z) :=
  match axes with
  | [] => Ok l
  | axis :: axes' =>
      let* s_n := Py.getitem s (Z.of_nat n) in
      let* l' := Py.setitem l axis s_n in
      write_axes (S n) axes' s l'
  end.

(** Position [j] is the target of one of the listed axes. *)
Definition written (len : nat) (axes : list Z) (j : nat) : Prop :=
  exists ax, In ax axes /\ Py.index len ax = Some j.

(** Every listed axis resolves against a shape of rank [len]. *)
Definition resolvable (len : nat) (axes : list Z) : Prop :=
  Forall (fun ax => - Z.of_nat len <= ax < Z.of_nat len) axes.

(** The transform-domain shape of a real transform: [orig] with the
    position of the last listed axis set to [s[-1]//2 + 1]. *)
Definition halve_last_axis (len : nat) (s axes orig : list Z) : list Z :=
  match last axes, last s with
  | Some ax, Some sz =>
      match Py.index len ax with
      | Some j => <[j:=sz / 2 + 1]> orig
      | None => orig
      end
  | _, _ => orig
  end.

(** The last [k] axes as negative indices: [-k, ..., -1]. *)
Definition last_axes (k : nat) : list Z :=
  map (fun n : nat => Z.of_nat n - Z.of_nat k) (seq 0 k).

(** ** Filled-in arguments *)

(** The axes the normalizer works with once an absent [axes] is filled in,
    and the number of sizes once an absent [s] is filled in: one per axis. *)
Definition filled_axes (a_shape : list Z) (s axes : option (list Z)) : list Z :=
  match axes with
  | Some axes => axes
  | None => last_axes (match s with
                       | None => length a_shape
                       | Some s => length s
                       end)
  end.

Definition filled_sizes_length (a_shape : list Z) (s axes : option (list Z)) : nat :=
  match s with
  | Some s => length s
  | None => length (filled_axes a_shape s axes)
  end.

(** ** Errors *)

(** The two shape errors of the normalizer. *)
Definition is_shape_error (e : exn) : Prop :=
  e = shape_error_lengths \/ e = shape_error_dims.

(** The [IndexError]s of the normalizer and the resolver: a subscript that
    does not resolve, and the resolver's own message. *)
Definition is_axis_error (e : exn) : Prop :=
  e = invalid_axes
  \/ e = IndexError "index out of range"
  \/ e = IndexError "list assignment index out of range".

(** The errors of validating the arguments. *)
Definition argument_error (e : exn) : Prop :=
  e = config_error \/ is_shape_error e \/ is_axis_error e.

(** The exceptions that can follow the validation: a failing collaborator,
    a missing dtype, an unassigned local, an array sliced on too many axes. *)
Definition late_error (e : exn) : Prop :=
  match e with
  | EngineError _ | KeyError _ | UnboundLocalError _ => True
  | IndexError msg => e = too_many_indices
  | ValueError _ => False
  end.

(** ** Computations in [M] *)

(** [m] can only raise exceptions satisfying [P]. *)
Definition raises_only {A : Type} (P : exn -> Prop) (m : M A) : Prop :=
  forall w e w', m w = (Raise e, w') -> P e.

(** Whatever [m] returns satisfies [R]. *)
Definition returns {A : Type} (R : A -> Prop) (m : M A) : Prop :=
  forall w x w', m w = (Ok x, w') -> R x.

(** ** A concrete engine

    Integer elements, an allocator that never fails and hands out arrays
    full of [-1], a planner that overwrites both arrays with [-2], a call
    that returns the output array, and conversions that never fail. *)
Definition int_numpy : Numpy :=
  {| elt := Z; zero := 0; astype := fun _ x => x;
     iscomplex := fun d => String.prefix "c" d |}.

Definition quiet_engine : @Engine int_numpy :=
  @Build_Engine int_numpy
    (fun _ _ _ => None)
    (fun _ _ _ _ => (-1 : Z))
    (fun _ _ _ _ _ _ => Done ((fun _ => (-2 : Z)), (fun _ => (-2 : Z))))
    (fun f _ out _ =>
       (Done (match out with Some o => o | None => @output_array int_numpy f end), f))
    (fun _ _ _ => Failed 1)
    (fun _ _ => None).

(** A one-dimensional array of [n] elements [10, 11, ...]. *)
Definition ramp (n : Z) (d : string) : @ndarray int_numpy :=
  @Ndarray int_numpy [n] d (fun idx => match idx with [i] => 10 + i | _ => 0 end).

(** An adapter planned for 6 points on a user array of 4. *)
Definition adapter_4_in_6 : @_FFTWWrapper int_numpy :=
  @Build__FFTWWrapper int_numpy
    (@Build_FFTW int_numpy
       (@Ndarray int_numpy [6] "complex128" (fun _ => 0))
       (@Ndarray int_numpy [6] "complex128" (fun _ => 0))
       [-1] "FFTW_FORWARD" ["FFTW_UNALIGNED"; "FFTW_MEASURE"] 1)
    [slice_to 4] [slice_to 4].

(** ** Plans and logs *)

(** The direction and the flags [_Xfftn] plans with. *)
Definition plan_direction (inverse : bool) : string :=
  if inverse then "FFTW_BACKWARD" else "FFTW_FORWARD".
Definition plan_flags (auto_align_input : bool) (planner_effort : string) : list string :=
  if auto_align_input then [planner_effort] else ["FFTW_UNALIGNED"; planner_effort].

(** Number of calls of the allocator, and of the planner, in a log. *)
Definition is_allocation (ev : event) : bool :=
  match ev with EvAllocate _ _ _ => true | _ => false end.
Definition is_plan (ev : event) : bool :=
  match ev with EvPlan => true | _ => false end.
Definition allocations (w : list event) : nat := length (List.filter is_allocation w).
Definition plans (w : list event) : nat := length (List.filter is_plan w).

(** Any exception but a [KeyError]. *)
Definition not_key_error (e : exn) : Prop :=
  match e with
  | KeyError _ => False
  | _ => True
  end.

(** numpy agrees with the dtype table on which dtypes are complex: the two
    dtypes of a pair differ in kind, and the default dtype is real. *)
Definition complex_kinds_agree `{Numpy} : Prop :=
  iscomplex _default_dtype = false
  /\ forall k v, dict_get _rc_dtype_pairs k = Some v -> iscomplex v = negb (iscomplex k).

(** The common box of two shapes: per axis, the smaller of the two sizes. *)
Definition common_box (u r : list Z) : list Z := zip_with Z.min u r.

(** A multi-index inside a box anchored at the origin. *)
Definition in_box (box idx : list Z) : bool :=
  bool_decide (Forall2 (fun i n => 0 <= i < n) idx box).

(** A shape as numpy has them: no negative size. *)
Definition valid_shape (sh : list Z) : Prop := Forall (fun n => 0 <= n) sh.

(** The plan behind what [_Xfftn] returns (an [_FFTWWrapper] is itself a
    [pyfftw.FFTW]). *)
Definition plan_of `{Numpy} (obj : FFTW_object) : FFTW :=
  match obj with
  | Plain f => f
  | Wrapped w => base w
  end.

(** * Properties *)

(** ** Python subscripts *)

Lemma index_Some len i k :
  Py.index len i = Some k ->
  (k < len)%nat /\ (i = Z.of_nat k \/ i = Z.of_nat k - Z.of_nat len).
Proof.
  unfold Py.index. intros H.
  repeat case_bool_decide; simplify_eq; lia.
Qed.

Lemma index_None len i :
  Py.index len i = None <-> (i < - Z.of_nat len \/ Z.of_nat len <= i).
Proof.
  unfold Py.index. repeat case_bool_decide; split; intros; simplify_eq; done || lia.
Qed.

Lemma index_nat len k : (k < len)%nat -> Py.index len (Z.of_nat k) = Some k.
Proof.
  intros Hk. unfold Py.index.
  rewrite bool_decide_eq_true_2 by lia. by rewrite Nat2Z.id.
Qed.

Lemma index_neg len k :
  (k < len)%nat -> Py.index len (Z.of_nat k - Z.of_nat len) = Some k.
Proof.
  intros Hk. unfold Py.index.
  rewrite bool_decide_eq_false_2 by lia.
  rewrite bool_decide_eq_true_2 by lia.
  f_equal. lia.
Qed.

Lemma getitem_Ok {A} (l : list A) i v :
  Py.getitem l i = Ok v <-> exists k, Py.index (length l) i = Some k /\ l !! k = Some v.
Proof.
  unfold Py.getitem. split.
  - destruct (Py.index (length l) i) as [k|] eqn:Hi; [|done].
    destruct (l !! k) as [w|] eqn:Hk; [|done].
    intros [= ->]. eauto.
  - intros (k & -> & ->). done.
Qed.

Lemma getitem_resolves {A} (l : list A) i k :
  Py.index (length l) i = Some k -> exists v, l !! k = Some v /\ Py.getitem l i = Ok v.
Proof.
  intros Hi. destruct (index_Some _ _ _ Hi) as [Hk _].
  destruct (lookup_lt_is_Some_2 l k Hk) as [v Hv].
  exists v. split; [done|]. apply getitem_Ok. eauto.
Qed.

Lemma getitem_nat {A} (l : list A) k v :
  l !! k = Some v -> Py.getitem l (Z.of_nat k) = Ok v.
Proof.
  intros Hv. apply getitem_Ok. exists k. split; [|done].
  apply index_nat. by eapply lookup_lt_Some.
Qed.

Lemma getitem_unresolved {A} (l : list A) i :
  Py.index (length l) i = None -> exists msg, Py.getitem l i = Raise (IndexError msg).
Proof. intros Hi. unfold Py.getitem. rewrite Hi. eauto. Qed.

Lemma setitem_Ok {A} (l l' : list A) i v :
  Py.setitem l i v = Ok l' <-> exists k, Py.index (length l) i = Some k /\ l' = <[k:=v]> l.
Proof.
  unfold Py.setitem. split.
  - destruct (Py.index (length l) i) as [k|]; [|done]. intros [= <-]. eauto.
  - intros (k & -> & ->). done.
Qed.

Lemma setitem_nat {A} (l : list A) k v :
  (k < length l)%nat -> Py.setitem l (Z.of_nat k) v = Ok (<[k:=v]> l).
Proof. intros Hk. apply setitem_Ok. exists k. by rewrite index_nat. Qed.

Lemma setitem_unresolved {A} (l : list A) i v :
  Py.index (length l) i = None -> exists msg, Py.setitem l i v = Raise (IndexError msg).
Proof. intros Hi. unfold Py.setitem. rewrite Hi. eauto. Qed.

(** ** The slicers *)

Lemma slicer_axis_step a_shape input_shape src dst k u r :
  a_shape !! k = Some u -> input_shape !! k = Some r ->
  (k < length src)%nat -> (k < length dst)%nat ->
  slicer_axis a_shape input_shape (src, dst) k =
    Ok (<[k:=source_slice_of u r]> src,
        if u <? r then <[k:=slice_to u]> dst else dst).
Proof.
  intros Hu Hr Hs Hd. unfold slicer_axis, source_slice_of.
  rewrite (getitem_nat _ _ _ Hu), (getitem_nat _ _ _ Hr). simpl.
  destruct (u >? r) eqn:Hgt.
  - rewrite setitem_nat by done. simpl.
    replace (u <? r) with false by lia. done.
  - destruct (u <? r) eqn:Hlt; rewrite !setitem_nat by done; done.
Qed.

Lemma slicers_loop a_shape input_shape n : forall k src dst,
  length a_shape = length input_shape ->
  (k + n = length a_shape)%nat ->
  length src = length a_shape -> length dst = length a_shape ->
  exists src' dst',
    Py.for_each (seq k n) (slicer_axis a_shape input_shape) (src, dst) = Ok (src', dst')
    /\ length src' = length a_shape /\ length dst' = length a_shape
    /\ (forall i, (i < k)%nat -> src' !! i = src !! i /\ dst' !! i = dst !! i)
    /\ (forall i u r, (k <= i)%nat ->
          a_shape !! i = Some u -> input_shape !! i = Some r ->
          src' !! i = Some (source_slice_of u r)
          /\ dst' !! i = if u <? r then Some (slice_to u) else dst !! i).
Proof.
  induction n as [|n IH]; intros k src dst Hlen Hk Hsrc Hdst.
  - exists src, dst. simpl. split_and!; [done..|].
    intros i u r Hi Hu Hr. apply lookup_lt_Some in Hu. lia.
  - destruct (lookup_lt_is_Some_2 a_shape k ltac:(lia)) as [u Hu].
    destruct (lookup_lt_is_Some_2 input_shape k ltac:(lia)) as [r Hr].
    cbn [seq Py.for_each].
    rewrite (slicer_axis_step _ _ _ _ _ u r) by (done || lia). cbn [bind].
    set (src1 := <[k:=source_slice_of u r]> src).
    set (dst1 := if u <? r then <[k:=slice_to u]> dst else dst).
    assert (length src1 = length a_shape) as Hsrc1
      by (unfold src1; by rewrite length_insert).
    assert (length dst1 = length a_shape) as Hdst1
      by (unfold dst1; destruct (u <? r); by rewrite ?length_insert).
    assert (forall i, i <> k -> src1 !! i = src !! i) as Hsrc_ne
      by (intros i Hi; unfold src1; by apply list_lookup_insert_ne).
    assert (forall i, i <> k -> dst1 !! i = dst !! i) as Hdst_ne
      by (intros i Hi; unfold dst1; destruct (u <? r);
          [by apply list_lookup_insert_ne | done]).
    destruct (IH (S k) src1 dst1 Hlen ltac:(lia) Hsrc1 Hdst1)
      as (src' & dst' & Hrun & Hls & Hld & Hbelow & Hfrom).
    exists src', dst'. split_and!; [done..| |].
    + intros i Hi. destruct (Hbelow i ltac:(lia)) as [-> ->].
      split; [apply Hsrc_ne | apply Hdst_ne]; lia.
    + intros i u' r' Hi Hu' Hr'.
      destruct (decide (i = k)) as [->|Hne].
      * simplify_eq. destruct (Hbelow k ltac:(lia)) as [-> ->].
        split; [unfold src1; apply list_lookup_insert_eq; lia|].
        unfold dst1. destruct (u <? r); [|done].
        apply list_lookup_insert_eq. lia.
      * destruct (Hfrom i u' r' ltac:(lia) Hu' Hr') as [-> ->].
        split; [done|]. destruct (u' <? r'); [done|].
        apply Hdst_ne. lia.
Qed.

Lemma slice_to_bounds n len :
  0 <= n <= len -> slice_bounds (slice_to n) len = (0, n).
Proof.
  intros Hn. unfold slice_bounds, slice_to, clip. simpl.
  replace (n <? 0) with false by lia. f_equal; lia.
Qed.

Lemma slice_all_bounds len : slice_bounds slice_all len = (0, len).
Proof. done. Qed.

(** C3 ([_setup_input_slicers]).  For shapes of equal rank the builder
    returns one source slice and one dest slice per axis.  On an axis where
    the user array is longer than required, the source is [slice(0, r)] and
    the dest is the full slice; where it is shorter, both are
    [slice(0, u)]; where the sizes agree, source and dest both span the
    whole axis.  For non-negative sizes the source selects [[0, min u r)] of
    the user axis, the dest selects [[0, min u r)] of the internal axis, and
    the two extents agree. *)
Theorem setup_input_slicers_per_axis (a_shape input_shape : list Z) :
  length a_shape = length input_shape ->
  exists src dst,
    _setup_input_slicers a_shape input_shape = Ok (src, dst)
    /\ length src = length a_shape /\ length dst = length a_shape
    /\ forall i u r,
         a_shape !! i = Some u -> input_shape !! i = Some r ->
         exists ss ds,
           src !! i = Some ss /\ dst !! i = Some ds
           /\ (u > r -> ss = slice_to r /\ ds = slice_all)
           /\ (u < r -> ss = slice_to u /\ ds = slice_to u)
           /\ (u = r -> ss = slice_to u /\ ds = slice_all)
           /\ (0 <= u -> 0 <= r ->
               (u > r -> slice_bounds ss u = (0, r) /\ slice_bounds ds r = (0, r))
               /\ (u < r -> slice_bounds ss u = (0, u) /\ slice_bounds ds r = (0, u))
               /\ (u = r -> slice_bounds ss u = (0, u) /\ slice_bounds ds r = (0, r))
               /\ slice_extent ss u = slice_extent ds r).
Proof.
  intros Hlen. unfold _setup_input_slicers.
  destruct (slicers_loop a_shape input_shape (length a_shape) 0
              (replicate (length a_shape) slice_all)
              (replicate (length a_shape) slice_all) Hlen eq_refl)
    as (src & dst & Hrun & Hls & Hld & _ & Hfrom);
    [by rewrite length_replicate..|].
  exists src, dst. split_and!; [done..|].
  intros i u r Hu Hr.
  destruct (Hfrom i u r ltac:(lia) Hu Hr) as [Hs Hd].
  assert (replicate (length a_shape) slice_all !! i = Some slice_all) as Hrep
    by (apply lookup_replicate_2; by eapply lookup_lt_Some).
  rewrite Hrep in Hd.
  exists (source_slice_of u r), (dest_slice_of u r).
  assert (dst !! i = Some (dest_slice_of u r)) as Hd'
    by (rewrite Hd; unfold dest_slice_of; by destruct (u <? r)).
  rewrite Hs, Hd'. unfold source_slice_of, dest_slice_of.
  split; [done|]. split; [done|].
  split; [intros; by replace (u >? r) with true by lia;
                     replace (u <? r) with false by lia|].
  split; [intros; by replace (u >? r) with false by lia;
                     replace (u <? r) with true by lia|].
  split; [intros; by replace (u >? r) with false by lia;
                     replace (u <? r) with false by lia|].
  intros Hu0 Hr0. unfold slice_extent.
  destruct (u >? r) eqn:Hgt, (u <? r) eqn:Hlt; try lia.
  all: rewrite ?slice_to_bounds, ?slice_all_bounds by lia.
  all: split_and!; intros; try lia; try done.
  all: try (f_equal; lia).
Qed.

(** C3, at [a_shape = (8, 4, 5)] against [input_shape = (4, 8, 5)]. *)
Lemma setup_input_slicers_per_axis_witness :
  exists src dst,
    _setup_input_slicers [8; 4; 5] [4; 8; 5] = Ok (src, dst)
    /\ length src = 3%nat /\ length dst = 3%nat
    /\ forall i u r,
         [8; 4; 5] !! i = Some u -> [4; 8; 5] !! i = Some r ->
         exists ss ds,
           src !! i = Some ss /\ dst !! i = Some ds
           /\ (u > r -> ss = slice_to r /\ ds = slice_all)
           /\ (u < r -> ss = slice_to u /\ ds = slice_to u)
           /\ (u = r -> ss = slice_to u /\ ds = slice_all)
           /\ (0 <= u -> 0 <= r ->
               (u > r -> slice_bounds ss u = (0, r) /\ slice_bounds ds r = (0, r))
               /\ (u < r -> slice_bounds ss u = (0, u) /\ slice_bounds ds r = (0, u))
               /\ (u = r -> slice_bounds ss u = (0, u) /\ slice_bounds ds r = (0, r))
               /\ slice_extent ss u = slice_extent ds r).
Proof. apply (setup_input_slicers_per_axis [8; 4; 5] [4; 8; 5]). reflexivity. Defined.

(** ** The shape resolver *)

Lemma index_is_Some len ax :
  is_Some (Py.index len ax) <-> - Z.of_nat len <= ax < Z.of_nat len.
Proof.
  destruct (Py.index len ax) as [k|] eqn:Hk.
  - split; [|by eexists]. intros _. apply index_Some in Hk. lia.
  - split; [by intros [? ?]|]. apply index_None in Hk. lia.
Qed.

Lemma assign_axes_diag axes : forall n s l,
  assign_axes n axes s l l = let* l' := write_axes n axes s l in Ok (l', l').
Proof.
  induction axes as [|ax axes IH]; intros n s l; [done|].
  cbn [assign_axes write_axes].
  destruct (Py.getitem s (Z.of_nat n)) as [s_n|e]; [|done]. cbn [bind].
  destruct (Py.setitem l ax s_n) as [l1|e]; [|done]. cbn [bind].
  apply IH.
Qed.

Lemma write_axes_length axes : forall n s l l',
  write_axes n axes s l = Ok l' -> length l' = length l.
Proof.
  induction axes as [|ax axes IH]; intros n s l l' H; cbn in H.
  - by simplify_eq.
  - destruct (Py.getitem s (Z.of_nat n)) as [s_n|e]; [|done]. cbn in H.
    destruct (Py.setitem l ax s_n) as [l1|e] eqn:Hset; [|done]. cbn in H.
    apply setitem_Ok in Hset as (k & _ & ->).
    rewrite (IH _ _ _ _ H). apply length_insert.
Qed.

(** The loop succeeds as soon as the axes resolve and [s] is long enough. *)
Lemma write_axes_total axes : forall n s l,
  resolvable (length l) axes -> (n + length axes <= length s)%nat ->
  exists l', write_axes n axes s l = Ok l'.
Proof.
  induction axes as [|ax axes IH]; intros n s l Hres Hlen; [by eexists|].
  apply Forall_cons in Hres as [Hk Hres]. cbn [length] in Hlen.
  apply index_is_Some in Hk as [k Hk].
  destruct (lookup_lt_is_Some_2 s n ltac:(lia)) as [s_n Hs].
  cbn [write_axes]. rewrite (getitem_nat _ _ _ Hs). cbn [bind].
  unfold Py.setitem. rewrite Hk. cbn [bind].
  apply IH; [by rewrite length_insert | lia].
Qed.

(** An axis that does not resolve stops the loop. *)
Lemma write_axes_unresolved axes : forall n s l,
  Exists (fun ax => Py.index (length l) ax = None) axes ->
  exists msg, write_axes n axes s l = Raise (IndexError msg).
Proof.
  induction axes as [|ax axes IH]; intros n s l Hex.
  - by apply Exists_nil in Hex.
  - cbn [write_axes].
    destruct (Py.getitem s (Z.of_nat n)) as [s_n|e] eqn:Hget; cbn [bind].
    + destruct (Py.index (length l) ax) as [k|] eqn:Hk.
      * unfold Py.setitem. rewrite Hk. cbn [bind].
        apply IH. rewrite length_insert.
        apply Exists_cons in Hex as [Hex|Hex]; [congruence|done].
      * destruct (setitem_unresolved l ax s_n Hk) as [msg ->]. eauto.
    + unfold Py.getitem in Hget.
      repeat (case_match; simplify_eq); eauto.
Qed.

(** Positions no axis points at keep their size. *)
Lemma write_axes_untouched axes : forall n s l l' j,
  write_axes n axes s l = Ok l' ->
  ~ written (length l) axes j -> l' !! j = l !! j.
Proof.
  induction axes as [|ax axes IH]; intros n s l l' j H Hj; cbn in H.
  - by simplify_eq.
  - destruct (Py.getitem s (Z.of_nat n)) as [s_n|e]; [|done]. cbn in H.
    destruct (Py.setitem l ax s_n) as [l1|e] eqn:Hset; [|done]. cbn in H.
    apply setitem_Ok in Hset as (k & Hk & ->).
    rewrite (IH _ _ _ _ j H).
    + apply list_lookup_insert_ne. intros ->. apply Hj.
      exists ax. split; [by left | done].
    + rewrite length_insert. intros (ax' & Hin & Hax').
      apply Hj. exists ax'. split; [by right | done].
Qed.

(** A position holds the size listed with the last axis pointing at it. *)
Lemma write_axes_last_writer axes : forall n s l l' m ax j,
  write_axes n axes s l = Ok l' ->
  axes !! m = Some ax -> Py.index (length l) ax = Some j ->
  (forall m' ax', (m < m')%nat -> axes !! m' = Some ax' ->
                  Py.index (length l) ax' <> Some j) ->
  l' !! j = s !! (n + m)%nat /\ is_Some (s !! (n + m)%nat).
Proof.
  induction axes as [|ax0 axes IH]; intros n s l l' m ax j H Hm Hj Hlast;
    cbn in H; [done|].
  destruct (Py.getitem s (Z.of_nat n)) as [s_n|e] eqn:Hget; [|done]. cbn in H.
  destruct (Py.setitem l ax0 s_n) as [l1|e] eqn:Hset; [|done]. cbn in H.
  apply setitem_Ok in Hset as (k & Hk & ->).
  apply getitem_Ok in Hget as (k' & Hk' & Hs).
  destruct (index_Some _ _ _ Hk') as [Hlt' [Hz|Hz]]; [|lia].
  apply Nat2Z.inj in Hz as <-.
  destruct m as [|m]; cbn in Hm.
  - injection Hm as ->. rewrite Hk in Hj. injection Hj as ->.
    rewrite Nat.add_0_r, Hs. split; [|by eexists].
    rewrite (write_axes_untouched _ _ _ _ _ j H).
    + apply list_lookup_insert_eq. by destruct (index_Some _ _ _ Hk).
    + rewrite length_insert. intros (ax' & Hin & Hax').
      apply list_elem_of_In, list_elem_of_lookup in Hin as [m' Hm'].
      by apply (Hlast (S m') ax' ltac:(lia)).
  - replace (n + S m)%nat with (S n + m)%nat by lia.
    apply (IH (S n) s _ l' m ax j H Hm).
    + by rewrite length_insert.
    + rewrite length_insert. intros m' ax' Hlt Hm'.
      apply (Hlast (S m') ax'); [lia | done].
Qed.

(** Every position is either untouched or has a last writer. *)
Lemma written_dec len axes j :
  ~ written len axes j \/
  exists m ax, axes !! m = Some ax /\ Py.index len ax = Some j /\
    forall m' ax', (m < m')%nat -> axes !! m' = Some ax' ->
                   Py.index len ax' <> Some j.
Proof.
  induction axes as [|ax axes IH].
  - left. by intros (ax & [] & _).
  - destruct IH as [Hno|(m & ax' & Hm & Hax' & Hlast)].
    + destruct (decide (Py.index len ax = Some j)) as [Hax|Hax].
      * right. exists 0%nat, ax. split_and!; [done..|].
        intros [|m'] ax' Hlt Hm' Hidx; [lia|]. cbn in Hm'.
        apply Hno. exists ax'. split; [|done].
        apply list_elem_of_In, list_elem_of_lookup. eauto.
      * left. intros (ax' & [<-|Hin] & Hidx); [done|].
        apply Hno. by exists ax'.
    + right. exists (S m), ax'. split_and!; [done..|].
      intros [|m'] ax'' Hlt Hm'; [lia|]. cbn in Hm'.
      apply (Hlast m'); [lia | done].
Qed.

(** Writing the same axes over two shapes that differ only at written
    positions gives the same result. *)
Lemma write_axes_agree axes : forall n s l1 l2 l1',
  write_axes n axes s l1 = Ok l1' ->
  length l2 = length l1 ->
  (forall j, l2 !! j = l1 !! j \/ written (length l1) axes j) ->
  write_axes n axes s l2 = Ok l1'.
Proof.
  induction axes as [|ax axes IH]; intros n s l1 l2 l1' H Hlen Hagree; cbn in H.
  - simplify_eq. cbn. f_equal. apply list_eq. intros j.
    destruct (Hagree j) as [Hj|(ax & [] & _)]. done.
  - destruct (Py.getitem s (Z.of_nat n)) as [s_n|e] eqn:Hget; [|done]. cbn in H.
    destruct (Py.setitem l1 ax s_n) as [l1a|e] eqn:Hset; [|done]. cbn in H.
    apply setitem_Ok in Hset as (k & Hk & ->).
    cbn [write_axes]. rewrite Hget. cbn [bind].
    unfold Py.setitem. rewrite Hlen, Hk. cbn [bind].
    apply (IH _ _ _ _ _ H); [by rewrite !length_insert|].
    intros j. rewrite length_insert.
    destruct (decide (j = k)) as [->|Hne].
    + left. rewrite !list_lookup_insert_eq; [done|..].
      * by destruct (index_Some _ _ _ Hk).
      * rewrite Hlen. by destruct (index_Some _ _ _ Hk).
    + rewrite !list_lookup_insert_ne by done.
      destruct (Hagree j) as [Hj|(ax' & [<-|Hin] & Hidx)]; [by left|congruence|].
      right. by exists ax'.
Qed.

Lemma index_last len : (0 < len)%nat -> Py.index len (-1) = Some (pred len).
Proof.
  intros Hlen. unfold Py.index.
  rewrite bool_decide_eq_false_2 by lia.
  rewrite bool_decide_eq_true_2 by lia. f_equal. lia.
Qed.

Lemma getitem_last {A} (l : list A) v : last l = Some v -> Py.getitem l (-1) = Ok v.
Proof.
  intros Hlast. rewrite last_lookup in Hlast.
  apply getitem_Ok. exists (pred (length l)). split; [|done].
  apply index_last. apply lookup_lt_Some in Hlast. lia.
Qed.

Lemma last_is_Some {A} (l : list A) : l <> [] -> is_Some (last l).
Proof.
  intros Hl. rewrite last_lookup. apply lookup_lt_is_Some_2.
  destruct l; [done|]. cbn. lia.
Qed.

Lemma halve_last_axis_length len s axes orig :
  length (halve_last_axis len s axes orig) = length orig.
Proof.
  unfold halve_last_axis. repeat case_match; by rewrite ?length_insert.
Qed.

(** What the resolver returns whenever it returns. *)
Lemma compute_array_shapes_run a_shape s axes inverse real :
  length s = length axes ->
  resolvable (length a_shape) axes ->
  (real = true -> axes <> []) ->
  exists orig,
    write_axes 0 axes s a_shape = Ok orig
    /\ _compute_array_shapes a_shape s axes inverse real =
       let fft := if real then halve_last_axis (length a_shape) s axes orig else orig in
       Ok (if inverse then (fft, orig) else (orig, fft)).
Proof.
  intros Hlen Hres Hne.
  destruct (write_axes_total axes 0 s a_shape Hres ltac:(lia)) as [orig Horig].
  exists orig. split; [done|].
  pose proof (write_axes_length _ _ _ _ _ Horig) as Hlo.
  unfold _compute_array_shapes. rewrite assign_axes_diag, Horig. cbn [bind].
  destruct real; cbn zeta.
  - destruct (last_is_Some axes (Hne eq_refl)) as [ax Hax].
    assert (s <> []) as Hs
      by (intros ->; destruct axes; [by apply Hne | done]).
    destruct (last_is_Some s Hs) as [sz Hsz].
    assert (is_Some (Py.index (length a_shape) ax)) as [j Hj].
    { apply index_is_Some.
      unfold resolvable in Hres. rewrite Forall_forall in Hres. apply Hres.
      rewrite last_lookup in Hax. apply list_elem_of_lookup. eauto. }
    rewrite (getitem_last _ _ Hsz), (getitem_last _ _ Hax). cbn [bind].
    unfold Py.setitem, halve_last_axis. rewrite Hlo, Hax, Hsz, Hj.
    by destruct inverse.
  - by destruct inverse.
Qed.

(** An axis that does not resolve always ends in the resolver's own error. *)
Lemma compute_array_shapes_unresolved a_shape s axes inverse real :
  Exists (fun ax => Py.index (length a_shape) ax = None) axes ->
  _compute_array_shapes a_shape s axes inverse real = Raise invalid_axes.
Proof.
  intros Hex. unfold _compute_array_shapes. rewrite assign_axes_diag.
  by destruct (write_axes_unresolved axes 0 s a_shape Hex) as [msg ->].
Qed.

(** The size at the position of the last listed axis. *)
Lemma write_axes_last_axis a_shape s axes orig ax sz j :
  length s = length axes ->
  write_axes 0 axes s a_shape = Ok orig ->
  last axes = Some ax -> last s = Some sz ->
  Py.index (length a_shape) ax = Some j ->
  orig !! j = Some sz.
Proof.
  intros Hlen Horig Hax Hsz Hj. rewrite last_lookup in Hax, Hsz.
  destruct (write_axes_last_writer axes 0 s a_shape orig (pred (length axes)) ax j
              Horig Hax Hj) as [-> _].
  - intros m' ax' Hlt Hm'. apply lookup_lt_Some in Hm'. lia.
  - cbn. by rewrite <- Hlen.
Qed.

(** C2 (amended).  When [s] and [axes] have the same length, every axis
    resolves against the rank of the array and - for a real transform -
    at least one axis is listed, [_compute_array_shapes] returns an
    [input_shape] and an [output_shape] of the rank of the array that keep
    the array's size at every position no axis points at.  For a real
    transform the position of the last listed axis holds [s[-1]//2 + 1] in
    the transform-domain shape ([output_shape] when forward, [input_shape]
    when inverse) and the full [s[-1]] in the other one.  The bound
    [len(axes) <= len(a.shape)] is not needed. *)
Theorem compute_array_shapes_rank_and_sizes a_shape s axes inverse real :
  length s = length axes ->
  resolvable (length a_shape) axes ->
  (real = true -> axes <> []) ->
  exists input_shape output_shape,
    _compute_array_shapes a_shape s axes inverse real = Ok (input_shape, output_shape)
    /\ length input_shape = length a_shape
    /\ length output_shape = length a_shape
    /\ (forall j, ~ written (length a_shape) axes j ->
          input_shape !! j = a_shape !! j /\ output_shape !! j = a_shape !! j)
    /\ (real = true ->
        forall ax sz j,
          last axes = Some ax -> last s = Some sz ->
          Py.index (length a_shape) ax = Some j ->
          (if inverse then input_shape else output_shape) !! j = Some (sz / 2 + 1)
          /\ (if inverse then output_shape else input_shape) !! j = Some sz).
Proof.
  intros Hlen Hres Hne.
  destruct (compute_array_shapes_run a_shape s axes inverse real Hlen Hres Hne)
    as (orig & Horig & ->). cbn zeta.
  pose proof (write_axes_length _ _ _ _ _ Horig) as Hlo.
  set (fft := if real then halve_last_axis (length a_shape) s axes orig else orig).
  assert (length fft = length a_shape) as Hlf
    by (unfold fft; destruct real; by rewrite ?halve_last_axis_length).
  assert (forall j, ~ written (length a_shape) axes j -> orig !! j = a_shape !! j)
    as Horig_keep by (intros j Hj; by eapply write_axes_untouched).
  assert (forall j, ~ written (length a_shape) axes j -> fft !! j = a_shape !! j)
    as Hfft_keep.
  { intros j Hj. rewrite <- (Horig_keep j Hj).
    unfold fft, halve_last_axis. destruct real; [|done].
    destruct (last axes) as [ax|] eqn:Hax; [|done].
    destruct (last s) as [sz|]; [|done].
    destruct (Py.index (length a_shape) ax) as [k|] eqn:Hk; [|done].
    apply list_lookup_insert_ne. intros ->. apply Hj.
    exists ax. split; [|done].
    rewrite last_lookup in Hax. apply list_elem_of_In, list_elem_of_lookup. eauto. }
  assert (real = true -> forall ax sz j,
            last axes = Some ax -> last s = Some sz ->
            Py.index (length a_shape) ax = Some j ->
            fft !! j = Some (sz / 2 + 1) /\ orig !! j = Some sz) as Hlast.
  { intros -> ax sz j Hax Hsz Hj. split.
    - unfold fft, halve_last_axis. rewrite Hax, Hsz, Hj.
      apply list_lookup_insert_eq. rewrite Hlo. by destruct (index_Some _ _ _ Hj).
    - exact (write_axes_last_axis a_shape s axes orig ax sz j Hlen Horig Hax Hsz Hj). }
  destruct inverse; eexists _, _; (split; [reflexivity|]).
  - split; [done|]. split; [done|]. split.
    + intros j Hj. split; auto.
    + intros Hr ax sz j Hax Hsz Hj. exact (Hlast Hr ax sz j Hax Hsz Hj).
  - split; [done|]. split; [done|]. split.
    + intros j Hj. split; auto.
    + intros Hr ax sz j Hax Hsz Hj. exact (Hlast Hr ax sz j Hax Hsz Hj).
Qed.

(** C2, for a forward real transform of a [(10, 7)] array along its last
    axis with 12 points. *)
Lemma compute_array_shapes_rank_and_sizes_witness :
  exists input_shape output_shape,
    _compute_array_shapes [10; 7] [12] [-1] false true = Ok (input_shape, output_shape)
    /\ length input_shape = 2%nat
    /\ length output_shape = 2%nat
    /\ (forall j, ~ written 2 [-1] j ->
          input_shape !! j = [10; 7] !! j /\ output_shape !! j = [10; 7] !! j)
    /\ (true = true ->
        forall ax sz j,
          last [-1] = Some ax -> last [12] = Some sz ->
          Py.index 2 ax = Some j ->
          output_shape !! j = Some (sz / 2 + 1) /\ input_shape !! j = Some sz).
Proof.
  apply (compute_array_shapes_rank_and_sizes [10; 7] [12] [-1] false true).
  - reflexivity.
  - repeat constructor; cbn; lia.
  - discriminate.
Defined.

(** C2 as stated fails: without a listed axis a real transform has no last
    axis, and the resolver raises its axis error although the lengths agree
    and every (of no) axis resolves.  The normalizer hands over such
    arguments for [s=[]], [axes=None]. *)
Lemma compute_array_shapes_real_without_axes :
  _cook_nd_args [4] (Some []) None false = Ok ([], [])
  /\ length (@nil Z) = length (@nil Z)
  /\ (length (@nil Z) <= length [4])%nat
  /\ resolvable (length [4]) []
  /\ _compute_array_shapes [4] [] [] false true = Raise invalid_axes
  /\ ~ (forall a_shape s axes inverse real,
          length s = length axes ->
          (length axes <= length a_shape)%nat ->
          resolvable (length a_shape) axes ->
          exists input_shape output_shape,
            _compute_array_shapes a_shape s axes inverse real
              = Ok (input_shape, output_shape)
            /\ length input_shape = length a_shape
            /\ length output_shape = length a_shape).
Proof.
  split_and!; [done | done | cbn; lia | constructor | done |].
  intros H.
  destruct (H [4] [] [] false true eq_refl ltac:(cbn; lia) ltac:(constructor))
    as (i & o & Hrun & _).
  discriminate Hrun.
Qed.

(** C7.  If some listed axis lies outside [[-ndim, ndim)] the resolver
    raises its axis error, whatever the other arguments are; it never wraps
    such an index around.  If all axes lie inside (with [s] as long as
    [axes], and an axis listed for a real transform) it returns, and an
    axis [-ndim <= ax < 0] addresses position [ndim + ax]: the
    original-domain shape holds there the size listed with [ax], unless a
    later axis addresses the same position. *)
Theorem compute_array_shapes_axis_validity a_shape s axes inverse real :
  (Exists (fun ax => ax < - Z.of_nat (length a_shape) \/ Z.of_nat (length a_shape) <= ax) axes ->
   _compute_array_shapes a_shape s axes inverse real = Raise invalid_axes)
  /\ (length s = length axes ->
      resolvable (length a_shape) axes ->
      (real = true -> axes <> []) ->
      exists input_shape output_shape,
        _compute_array_shapes a_shape s axes inverse real = Ok (input_shape, output_shape)
        /\ forall n ax sz,
             axes !! n = Some ax -> s !! n = Some sz ->
             - Z.of_nat (length a_shape) <= ax < 0 ->
             (forall n' ax', (n < n')%nat -> axes !! n' = Some ax' ->
                ax' <> ax /\ ax' <> Z.of_nat (length a_shape) + ax) ->
             (if inverse then output_shape else input_shape)
               !! Z.to_nat (Z.of_nat (length a_shape) + ax) = Some sz).
Proof.
  split.
  - intros Hex. apply compute_array_shapes_unresolved.
    eapply Exists_impl; [exact Hex|]. intros ax Hax. by apply index_None.
  - intros Hlen Hres Hne.
    destruct (compute_array_shapes_run a_shape s axes inverse real Hlen Hres Hne)
      as (orig & Horig & ->). cbn zeta.
    exists (if inverse
            then (if real then halve_last_axis (length a_shape) s axes orig else orig)
            else orig),
           (if inverse
            then orig
            else (if real then halve_last_axis (length a_shape) s axes orig else orig)).
    split; [by destruct inverse|].
    intros n ax sz Hn Hsz Hax Hlater.
    set (j := Z.to_nat (Z.of_nat (length a_shape) + ax)).
    assert (Py.index (length a_shape) ax = Some j) as Hj.
    { replace ax with (Z.of_nat j - Z.of_nat (length a_shape)) by lia.
      apply index_neg. lia. }
    destruct (write_axes_last_writer axes 0 s a_shape orig n ax j Horig Hn Hj)
      as [Hw _].
    + intros n' ax' Hlt Hn' Hj'. destruct (Hlater n' ax' Hlt Hn') as [H1 H2].
      apply index_Some in Hj' as [_ [?|?]]; lia.
    + cbn in Hw. rewrite Hsz in Hw. by destruct inverse.
Qed.

(** C7, on a [(10, 7)] array: axis [2] is rejected, axis [-2] addresses
    position [0]. *)
Lemma compute_array_shapes_axis_validity_witness :
  _compute_array_shapes [10; 7] [4] [2] false false = Raise invalid_axes
  /\ exists input_shape output_shape,
       _compute_array_shapes [10; 7] [4] [-2] false false = Ok (input_shape, output_shape)
       /\ input_shape !! 0%nat = Some 4.
Proof.
  pose proof (compute_array_shapes_axis_validity [10; 7] [4] [2] false false) as [Hbad _].
  pose proof (compute_array_shapes_axis_validity [10; 7] [4] [-2] false false) as [_ Hgood].
  split.
  - apply Hbad. constructor. cbn. lia.
  - destruct Hgood as (i & o & Hrun & Hat).
    + reflexivity.
    + repeat constructor; cbn; lia.
    + discriminate.
    + exists i, o. split; [exact Hrun|].
      apply (Hat 0%nat (-2) 4); [reflexivity | reflexivity | cbn; lia |].
      intros [|n'] ax' Hlt Hn'; [lia | discriminate Hn'].
Defined.

(** C4 (amended).  Resolve a forward real transform, then resolve the
    inverse real transform of an array shaped like the forward output
    with the same [s] and [axes] (at least one axis, all resolvable).  The
    inverse needs exactly the forward output as its input and gives back
    the forward input shape as its output; along every transformed axis
    that output holds the size listed with the last occurrence of the
    axis, hence [s[n]] itself at [axes[n]] when no later axis addresses the
    same position. *)
Theorem real_round_trip a_shape s axes :
  length s = length axes ->
  axes <> [] ->
  resolvable (length a_shape) axes ->
  exists in_f out_f in_i out_i,
    _compute_array_shapes a_shape s axes false true = Ok (in_f, out_f)
    /\ _compute_array_shapes out_f s axes true true = Ok (in_i, out_i)
    /\ in_i = out_f /\ out_i = in_f
    /\ forall n ax sz j,
         axes !! n = Some ax -> s !! n = Some sz ->
         Py.index (length a_shape) ax = Some j ->
         (forall n' ax', (n < n')%nat -> axes !! n' = Some ax' ->
                         Py.index (length a_shape) ax' <> Some j) ->
         out_i !! j = Some sz.
Proof.
  intros Hlen Hne Hres.
  destruct (compute_array_shapes_run a_shape s axes false true Hlen Hres (fun _ => Hne))
    as (orig & Horig & Hfwd). cbn zeta in Hfwd.
  set (fft := halve_last_axis (length a_shape) s axes orig) in *.
  pose proof (write_axes_length _ _ _ _ _ Horig) as Hlo.
  assert (length fft = length a_shape) as Hlf
    by (unfold fft; by rewrite halve_last_axis_length).
  assert (write_axes 0 axes s fft = Ok orig) as Hagain.
  { apply (write_axes_agree axes 0 s a_shape fft orig Horig Hlf).
    intros j. destruct (written_dec (length a_shape) axes j)
      as [Hno|(m & ax & Hm & Hax & _)].
    - left. rewrite <- (write_axes_untouched _ _ _ _ _ j Horig Hno).
      unfold fft, halve_last_axis.
      destruct (last axes) as [ax|] eqn:Hax; [|done].
      destruct (last s) as [sz|]; [|done].
      destruct (Py.index (length a_shape) ax) as [k|] eqn:Hk; [|done].
      apply list_lookup_insert_ne. intros ->. apply Hno.
      exists ax. split; [|done].
      rewrite last_lookup in Hax. apply list_elem_of_In, list_elem_of_lookup. eauto.
    - right. exists ax. split; [|done].
      apply list_elem_of_In, list_elem_of_lookup. eauto. }
  destruct (compute_array_shapes_run fft s axes true true Hlen
              ltac:(by rewrite Hlf) (fun _ => Hne))
    as (orig' & Horig' & Hinv). cbn zeta in Hinv.
  rewrite Hagain in Horig'. injection Horig' as <-.
  rewrite Hlf in Hinv. fold fft in Hinv.
  exists orig, fft, fft, orig. split_and!; [done..|].
  intros n ax sz j Hn Hsz Hj Hlater.
  destruct (write_axes_last_writer axes 0 s a_shape orig n ax j Horig Hn Hj Hlater)
    as [-> _].
  done.
Qed.

(** C4, for a [(10, 7)] array transformed along both axes. *)
Lemma real_round_trip_witness :
  exists in_f out_f in_i out_i,
    _compute_array_shapes [10; 7] [12; 8] [0; 1] false true = Ok (in_f, out_f)
    /\ _compute_array_shapes out_f [12; 8] [0; 1] true true = Ok (in_i, out_i)
    /\ in_i = out_f /\ out_i = in_f
    /\ forall n ax sz j,
         [0; 1] !! n = Some ax -> [12; 8] !! n = Some sz ->
         Py.index 2 ax = Some j ->
         (forall n' ax', (n < n')%nat -> [0; 1] !! n' = Some ax' ->
                         Py.index 2 ax' <> Some j) ->
         out_i !! j = Some sz.
Proof.
  apply (real_round_trip [10; 7] [12; 8] [0; 1]).
  - reflexivity.
  - discriminate.
  - repeat constructor; cbn; lia.
Defined.

(** C4 as stated fails when an axis is listed twice: the later size wins
    at that position, so the inverse's output does not carry the size
    listed first.  The normalizer accepts such arguments. *)
Lemma real_round_trip_repeated_axis :
  _cook_nd_args [8; 8] (Some [4; 6]) (Some [0; 0]) false = Ok ([4; 6], [0; 0])
  /\ length [4; 6] = length [0; 0]
  /\ (length [0; 0] <= length [8; 8])%nat
  /\ resolvable (length [8; 8]) [0; 0]
  /\ _compute_array_shapes [8; 8] [4; 6] [0; 0] false true = Ok ([6; 8], [4; 8])
  /\ _compute_array_shapes [4; 8] [4; 6] [0; 0] true true = Ok ([4; 8], [6; 8])
  /\ ~ (forall n ax sz j,
          [0; 0] !! n = Some ax -> [4; 6] !! n = Some sz ->
          Py.index 2 ax = Some j ->
          [6; 8] !! j = Some sz).
Proof.
  split_and!; [done | done | cbn; lia | repeat constructor; cbn; lia | done | done |].
  intros H. specialize (H 0%nat 0 4 0%nat eq_refl eq_refl eq_refl). discriminate H.
Qed.

(** ** The normalizer *)

Lemma range_last_axes k : Py.range (- Z.of_nat k) 0 = last_axes k.
Proof.
  unfold Py.range, last_axes.
  replace (Z.to_nat (0 - - Z.of_nat k)) with k by lia.
  apply map_ext. intros n. lia.
Qed.

Lemma length_last_axes k : length (last_axes k) = k.
Proof. unfold last_axes. by rewrite length_map, length_seq. Qed.

Lemma lookup_last_axes k n :
  (n < k)%nat -> last_axes k !! n = Some (Z.of_nat n - Z.of_nat k).
Proof.
  intros Hn. unfold last_axes. rewrite list_lookup_fmap.
  by rewrite lookup_seq_lt.
Qed.

Lemma resolvable_last_axes len k : (k <= len)%nat -> resolvable len (last_axes k).
Proof.
  intros Hk. apply Forall_forall. intros ax Hax.
  apply list_elem_of_lookup in Hax as [n Hn].
  assert (n < k)%nat as Hlt
    by (apply lookup_lt_Some in Hn; by rewrite length_last_axes in Hn).
  rewrite lookup_last_axes in Hn by done. simplify_eq. lia.
Qed.

(** [numpy.take] succeeds on resolvable indices and reads the shape at the
    resolved positions. *)
Lemma numpy_take_resolvable shape indices :
  resolvable (length shape) indices ->
  exists vs,
    numpy_take shape indices = Ok vs
    /\ length vs = length indices
    /\ forall n ax, indices !! n = Some ax ->
         exists j v, Py.index (length shape) ax = Some j
                     /\ shape !! j = Some v /\ vs !! n = Some v.
Proof.
  induction indices as [|i indices IH]; intros Hres.
  - exists []. split_and!; [done..|]. intros n ax Hn. done.
  - apply Forall_cons in Hres as [Hi Hres].
    apply index_is_Some in Hi as [j Hj].
    destruct (getitem_resolves shape i j Hj) as (v & Hv & Hget).
    destruct (IH Hres) as (vs & Htake & Hlen & Hat).
    exists (v :: vs). cbn [numpy_take]. rewrite Hget, Htake. cbn [bind].
    split_and!; [done | cbn; by rewrite Hlen |].
    intros [|n] ax Hn; cbn in Hn.
    + simplify_eq. by exists j, v.
    + by apply Hat.
Qed.

Lemma numpy_take_unresolved shape indices :
  ~ resolvable (length shape) indices ->
  exists msg, numpy_take shape indices = Raise (IndexError msg).
Proof.
  induction indices as [|i indices IH]; intros Hres.
  - destruct Hres. constructor.
  - cbn [numpy_take].
    destruct (Py.index (length shape) i) as [j|] eqn:Hj.
    + destruct (getitem_resolves shape i j Hj) as (v & _ & ->). cbn [bind].
      destruct IH as [msg ->]; [|by eexists].
      intros Hrest. apply Hres. constructor; [|done].
      apply index_is_Some. by eexists.
    + destruct (getitem_unresolved shape i Hj) as [msg ->]. by eexists.
Qed.

(** Taking the last [k] axes reads the shape from position [len - k] on. *)
Lemma numpy_take_all shape :
  numpy_take shape (last_axes (length shape)) = Ok shape.
Proof.
  destruct (numpy_take_resolvable shape (last_axes (length shape))
              (resolvable_last_axes _ _ (le_n _))) as (vs & -> & Hlen & Hat).
  f_equal. rewrite length_last_axes in Hlen.
  apply list_eq. intros n.
  destruct (decide (n < length shape)%nat) as [Hn|Hn].
  - destruct (Hat n _ (lookup_last_axes _ n Hn)) as (j & v & Hj & Hv & ->).
    rewrite index_neg in Hj by done. by simplify_eq.
  - rewrite !(proj2 (lookup_ge_None _ _)); [done|lia..].
Qed.

(** The defaulting stage, case by case. *)
Lemma cook_defaults_given a_shape s axes invreal :
  cook_defaults a_shape (Some s) axes invreal =
    Ok (s, match axes with
           | Some axes => axes
           | None => last_axes (length s)
           end).
Proof. unfold cook_defaults. destruct axes; by rewrite ?range_last_axes. Qed.

Lemma cook_defaults_taken a_shape axes invreal :
  let axes' := match axes with
               | Some axes => axes
               | None => last_axes (length a_shape)
               end in
  resolvable (length a_shape) axes' ->
  (invreal = true -> axes' <> []) ->
  exists s',
    cook_defaults a_shape None axes invreal = Ok (s', axes')
    /\ length s' = length axes'
    /\ forall n ax, axes' !! n = Some ax ->
         exists j v, Py.index (length a_shape) ax = Some j
           /\ a_shape !! j = Some v
           /\ s' !! n = Some (if invreal && bool_decide (n = pred (length axes'))
                              then (v - 1) * 2 else v).
Proof.
  intros axes' Hres Hne.
  assert (cook_defaults a_shape None axes invreal =
          let* s := numpy_take a_shape axes' in
          if invreal then
            let* axis_last := Py.getitem axes' (-1) in
            let* n_last := Py.getitem a_shape axis_last in
            let* s' := Py.setitem s (-1) ((n_last - 1) * 2) in
            Ok (s', axes')
          else Ok (s, axes')) as ->.
  { unfold cook_defaults, axes'. destruct axes; by rewrite ?range_last_axes. }
  destruct (numpy_take_resolvable a_shape axes' Hres) as (vs & -> & Hlen & Hat).
  cbn [bind]. destruct invreal; cbn [andb].
  - destruct (last_is_Some axes' (Hne eq_refl)) as [ax Hax].
    rewrite (getitem_last _ _ Hax). cbn [bind].
    rewrite last_lookup in Hax.
    destruct (Hat _ _ Hax) as (j & v & Hj & Hv & Hvs).
    destruct (getitem_resolves a_shape ax j Hj) as (v' & Hv' & ->).
    assert (v' = v) as -> by congruence. cbn [bind].
    assert (0 < length vs)%nat as Hpos by (apply lookup_lt_Some in Hvs; lia).
    unfold Py.setitem. rewrite (index_last _ Hpos). cbn [bind].
    eexists. split; [reflexivity|]. split; [by rewrite length_insert|].
    intros n ax' Hn. case_bool_decide as Hlast.
    + subst n. rewrite Hax in Hn. injection Hn as <-.
      exists j, v. split_and!; [done..|].
      rewrite Hlen. apply list_lookup_insert_eq. lia.
    + destruct (Hat n ax' Hn) as (j' & w & Hj' & Hw & Hn').
      exists j', w. split_and!; [done..|].
      rewrite list_lookup_insert_ne by lia. done.
  - exists vs. split_and!; [done..|]. intros n ax Hn.
    destruct (Hat n ax Hn) as (j & v & ? & ? & ?). by exists j, v.
Qed.

Lemma cook_checks_pass a_shape s axes :
  length s = length axes -> (length s <= length a_shape)%nat ->
  cook_checks a_shape s axes = Ok (s, axes).
Proof.
  intros Heq Hle. unfold cook_checks.
  rewrite (proj2 (Nat.eqb_eq _ _) Heq). cbn [negb].
  by rewrite (proj2 (Nat.ltb_ge _ _) Hle).
Qed.

Lemma cook_checks_lengths a_shape s axes :
  length s <> length axes -> cook_checks a_shape s axes = Raise shape_error_lengths.
Proof.
  intros Hne. unfold cook_checks. by rewrite (proj2 (Nat.eqb_neq _ _) Hne).
Qed.

Lemma cook_checks_dims a_shape s axes :
  length s = length axes -> (length a_shape < length s)%nat ->
  cook_checks a_shape s axes = Raise shape_error_dims.
Proof.
  intros Heq Hlt. unfold cook_checks.
  rewrite (proj2 (Nat.eqb_eq _ _) Heq). cbn [negb].
  by rewrite (proj2 (Nat.ltb_lt _ _) Hlt).
Qed.

Lemma last_last_axes k : (0 < k)%nat -> last (last_axes k) = Some (-1).
Proof.
  intros Hk. rewrite last_lookup, length_last_axes.
  rewrite lookup_last_axes by lia. f_equal. lia.
Qed.

(** C5.  With [axes=None] the normalizer returns the last [k] axes as
    negative indices [-k, ..., -1], where [k] is [len(s)] when [s] is given
    and the rank of the array otherwise.  With [s=None] the sizes are read
    from the shape of the array at the (given or defaulted) axes, and for
    an inverse real transform the size at the last axis becomes
    [(a.shape[axes[-1]] - 1) * 2].  The defaulting of [axes] for a given
    [s] happens for every array; the returns are stated for the inputs on
    which the normalizer returns: at most as many axes as the array has
    dimensions, every given axis resolvable, and an axis to override when
    [invreal] is set. *)
Theorem cook_nd_args_defaults a_shape invreal :
  (forall s, cook_defaults a_shape (Some s) None invreal = Ok (s, last_axes (length s)))
  /\ (forall s, (length s <= length a_shape)%nat ->
       _cook_nd_args a_shape (Some s) None invreal = Ok (s, last_axes (length s)))
  /\ _cook_nd_args a_shape None None false = Ok (a_shape, last_axes (length a_shape))
  /\ (forall v, last a_shape = Some v ->
        _cook_nd_args a_shape None None true =
          Ok (<[pred (length a_shape):=(v - 1) * 2]> a_shape, last_axes (length a_shape)))
  /\ (forall axes,
        resolvable (length a_shape) axes ->
        (length axes <= length a_shape)%nat ->
        (invreal = true -> axes <> []) ->
        exists s,
          _cook_nd_args a_shape None (Some axes) invreal = Ok (s, axes)
          /\ length s = length axes
          /\ forall n ax, axes !! n = Some ax ->
               exists j v, Py.index (length a_shape) ax = Some j
                 /\ a_shape !! j = Some v
                 /\ s !! n = Some (if invreal && bool_decide (n = pred (length axes))
                                   then (v - 1) * 2 else v)).
Proof.
  split_and!.
  - intros s. apply cook_defaults_given.
  - intros s Hs. unfold _cook_nd_args. rewrite cook_defaults_given. cbn [bind].
    apply cook_checks_pass; [by rewrite length_last_axes | done].
  - unfold _cook_nd_args, cook_defaults.
    rewrite range_last_axes, numpy_take_all. cbn [bind].
    apply cook_checks_pass; [by rewrite length_last_axes | done].
  - intros v Hv. unfold _cook_nd_args, cook_defaults.
    rewrite range_last_axes, numpy_take_all. cbn [bind].
    assert (0 < length a_shape)%nat as Hpos.
    { rewrite last_lookup in Hv. apply lookup_lt_Some in Hv. lia. }
    rewrite (getitem_last _ _ (last_last_axes _ Hpos)). cbn [bind].
    rewrite (getitem_last _ _ Hv). cbn [bind].
    unfold Py.setitem. rewrite (index_last _ Hpos). cbn [bind].
    apply cook_checks_pass; [by rewrite length_insert, length_last_axes|].
    by rewrite length_insert.
  - intros axes Hres Hle Hne.
    destruct (cook_defaults_taken a_shape (Some axes) invreal Hres Hne)
      as (s & Hdef & Hlen & Hat).
    exists s. split_and!; [|done..].
    unfold _cook_nd_args. rewrite Hdef. cbn [bind].
    apply cook_checks_pass; [done | by rewrite Hlen].
Qed.

(** C5, on a [(10, 7)] array. *)
Lemma cook_nd_args_defaults_witness :
  _cook_nd_args [10; 7] (Some [5]) None false = Ok ([5], [-1])
  /\ _cook_nd_args [10; 7] None None false = Ok ([10; 7], [-2; -1])
  /\ _cook_nd_args [10; 7] None None true = Ok ([10; 12], [-2; -1])
  /\ exists s, _cook_nd_args [10; 7] None (Some [0]) true = Ok (s, [0])
               /\ length s = 1%nat.
Proof.
  destruct (cook_nd_args_defaults [10; 7] false) as (_ & Hs & Hnone & _ & _).
  destruct (cook_nd_args_defaults [10; 7] true) as (_ & _ & _ & Hinv & Haxes).
  split_and!.
  - apply (Hs [5]). cbn. lia.
  - exact Hnone.
  - apply (Hinv 7). reflexivity.
  - destruct (Haxes [0]) as (s & Hrun & Hlen & _).
    + repeat constructor; cbn; lia.
    + cbn. lia.
    + discriminate.
    + exists s. by split.
Defined.

Lemma getitem_raises {A} (l : list A) i e :
  Py.getitem l i = Raise e -> exists msg, e = IndexError msg.
Proof. unfold Py.getitem. intros H. repeat case_match; simplify_eq; eauto. Qed.

Lemma setitem_raises {A} (l : list A) i v e :
  Py.setitem l i v = Raise e -> exists msg, e = IndexError msg.
Proof. unfold Py.setitem. intros H. repeat case_match; simplify_eq; eauto. Qed.

Lemma numpy_take_raises shape indices e :
  numpy_take shape indices = Raise e -> exists msg, e = IndexError msg.
Proof.
  induction indices as [|i indices IH]; cbn [numpy_take]; intros H; [done|].
  destruct (Py.getitem shape i) as [v|e'] eqn:Hget; cbn in H.
  - destruct (numpy_take shape indices) as [vs|e'']; cbn in H; [done|].
    simplify_eq. by apply IH.
  - simplify_eq. by eapply getitem_raises.
Qed.

(** When the defaulting stage fails, [s] was not given, the failure is an
    [IndexError], and the length checks are never reached. *)
Lemma cook_defaults_raises a_shape s axes invreal e :
  cook_defaults a_shape s axes invreal = Raise e ->
  s = None /\ (exists msg, e = IndexError msg)
  /\ _cook_nd_args a_shape s axes invreal = Raise e.
Proof.
  intros H. destruct s as [s|]; [by rewrite cook_defaults_given in H|].
  split; [done|]. split; [|unfold _cook_nd_args; by rewrite H].
  unfold cook_defaults in H.
  destruct (numpy_take a_shape _) as [vs|e'] eqn:Htake; cbn in H;
    [|simplify_eq; by eapply numpy_take_raises].
  destruct invreal; [|done].
  destruct (Py.getitem _ (-1)) as [ax|e'] eqn:Hax; cbn in H;
    [|simplify_eq; by eapply getitem_raises].
  destruct (Py.getitem a_shape ax) as [v|e'] eqn:Hv; cbn in H;
    [|simplify_eq; by eapply getitem_raises].
  destruct (Py.setitem vs (-1) _) as [vs'|e'] eqn:Hset; cbn in H; [done|].
  simplify_eq. by eapply setitem_raises.
Qed.

(** With [s] absent the sizes are read off the shape at the filled-in axes. *)
Lemma cook_defaults_absent a_shape axes invreal :
  cook_defaults a_shape None axes invreal =
    let axes' := filled_axes a_shape None axes in
    let* s := numpy_take a_shape axes' in
    if invreal then
      let* axis_last := Py.getitem axes' (-1) in
      let* n_last := Py.getitem a_shape axis_last in
      let* s' := Py.setitem s (-1) ((n_last - 1) * 2) in
      Ok (s', axes')
    else Ok (s, axes').
Proof. unfold cook_defaults, filled_axes. destruct axes; by rewrite ?range_last_axes. Qed.

(** C6, as amended.  With [s] given, the normalizer raises the shape error
    when sizes and (possibly defaulted) axes differ in length, raises a
    shape error when there are more sizes than the array has dimensions,
    and otherwise returns the sizes with the filled-in axes.  With [s]
    absent the sizes are read off the shape, one per axis: an axis that
    does not resolve (or, for an inverse real transform, an empty list of
    axes) raises an [IndexError] before either check; otherwise more axes
    than dimensions raise the shape error, and in every other case the
    normalizer returns the sizes it read. *)
Theorem cook_nd_args_shape_errors (a_shape : list Z) (s axes : option (list Z))
    (invreal : bool) :
  let axes' := filled_axes a_shape s axes in
  (forall sz, s = Some sz ->
     (length sz <> length axes' ->
        _cook_nd_args a_shape s axes invreal = Raise shape_error_lengths)
     /\ ((length a_shape < length sz)%nat ->
         exists e, _cook_nd_args a_shape s axes invreal = Raise e /\ is_shape_error e)
     /\ (length sz = length axes' -> (length a_shape < length sz)%nat ->
         _cook_nd_args a_shape s axes invreal = Raise shape_error_dims)
     /\ (length sz = length axes' -> (length sz <= length a_shape)%nat ->
         _cook_nd_args a_shape s axes invreal = Ok (sz, axes')))
  /\ (s = None ->
      (~ resolvable (length a_shape) axes' ->
         exists msg, _cook_nd_args a_shape s axes invreal = Raise (IndexError msg))
      /\ (invreal = true -> axes' = [] ->
          exists msg, _cook_nd_args a_shape s axes invreal = Raise (IndexError msg))
      /\ (resolvable (length a_shape) axes' -> (invreal = true -> axes' <> []) ->
          (length a_shape < length axes')%nat ->
          _cook_nd_args a_shape s axes invreal = Raise shape_error_dims)
      /\ (resolvable (length a_shape) axes' -> (invreal = true -> axes' <> []) ->
          (length axes' <= length a_shape)%nat ->
          exists s',
            _cook_nd_args a_shape s axes invreal = Ok (s', axes')
            /\ length s' = length axes'
            /\ forall n ax, axes' !! n = Some ax ->
                 exists j v, Py.index (length a_shape) ax = Some j
                   /\ a_shape !! j = Some v
                   /\ s' !! n = Some (if invreal && bool_decide (n = pred (length axes'))
                                      then (v - 1) * 2 else v))).
Proof.
  cbn zeta. split.
  - intros sz ->. unfold _cook_nd_args. rewrite cook_defaults_given. cbn [bind].
    change (match axes with
            | Some axes0 => axes0
            | None => last_axes (length sz)
            end) with (filled_axes a_shape (Some sz) axes).
    split_and!.
    + apply cook_checks_lengths.
    + intros Hlt.
      destruct (decide (length sz = length (filled_axes a_shape (Some sz) axes)))
        as [Heq|Hne].
      * exists shape_error_dims. split; [by apply cook_checks_dims | by right].
      * exists shape_error_lengths. split; [by apply cook_checks_lengths | by left].
    + apply cook_checks_dims.
    + apply cook_checks_pass.
  - intros ->. unfold _cook_nd_args. split_and!.
    + intros Hres. rewrite cook_defaults_absent. cbn zeta.
      destruct (numpy_take_unresolved _ _ Hres) as [msg ->]. by exists msg.
    + intros -> Hnil. rewrite cook_defaults_absent. cbn zeta. rewrite Hnil.
      cbn [numpy_take bind].
      destruct (getitem_unresolved (@nil Z) (-1) eq_refl) as [msg ->]. by exists msg.
    + intros Hres Hne Hlt.
      destruct (cook_defaults_taken a_shape axes invreal Hres Hne)
        as (s' & -> & Hlen & _).
      cbn [bind]. apply cook_checks_dims; [done | by rewrite Hlen].
    + intros Hres Hne Hle.
      destruct (cook_defaults_taken a_shape axes invreal Hres Hne)
        as (s' & -> & Hlen & Hs').
      cbn [bind]. exists s'. split_and!; [|done|done].
      apply cook_checks_pass; [done | by rewrite Hlen].
Qed.

(** C6 as amended, on a one-dimensional array: [s=[4], axes=(0, 0)] differ
    in length, [s=[4, 4], axes=None] exceeds the rank, [s=[8], axes=(0,)]
    passes; without [s], [axes=(0, 0)] exceeds the rank, [axes=(3,)] does
    not resolve and [axes=(0,)] returns the size read off the shape. *)
Lemma cook_nd_args_shape_errors_witness :
  _cook_nd_args [4] (Some [4]) (Some [0; 0]) false = Raise shape_error_lengths
  /\ _cook_nd_args [4] (Some [4; 4]) None false = Raise shape_error_dims
  /\ _cook_nd_args [4] (Some [8]) (Some [0]) false = Ok ([8], [0])
  /\ _cook_nd_args [4] None (Some [0; 0]) false = Raise shape_error_dims
  /\ (exists msg, _cook_nd_args [4] None (Some [3]) false = Raise (IndexError msg))
  /\ (exists s', _cook_nd_args [4] None (Some [0]) false = Ok (s', [0])
                 /\ s' !! 0%nat = Some 4).
Proof.
  assert (resolvable 1 [0; 0]) as Hr2 by (repeat constructor; lia).
  assert (resolvable 1 [0]) as Hr1 by (repeat constructor; lia).
  split_and!.
  - apply (proj1 (cook_nd_args_shape_errors [4] (Some [4]) (Some [0; 0]) false)
             [4] eq_refl).
    cbn. lia.
  - apply (proj1 (cook_nd_args_shape_errors [4] (Some [4; 4]) None false)
             [4; 4] eq_refl); [reflexivity | cbn; lia].
  - apply (proj1 (cook_nd_args_shape_errors [4] (Some [8]) (Some [0]) false)
             [8] eq_refl); [reflexivity | cbn; lia].
  - apply (proj2 (cook_nd_args_shape_errors [4] None (Some [0; 0]) false) eq_refl);
      [exact Hr2 | discriminate | cbn; lia].
  - apply (proj1 (proj2 (cook_nd_args_shape_errors [4] None (Some [3]) false) eq_refl)).
    intros Hres. apply Forall_inv in Hres. cbn in Hres. lia.
  - destruct (proj2 (cook_nd_args_shape_errors [4] None (Some [0]) false) eq_refl)
      as (_ & _ & _ & Hret).
    destruct (Hret Hr1 ltac:(discriminate) ltac:(cbn; lia)) as (s' & Hrun & _ & Hs').
    exists s'. split; [exact Hrun|].
    destruct (Hs' 0%nat 0 eq_refl) as (j & v & Hj & Hv & Hsn).
    injection Hj as <-. injection Hv as <-. exact Hsn.
Defined.

(** C6 as stated fails when [s] is absent and an axis does not resolve:
    reading the shape at the axes raises an [IndexError] before the two
    length checks.  With [axes=(0, 1)] on a one-dimensional array the two
    sizes to be filled in exceed the rank, and no shape error is raised;
    with [axes=(3,)] both checks would pass, and the normalizer does not
    return. *)
Lemma cook_nd_args_axis_error_first :
  filled_sizes_length [4] None (Some [0; 1]) = 2%nat
  /\ (length [4%Z] < filled_sizes_length [4%Z] None (Some [0%Z; 1%Z]))%nat
  /\ _cook_nd_args [4] None (Some [0; 1]) false = Raise (IndexError "index out of range")
  /\ ~ is_shape_error (IndexError "index out of range")
  /\ filled_sizes_length [4] None (Some [3]) = length (filled_axes [4] None (Some [3]))
  /\ (filled_sizes_length [4%Z] None (Some [3%Z]) <= length [4%Z])%nat
  /\ _cook_nd_args [4] None (Some [3]) false = Raise (IndexError "index out of range")
  /\ ~ (forall a_shape s axes invreal,
          (filled_sizes_length a_shape s axes <> length (filled_axes a_shape s axes) ->
             exists e, _cook_nd_args a_shape s axes invreal = Raise e /\ is_shape_error e)
          /\ ((length a_shape < filled_sizes_length a_shape s axes)%nat ->
              exists e, _cook_nd_args a_shape s axes invreal = Raise e /\ is_shape_error e)
          /\ (filled_sizes_length a_shape s axes = length (filled_axes a_shape s axes) ->
              (filled_sizes_length a_shape s axes <= length a_shape)%nat ->
              exists r, _cook_nd_args a_shape s axes invreal = Ok r)).
Proof.
  split_and!; [done | cbn; lia | done | | done | cbn; lia | done |].
  - intros [He|He]; discriminate He.
  - intros Hclaim.
    destruct (Hclaim [4] None (Some [3]) false) as (_ & _ & Hret).
    destruct (Hret eq_refl ltac:(cbn; lia)) as [r Hr]. discriminate Hr.
Qed.

(** ** Calling the adapter *)

Section CallProperties.
Context `{Engine}.

Lemma view_axes_length sh : forall sl, length (view_axes sh sl) = length sh.
Proof.
  induction sh as [|n sh IH]; intros sl; [done|].
  destruct sl; cbn; by rewrite IH.
Qed.

Lemma getslice_Ok a sl v :
  getslice a sl = Ok v ->
  (length sl <= length (shape a))%nat
  /\ shape v = map snd (view_axes (shape a) sl)
  /\ dtype v = dtype a
  /\ forall idx,
       data v idx = data a (zip_with Z.add (map fst (view_axes (shape a) sl)) idx).
Proof.
  unfold getslice. destruct (_ <? _)%nat eqn:Hlt; [done|].
  apply Nat.ltb_ge in Hlt. by intros [= <-].
Qed.

(** A view taken with at least one slice can be sliced by [[:]]. *)
Lemma getslice_view_sliceable a sl v :
  getslice a sl = Ok v -> sl <> [] -> is_Some_result (getslice v [slice_all]).
Proof.
  intros Hv Hsl. destruct (getslice_Ok _ _ _ Hv) as (Hlen & Hshape & _).
  unfold getslice. rewrite Hshape, length_map, view_axes_length.
  destruct sl; [done|]. cbn [length] in *.
  rewrite (proj2 (Nat.ltb_ge _ _)) by lia. done.
Qed.

(** C9.  Take a call with a new input array for which both slicings
    succeed.  If the slice of the new input and the slice of the internal
    input array differ in shape, the call raises the shape-mismatch error.
    Otherwise (for an adapter with at least one axis) the slice of the new
    input is written into the internal array, and nowhere else, and the
    result is that of the engine's own call on the object bound to that
    array, made with no input array and with the caller's [output_array]
    and [normalise_idft]. *)
Theorem wrapper_call_new_input (self : _FFTWWrapper) (new_input : ndarray)
    (output_array : option ndarray) (normalise_idft : bool)
    (sliced_internal sliced_input : ndarray) :
  getslice (get_input_array (base self)) (FFTW_array_slicer self) = Ok sliced_internal ->
  getslice new_input (input_array_slicer self) = Ok sliced_input ->
  (shape sliced_internal <> shape sliced_input ->
     _FFTWWrapper_call self (Some new_input) output_array normalise_idft
       = (Raise invalid_input_shape, self))
  /\ (shape sliced_internal = shape sliced_input ->
      FFTW_array_slicer self <> [] ->
      let internal := get_input_array (base self) in
      let updated := write_view internal (FFTW_array_slicer self) sliced_input in
      let bound := with_input_array (base self) updated in
      let region := view_axes (shape internal) (FFTW_array_slicer self) in
      let origin := map fst (view_axes (shape new_input) (input_array_slicer self)) in
      _FFTWWrapper_call self (Some new_input) output_array normalise_idft
        = (of_outcome (fst (execute bound None output_array normalise_idft)),
           {| base := snd (execute bound None output_array normalise_idft);
              input_array_slicer := input_array_slicer self;
              FFTW_array_slicer := FFTW_array_slicer self |})
      /\ shape updated = shape internal
      /\ dtype updated = dtype internal
      /\ forall idx,
           data updated idx =
             if inside region idx
             then astype (dtype internal)
                    (data new_input
                       (zip_with Z.add origin (zip_with Z.sub idx (map fst region))))
             else data internal idx).
Proof.
  intros Hint Hinp. split.
  - intros Hne. unfold _FFTWWrapper_call. rewrite Hint, Hinp. cbn [bind].
    by rewrite bool_decide_eq_false_2.
  - intros Heq Hsl. cbn zeta. split_and!; [|done..|].
    + unfold _FFTWWrapper_call. rewrite Hint, Hinp. cbn [bind].
      rewrite bool_decide_eq_true_2 by done. cbn [negb].
      destruct (getslice sliced_internal [slice_all]) as [v|e] eqn:Hall.
      2: { pose proof (getslice_view_sliceable _ _ _ Hint Hsl) as Hs.
           by rewrite Hall in Hs. }
      cbn [bind]. by destruct (execute _ None output_array normalise_idft).
    + intros idx. cbn [write_view data].
      by rewrite (proj2 (proj2 (proj2 (getslice_Ok _ _ _ Hinp)))).
Qed.

(** C10.  A call that raises the shape-mismatch error leaves the adapter
    as it was; in particular its internal input array is unchanged. *)
Theorem wrapper_call_mismatch_atomic (self self' : _FFTWWrapper) (new_input : ndarray)
    (output_array : option ndarray) (normalise_idft : bool) :
  _FFTWWrapper_call self (Some new_input) output_array normalise_idft
    = (Raise invalid_input_shape, self') ->
  self' = self
  /\ get_input_array (base self') = get_input_array (base self).
Proof.
  unfold _FFTWWrapper_call. intros Hcall.
  destruct (getslice (get_input_array (base self)) (FFTW_array_slicer self))
    as [si|e1]; cbn [bind] in Hcall.
  2: { injection Hcall as _ <-. done. }
  destruct (getslice new_input (input_array_slicer self)) as [sn|e2];
    cbn [bind] in Hcall.
  2: { injection Hcall as _ <-. done. }
  destruct (negb (bool_decide (shape si = shape sn))).
  { injection Hcall as <-. done. }
  destruct (getslice si [slice_all]) as [v|e3]; cbn [bind] in Hcall.
  2: { injection Hcall as _ <-. done. }
  destruct (execute _ None output_array normalise_idft) as [[r|c] f];
    cbn in Hcall; discriminate Hcall.
Qed.

End CallProperties.

(** ** Reasoning about [M] *)

Lemma raises_only_ret {A} P (x : A) : raises_only P (ret x).
Proof. intros w e w' Hm. discriminate Hm. Qed.

Lemma raises_only_log P ev : raises_only P (log ev).
Proof. intros w e w' Hm. discriminate Hm. Qed.

Lemma raises_only_raise {A} (P : exn -> Prop) e : P e -> raises_only P (@raise A e).
Proof. intros HP w e' w' Hm. injection Hm as <- _. done. Qed.

Lemma raises_only_pure {A} (P : exn -> Prop) (r : result A) :
  (forall e, r = Raise e -> P e) -> raises_only P (pure r).
Proof. intros HP w e w' Hm. injection Hm as -> _. by apply HP. Qed.

Lemma raises_only_bind {A B} P (m : M A) (k : A -> M B) :
  raises_only P m ->
  (forall w x w', m w = (Ok x, w') -> raises_only P (k x)) ->
  raises_only P (mbindM m k).
Proof.
  intros Hm Hk w e w' Hrun. unfold mbindM in Hrun.
  destruct (m w) as [[x|e0] w0] eqn:Hmw.
  - by eapply Hk.
  - injection Hrun as <- <-. by eapply Hm.
Qed.

Lemma returns_ret {A} (R : A -> Prop) x : R x -> returns R (ret x).
Proof. intros HR w y w' Hm. injection Hm as <- _. done. Qed.

Lemma returns_raise {A} (R : A -> Prop) e : returns R (raise e).
Proof. intros w y w' Hm. discriminate Hm. Qed.

Lemma returns_bind {A B} (R : B -> Prop) (m : M A) (k : A -> M B) :
  (forall w x w', m w = (Ok x, w') -> returns R (k x)) ->
  returns R (mbindM m k).
Proof.
  intros Hk w y w' Hrun. unfold mbindM in Hrun.
  destruct (m w) as [[x|e0] w0] eqn:Hmw; [by eapply Hk | discriminate Hrun].
Qed.

Lemma ret_Ok {A} (x y : A) w w' : ret x w = (Ok y, w') -> y = x.
Proof. by intros [= <- _]. Qed.

Lemma pure_Ok {A} (r : result A) y w w' : pure r w = (Ok y, w') -> r = Ok y.
Proof. by intros [= -> _]. Qed.

(** ** Building the adapter *)

Lemma late_not_argument e : late_error e -> ~ argument_error e.
Proof.
  unfold argument_error, is_shape_error, is_axis_error.
  intros Hlate Harg. destruct e; cbn in Hlate; try done;
    destruct Harg as [Ha|[[Ha|Ha]|[Ha|[Ha|Ha]]]]; try discriminate Ha.
  all: rewrite Hlate in Ha; discriminate Ha.
Qed.

(** The resolver never changes the rank. *)
Lemma compute_array_shapes_length a_shape s axes inverse real input_shape output_shape :
  _compute_array_shapes a_shape s axes inverse real = Ok (input_shape, output_shape) ->
  length input_shape = length a_shape /\ length output_shape = length a_shape.
Proof.
  unfold _compute_array_shapes. rewrite assign_axes_diag. intros Hrun.
  destruct (write_axes 0 axes s a_shape) as [orig|e] eqn:Horig; cbn in Hrun.
  2: { by destruct e. }
  pose proof (write_axes_length _ _ _ _ _ Horig) as Hlo.
  destruct real.
  - destruct (Py.getitem s (-1)) as [sz|e]; cbn in Hrun; [|by destruct e].
    destruct (Py.getitem axes (-1)) as [ax|e]; cbn in Hrun; [|by destruct e].
    destruct (Py.setitem orig ax (sz / 2 + 1)) as [fft|e] eqn:Hset; cbn in Hrun;
      [|by destruct e].
    apply setitem_Ok in Hset as (k & _ & ->).
    destruct inverse; simplify_eq; by rewrite length_insert.
  - cbn in Hrun. destruct inverse; by simplify_eq.
Qed.

(** The slicer builder returns for shapes of equal rank. *)
Lemma setup_input_slicers_total a_shape input_shape :
  length a_shape = length input_shape ->
  exists src dst,
    _setup_input_slicers a_shape input_shape = Ok (src, dst)
    /\ length src = length a_shape /\ length dst = length a_shape.
Proof.
  intros Hlen. unfold _setup_input_slicers.
  destruct (slicers_loop a_shape input_shape (length a_shape) 0
              (replicate (length a_shape) slice_all)
              (replicate (length a_shape) slice_all) Hlen eq_refl)
    as (src & dst & Hrun & Hls & Hld & _);
    [by rewrite length_replicate..|].
  by exists src, dst.
Qed.

Section XfftnProperties.
Context `{Engine}.

Ltac run_step :=
  match goal with
  | |- raises_only _ (ret _) => apply raises_only_ret
  | |- raises_only _ (log _) => apply raises_only_log
  | |- raises_only _ (raise _) => apply raises_only_raise; try exact I
  | |- raises_only _ (pure _) => apply raises_only_pure
  | |- raises_only _ (mbindM _ _) => apply raises_only_bind
  | |- raises_only _ (if ?b then _ else _) => destruct b
  | |- raises_only _ (match ?x with (_, _) => _ end) => destruct x
  | |- raises_only _ (match ?x with Some _ => _ | None => _ end) => destruct x
  | |- forall _, _ => intro
  end.

Lemma dict_item_late d key e : dict_item d key = Raise e -> late_error e.
Proof. unfold dict_item. destruct (dict_get d key); [done|]. by intros [= <-]. Qed.

Lemma of_outcome_late {A} (o : outcome A) e : of_outcome o = Raise e -> late_error e.
Proof. destruct o; [done|]. by intros [= <-]. Qed.

Lemma getslice_late a sl e : getslice a sl = Raise e -> late_error e.
Proof.
  unfold getslice. destruct (_ <? _)%nat; [|done]. by intros [= <-].
Qed.

Lemma setslice_late b sl src e : setslice b sl src = Raise e -> late_error e.
Proof.
  unfold setslice. destruct (getslice b sl) as [v|e'] eqn:Hv; cbn [bind].
  - destruct (bool_decide _); [done|]. apply of_outcome_late.
  - intros [= <-]. by eapply getslice_late.
Qed.

Lemma fill_zero_late a e : fill_zero a = Raise e -> late_error e.
Proof.
  unfold fill_zero. destruct (getslice a [slice_all]) as [v|e'] eqn:Hv; cbn [bind];
    [done|]. intros [= <-]. by eapply getslice_late.
Qed.

Lemma local_late {A} name (v : option A) e : local name v = Raise e -> late_error e.
Proof. destruct v; [done|]. by intros [= <-]. Qed.

Lemma asarray_late a d : raises_only late_error (asarray a d).
Proof. unfold asarray. repeat run_step. Qed.

Lemma asarray_shape a d : returns (fun a' => shape a' = shape a) (asarray a d).
Proof.
  intros w x w'. unfold asarray, mbindM, log.
  destruct (conversion_failure a d); [done|]. by intros [= <- _].
Qed.

Lemma make_input_dtype_late a inverse real :
  raises_only late_error (make_input_dtype a inverse real).
Proof.
  unfold make_input_dtype.
  repeat first [ apply asarray_late | apply dict_item_late | run_step ].
Qed.

Lemma make_input_dtype_shape a inverse real :
  returns (fun a' => shape a' = shape a) (make_input_dtype a inverse real).
Proof.
  unfold make_input_dtype.
  repeat match goal with
         | |- returns _ (if ?b then _ else _) => destruct b
         | |- returns _ (mbindM (pure _) _) => apply returns_bind; intros ? ? ? _
         | |- returns _ (asarray _ _) => apply asarray_shape
         | |- returns _ (ret _) => by apply returns_ret
         end.
Qed.

Lemma n_byte_align_empty_late sh n d : raises_only late_error (n_byte_align_empty sh n d).
Proof. unfold n_byte_align_empty. repeat run_step. Qed.

Lemma FFTW_init_late i o axes dir fl th : raises_only late_error (FFTW_init i o axes dir fl th).
Proof.
  unfold FFTW_init. repeat first [ apply of_outcome_late | run_step ].
Qed.

Lemma contains_false x xs : Py.contains x xs = false <-> ~ In x xs.
Proof.
  unfold Py.contains. rewrite <- not_true_iff_false, existsb_exists.
  split.
  - intros Hno Hin. apply Hno. exists x. split; [done|]. apply String.eqb_refl.
  - intros Hno (y & Hin & Heq). apply String.eqb_eq in Heq as <-. done.
Qed.

Lemma raises_only_use {A} P (m : M A) w e w' :
  m w = (Raise e, w') -> raises_only P m -> P e.
Proof. intros Hm HP. by eapply HP. Qed.

(** C8.  An effort outside [_valid_efforts] makes [_Xfftn] raise the
    configuration error whatever the array, [s] and [axes] are, so ahead
    of the normalizer and the resolver; and whenever [_Xfftn] raises the
    configuration error, a shape error or an axis error, no collaborator
    has been called: nothing was converted, copied, allocated or
    planned. *)
Theorem Xfftn_argument_errors_first (a : ndarray) (s axes : option (list Z))
    (planner_effort : string) (threads : Z)
    (auto_align_input avoid_copy inverse real : bool) (w : list event) :
  (~ In planner_effort _valid_efforts ->
     _Xfftn a s axes planner_effort threads auto_align_input avoid_copy inverse real w
       = (Raise config_error, w))
  /\ (forall e w',
        _Xfftn a s axes planner_effort threads auto_align_input avoid_copy inverse real w
          = (Raise e, w') ->
        argument_error e -> w' = w).
Proof.
  split.
  - intros Heff. unfold _Xfftn.
    by rewrite (proj2 (contains_false _ _) Heff).
  - intros e w' Hrun Harg. unfold _Xfftn in Hrun.
    destruct (Py.contains planner_effort _valid_efforts); cbn [negb] in Hrun.
    2: { by injection Hrun as _ <-. }
    unfold mbindM at 1 in Hrun. unfold pure at 1 in Hrun.
    destruct (_cook_nd_args (shape a) s axes (inverse && real))
      as [[s' axes']|e0]; [|by injection Hrun as _ <-].
    unfold mbindM at 1 in Hrun. unfold pure at 1 in Hrun.
    destruct (_compute_array_shapes (shape a) s' axes' inverse real)
      as [[input_shape output_shape]|e0] eqn:Hshapes; [|by injection Hrun as _ <-].
    destruct (compute_array_shapes_length _ _ _ _ _ _ _ Hshapes) as [Hli Hlo].
    exfalso. revert Harg. apply late_not_argument.
    apply (raises_only_use late_error _ _ _ _ Hrun). clear Hrun.
    apply raises_only_bind; [apply make_input_dtype_late|].
    intros w0 a' w1 Ha'. apply make_input_dtype_shape in Ha'.
    repeat first
      [ apply n_byte_align_empty_late
      | apply FFTW_init_late
      | apply dict_item_late
      | apply local_late
      | apply getslice_late
      | apply setslice_late
      | apply fill_zero_late
      | match goal with
        | |- raises_only _ (pure (_setup_input_slicers _ _)) =>
            apply raises_only_pure; intros e1 He1;
            destruct (setup_input_slicers_total (shape a') input_shape)
              as (? & ? & Hok & _); [congruence|];
            rewrite Hok in He1; discriminate He1
        end
      | progress unfold copy, n_byte_align, _FFTWWrapper_init
      | run_step ].
Qed.

(** With [avoid_copy] set, [_Xfftn] never returns a plain [pyfftw.FFTW]:
    the branch for an array that already has the input shape reads
    [a_copy], which was not assigned. *)
Lemma Xfftn_avoid_copy_not_plain (a : ndarray) (s axes : option (list Z))
    (planner_effort : string) (threads : Z) (auto_align_input inverse real : bool) :
  returns (fun obj => exists wr, obj = Wrapped wr)
    (_Xfftn a s axes planner_effort threads auto_align_input true inverse real).
Proof.
  unfold _Xfftn. cbn [negb].
  destruct (negb (Py.contains planner_effort _valid_efforts)); [apply returns_raise|].
  apply returns_bind. intros w0 [s' axes'] w1 _.
  apply returns_bind. intros w2 [input_shape output_shape] w3 _.
  apply returns_bind. intros w4 a' w5 _.
  apply returns_bind. intros w6 output_dtype w7 _.
  apply returns_bind. intros w8 a_copy w9 ->%ret_Ok.
  apply returns_bind. intros w10 output_array w11 _.
  destruct (negb (bool_decide (shape a' = input_shape))).
  - apply returns_bind. intros w12 [upd fsl] w13 _.
    apply returns_bind. intros w14 input_array w15 _.
    apply returns_bind. intros w16 obj w17 _.
    apply returns_ret. by eexists.
  - apply returns_bind. intros w12 input_array w13 _.
    apply returns_bind. intros w14 obj w15 _.
    apply returns_bind. intros w16 c w17 Hc%pure_Ok. discriminate Hc.
Qed.

(** An adapter returned by [_Xfftn] slices at least one axis. *)
Lemma Xfftn_wrapped_slicers (a : ndarray) (s axes : option (list Z))
    (planner_effort : string) (threads : Z)
    (auto_align_input avoid_copy inverse real : bool) :
  returns (fun obj => forall wr, obj = Wrapped wr ->
             input_array_slicer wr <> [] /\ FFTW_array_slicer wr <> [])
    (_Xfftn a s axes planner_effort threads auto_align_input avoid_copy inverse real).
Proof.
  unfold _Xfftn.
  destruct (negb (Py.contains planner_effort _valid_efforts)); [apply returns_raise|].
  apply returns_bind. intros w0 [s' axes'] w1 _.
  apply returns_bind. intros w2 [input_shape output_shape] w3 Hshapes%pure_Ok.
  destruct (compute_array_shapes_length _ _ _ _ _ _ _ Hshapes) as [Hli _].
  apply returns_bind. intros w4 a' w5 Ha'%make_input_dtype_shape.
  apply returns_bind. intros w6 output_dtype w7 _.
  apply returns_bind. intros w8 a_copy w9 _.
  apply returns_bind. intros w10 output_array w11 _.
  destruct (negb (bool_decide (shape a' = input_shape))) eqn:Hsame.
  - apply negb_true_iff, bool_decide_eq_false in Hsame.
    apply returns_bind. intros w12 [upd fsl] w13 Hsl%pure_Ok.
    assert (length (shape a') = length input_shape) as Hrank.
    { cbn beta in Ha'. rewrite Ha'. done. }
    destruct (setup_input_slicers_total (shape a') input_shape Hrank)
      as (src & dst & Hok & Hls & Hld).
    rewrite Hok in Hsl. injection Hsl as <- <-.
    assert (src <> [] /\ dst <> []) as Hne.
    { split; intros ->; cbn in *;
        destruct (shape a'), input_shape; cbn in *; congruence. }
    apply returns_bind. intros w14 input_array w15 _.
    apply returns_bind. intros w16 obj w17 Hobj.
    assert (input_array_slicer obj = src /\ FFTW_array_slicer obj = dst) as [Hs Hd].
    { unfold _FFTWWrapper_init, mbindM in Hobj.
      destruct (FFTW_init _ _ _ _ _ _ w16) as [[f|e] wf]; [|discriminate Hobj].
      by injection Hobj as <- _. }
    destruct (negb avoid_copy).
    + apply returns_bind. intros w18 z w19 _.
      apply returns_bind. intros w20 c w21 _.
      apply returns_bind. intros w22 piece w23 _.
      apply returns_bind. intros w24 internal w25 _.
      apply returns_ret. by intros wr [= <-].
    + apply returns_ret. intros wr [= <-]. by rewrite Hs, Hd.
  - apply returns_bind. intros w12 input_array w13 _.
    apply returns_bind. intros w14 obj w15 _.
    apply returns_bind. intros w16 c w17 _.
    apply returns_bind. intros w18 restored w19 _.
    apply returns_ret. by intros wr [=].
Qed.

End XfftnProperties.

(** C1.  The claim fails on the code.  A complex array of shape [(4,)],
    no [s], no [axes], a valid effort and [avoid_copy=True]: the array
    already has the input shape, the output array is allocated, the plan is
    built, and the copy-back then reads the unassigned [a_copy].  More
    generally, whatever the engine and the arguments, [_Xfftn] with
    [avoid_copy=True] never returns a plain [pyfftw.FFTW]. *)
Theorem Xfftn_avoid_copy_matched_shape_raises :
  @_Xfftn int_numpy quiet_engine (ramp 4 "complex128") None None "FFTW_MEASURE" 1
    false true false false []
  = (Raise (UnboundLocalError "a_copy"), [EvAllocate [4] 16 "complex128"; EvPlan])
  /\ forall (N : Numpy) (E : @Engine N) (a : @ndarray N) s axes planner_effort threads
            auto_align_input inverse real w,
       match fst (@_Xfftn N E a s axes planner_effort threads auto_align_input
                    true inverse real w) with
       | Ok (Plain _) => False
       | _ => True
       end.
Proof.
  split; [reflexivity|].
  intros N E a s axes planner_effort threads auto_align_input inverse real w.
  destruct (@_Xfftn N E a s axes planner_effort threads auto_align_input
              true inverse real w) as [[obj|e] w'] eqn:Hrun; [|exact I].
  destruct (@Xfftn_avoid_copy_not_plain N E a s axes planner_effort threads
              auto_align_input inverse real w obj w' Hrun) as [wr ->].
  exact I.
Qed.

(** C8, on the concrete engine: a bad effort wins over a bad [axes], and a
    bad [axes] alone fails with an empty log. *)
Lemma Xfftn_argument_errors_first_witness :
  @_Xfftn int_numpy quiet_engine (ramp 4 "complex128") None (Some [3]) "FFTW_FAST" 1
    false false false false []
  = (Raise config_error, [])
  /\ forall w',
       @_Xfftn int_numpy quiet_engine (ramp 4 "complex128") (Some [8]) (Some [3])
         "FFTW_MEASURE" 1 false false false false []
       = (Raise invalid_axes, w') -> w' = [].
Proof.
  split.
  - apply (@Xfftn_argument_errors_first int_numpy quiet_engine).
    intros Hin. cbn in Hin. by repeat destruct Hin as [Hin|Hin].
  - intros w' Hrun.
    apply (proj2 (@Xfftn_argument_errors_first int_numpy quiet_engine
                    (ramp 4 "complex128") (Some [8]) (Some [3]) "FFTW_MEASURE" 1
                    false false false false []) invalid_axes w' Hrun).
    right. right. by left.
Defined.

(** C9, on [adapter_4_in_6]: three elements are refused, four are copied
    and the engine is called. *)
Lemma wrapper_call_new_input_witness :
  @_FFTWWrapper_call int_numpy quiet_engine adapter_4_in_6
    (Some (ramp 3 "complex128")) None true
  = (Raise invalid_input_shape, adapter_4_in_6)
  /\ exists self',
       @_FFTWWrapper_call int_numpy quiet_engine adapter_4_in_6
         (Some (ramp 4 "complex128")) None true
       = (Ok (@output_array int_numpy (@base int_numpy adapter_4_in_6)), self')
       /\ map (fun i => @data int_numpy (@input_array int_numpy (@base int_numpy self')) [i])
             [0; 1; 2; 3; 4; 5]
          = [10; 11; 12; 13; 0; 0].
Proof.
  split.
  - apply (proj1 (@wrapper_call_new_input int_numpy quiet_engine adapter_4_in_6
                    (ramp 3 "complex128") None true _ _ eq_refl eq_refl)).
    discriminate.
  - destruct (proj2 (@wrapper_call_new_input int_numpy quiet_engine adapter_4_in_6
                       (ramp 4 "complex128") None true _ _ eq_refl eq_refl)
                eq_refl ltac:(discriminate))
      as (Hcall & _).
    eexists. split; [exact Hcall | reflexivity].
Defined.

(** C10, on [adapter_4_in_6] called with three elements. *)
Lemma wrapper_call_mismatch_atomic_witness :
  @_FFTWWrapper_call int_numpy quiet_engine adapter_4_in_6
    (Some (ramp 3 "complex128")) None true
  = (Raise invalid_input_shape, adapter_4_in_6)
  /\ adapter_4_in_6 = adapter_4_in_6
  /\ @get_input_array int_numpy (@base int_numpy adapter_4_in_6)
     = @get_input_array int_numpy (@base int_numpy adapter_4_in_6).
Proof.
  split; [reflexivity|].
  apply (@wrapper_call_mismatch_atomic int_numpy quiet_engine adapter_4_in_6
           adapter_4_in_6 (ramp 3 "complex128") None true).
  reflexivity.
Defined.

(** * Further properties *)

(** ** The dtype table *)

Lemma rc_dtype_pairs_partner (k v : string) :
  dict_get _rc_dtype_pairs k = Some v ->
  dict_get _rc_dtype_pairs v = Some k /\ v <> k.
Proof.
  intros Hk. unfold _rc_dtype_pairs in Hk. cbn [dict_get] in Hk.
  repeat match type of Hk with
         | (if String.eqb k ?c then _ else _) = _ =>
             destruct (String.eqb_spec k c) as [->|_];
             [injection Hk as <-; split; [reflexivity | discriminate]|]
         end.
  discriminate Hk.
Qed.

(** X1.  [_rc_dtype_pairs] pairs every dtype with a different one, and
    looking the partner up gives the dtype back: the real/complex
    complement is an involution without fixed point. *)
Theorem rc_dtype_pairs_involution (k v : string) :
  dict_get _rc_dtype_pairs k = Some v ->
  dict_get _rc_dtype_pairs v = Some k /\ v <> k.
Proof. apply rc_dtype_pairs_partner. Qed.

(** X1, at ['longdouble']. *)
Lemma rc_dtype_pairs_involution_witness :
  dict_get _rc_dtype_pairs "clongdouble" = Some "longdouble"
  /\ "clongdouble" <> "longdouble".
Proof. apply (rc_dtype_pairs_involution "longdouble" "clongdouble"). reflexivity. Defined.

(** The partner of a dtype of the table is again in the table. *)
Lemma rc_dtype_pairs_closed k v :
  dict_item _rc_dtype_pairs k = Ok v -> dict_has _rc_dtype_pairs v = true.
Proof.
  unfold dict_item, dict_has.
  destruct (dict_get _rc_dtype_pairs k) as [v'|] eqn:Hk; [|done].
  intros [= ->]. by destruct (rc_dtype_pairs_partner _ _ Hk) as [-> _].
Qed.

Lemma dict_item_has d k : dict_has d k = true -> exists v, dict_item d k = Ok v.
Proof.
  unfold dict_has, dict_item. destruct (dict_get d k) as [v|]; [|done]. by exists v.
Qed.

(** ** The one-dimensional front end *)

(** X2.  [_precook_1d_args] returns exactly when [axis] lies in
    [[-ndim, ndim)]; it then hands back [n] as a one-element list (or
    [None]) and [axis] as a one-element tuple.  Any other axis raises an
    [IndexError], also for an array without axes. *)
Theorem precook_1d_args_axis (a_shape : list Z) (n : option Z) (axis : Z) :
  (- Z.of_nat (length a_shape) <= axis < Z.of_nat (length a_shape) ->
     _precook_1d_args a_shape n axis = Ok (option_map (fun n => [n]) n, [axis]))
  /\ (axis < - Z.of_nat (length a_shape) \/ Z.of_nat (length a_shape) <= axis ->
      exists msg, _precook_1d_args a_shape n axis = Raise (IndexError msg)).
Proof.
  unfold _precook_1d_args. split.
  - intros Hax. apply index_is_Some in Hax as [j Hj].
    destruct (getitem_resolves a_shape axis j Hj) as (v & _ & ->).
    by destruct n.
  - intros Hax. apply index_None in Hax.
    destruct (getitem_unresolved a_shape axis Hax) as [msg ->]. by exists msg.
Qed.

(** X2, on a [(10, 7)] array. *)
Lemma precook_1d_args_axis_witness :
  _precook_1d_args [10; 7] (Some 16) (-1) = Ok (Some [16], [-1])
  /\ exists msg, _precook_1d_args [10; 7] (Some 16) 2 = Raise (IndexError msg).
Proof.
  split.
  - apply (precook_1d_args_axis [10; 7] (Some 16) (-1)). cbn. lia.
  - apply (precook_1d_args_axis [10; 7] (Some 16) 2). cbn. lia.
Defined.

(** X3.  What [_precook_1d_args] returns always passes [_cook_nd_args]:
    for an axis in range the two together yield one size and one axis, the
    size being [n] when given, else the length of the array along [axis],
    turned into [(length - 1) * 2] for an inverse real transform. *)
Theorem precook_then_cook (a_shape : list Z) (n : option Z) (axis : Z) (invreal : bool) :
  - Z.of_nat (length a_shape) <= axis < Z.of_nat (length a_shape) ->
  exists s j v,
    _precook_1d_args a_shape n axis = Ok (s, [axis])
    /\ Py.index (length a_shape) axis = Some j
    /\ a_shape !! j = Some v
    /\ _cook_nd_args a_shape s (Some [axis]) invreal
       = Ok ([match n with
              | Some n => n
              | None => if invreal then (v - 1) * 2 else v
              end], [axis]).
Proof.
  intros Hax.
  apply index_is_Some in Hax as [j Hj].
  destruct (getitem_resolves a_shape axis j Hj) as (v & Hv & Hget).
  assert (1 <= length a_shape)%nat as Hrank by (apply lookup_lt_Some in Hv; lia).
  exists (option_map (fun n => [n]) n), j, v.
  split; [unfold _precook_1d_args; rewrite Hget; by destruct n|].
  split; [done|]. split; [done|].
  unfold _cook_nd_args, cook_defaults. destruct n as [n|]; cbn [option_map bind].
  - by apply cook_checks_pass.
  - cbn [numpy_take]. rewrite Hget. cbn [bind].
    destruct invreal.
    + change (Py.getitem [axis] (-1)) with (@Ok Z axis). cbn [bind].
      rewrite Hget. cbn [bind].
      change (Py.setitem [v] (-1) ((v - 1) * 2)) with (Ok [(v - 1) * 2]). cbn [bind].
      by apply cook_checks_pass.
    + by apply cook_checks_pass.
Qed.

(** X3, for the last axis of a [(10, 7)] array, inverse real. *)
Lemma precook_then_cook_witness :
  exists s j v,
    _precook_1d_args [10; 7] None (-1) = Ok (s, [-1])
    /\ Py.index 2 (-1) = Some j
    /\ [10; 7] !! j = Some v
    /\ _cook_nd_args [10; 7] s (Some [-1]) true = Ok ([(v - 1) * 2], [-1]).
Proof. apply (precook_then_cook [10; 7] None (-1) true). cbn. lia. Defined.

(** ** When the resolver returns *)

Lemma write_axes_error axes : forall n s l e,
  write_axes n axes s l = Raise e -> exists msg, e = IndexError msg.
Proof.
  induction axes as [|ax axes IH]; intros n s l e H; cbn in H; [done|].
  destruct (Py.getitem s (Z.of_nat n)) as [s_n|e'] eqn:Hget; cbn in H.
  - destruct (Py.setitem l ax s_n) as [l1|e'] eqn:Hset; cbn in H; [by eapply IH|].
    simplify_eq. by eapply setitem_raises.
  - simplify_eq. by eapply getitem_raises.
Qed.

(** A loop that ran to its end found every axis and a size for each. *)
Lemma write_axes_Ok_inv axes : forall n s l l',
  write_axes n axes s l = Ok l' ->
  resolvable (length l) axes /\ (axes = [] \/ (n + length axes <= length s)%nat).
Proof.
  induction axes as [|ax axes IH]; intros n s l l' H; cbn in H.
  - split; [by apply Forall_nil | by left].
  - destruct (Py.getitem s (Z.of_nat n)) as [s_n|e] eqn:Hget; [|done]. cbn in H.
    destruct (Py.setitem l ax s_n) as [l1|e] eqn:Hset; [|done]. cbn in H.
    apply setitem_Ok in Hset as (k & Hk & ->).
    apply getitem_Ok in Hget as (k' & Hk' & Hs).
    destruct (index_Some _ _ _ Hk') as [Hlt Hz].
    destruct (IH _ _ _ _ H) as [Hres Hlen]. rewrite length_insert in Hres.
    split; [|right; destruct Hlen as [->|Hlen]; cbn [length]; lia].
    constructor; [|done]. apply index_is_Some. by eexists.
Qed.

Lemma getitem_last_Ok {A} (l : list A) v : Py.getitem l (-1) = Ok v -> last l = Some v.
Proof.
  intros (k & Hk & Hv)%getitem_Ok. rewrite last_lookup.
  destruct l as [|x l]; [done|].
  rewrite index_last in Hk by (cbn; lia). by simplify_eq.
Qed.

(** The resolver's only error is its own. *)
Lemma compute_array_shapes_error a_shape s axes inverse real e :
  _compute_array_shapes a_shape s axes inverse real = Raise e -> e = invalid_axes.
Proof.
  unfold _compute_array_shapes. rewrite assign_axes_diag.
  destruct (write_axes 0 axes s a_shape) as [orig|e0] eqn:Horig; cbn [bind].
  2: { destruct (write_axes_error _ _ _ _ _ Horig) as [msg ->]. by intros [= <-]. }
  destruct real.
  - destruct (Py.getitem s (-1)) as [sz|e0] eqn:Hs; cbn [bind].
    2: { destruct (getitem_raises _ _ _ Hs) as [msg ->]. by intros [= <-]. }
    destruct (Py.getitem axes (-1)) as [ax|e0] eqn:Hax; cbn [bind].
    2: { destruct (getitem_raises _ _ _ Hax) as [msg ->]. by intros [= <-]. }
    destruct (Py.setitem orig ax (sz / 2 + 1)) as [fft|e0] eqn:Hset; cbn [bind].
    2: { destruct (setitem_raises _ _ _ _ Hset) as [msg ->]. by intros [= <-]. }
    by destruct inverse.
  - cbn. by destruct inverse.
Qed.

Lemma compute_array_shapes_Ok_inv a_shape s axes inverse real r :
  _compute_array_shapes a_shape s axes inverse real = Ok r ->
  resolvable (length a_shape) axes
  /\ (length axes <= length s)%nat
  /\ (real = true -> axes <> []).
Proof.
  unfold _compute_array_shapes. rewrite assign_axes_diag.
  destruct (write_axes 0 axes s a_shape) as [orig|e0] eqn:Horig; cbn [bind].
  2: { by destruct e0. }
  destruct (write_axes_Ok_inv _ _ _ _ _ Horig) as [Hres Hlen].
  intros Hrun. split_and!; [done | destruct Hlen as [->|Hlen]; cbn; lia |].
  intros -> ->.
  destruct (Py.getitem s (-1)) as [sz|e0]; cbn [bind] in Hrun; [|by destruct e0].
  destruct (Py.getitem (@nil Z) (-1)) as [ax|e0] eqn:Hax; cbn [bind] in Hrun;
    [|by destruct e0].
  by apply getitem_last_Ok in Hax.
Qed.

Lemma compute_array_shapes_Ok a_shape s axes inverse real :
  resolvable (length a_shape) axes ->
  (length axes <= length s)%nat ->
  (real = true -> axes <> []) ->
  exists r, _compute_array_shapes a_shape s axes inverse real = Ok r.
Proof.
  intros Hres Hlen Hne.
  destruct (write_axes_total axes 0 s a_shape Hres ltac:(lia)) as [orig Horig].
  pose proof (write_axes_length _ _ _ _ _ Horig) as Hlo.
  unfold _compute_array_shapes. rewrite assign_axes_diag, Horig. cbn [bind].
  destruct real; [|destruct inverse; by eexists].
  destruct (last_is_Some axes (Hne eq_refl)) as [ax Hax].
  assert (s <> []) as Hs.
  { intros ->. destruct axes; [by apply Hne | cbn in Hlen; lia]. }
  destruct (last_is_Some s Hs) as [sz Hsz].
  assert (is_Some (Py.index (length a_shape) ax)) as [j Hj].
  { apply index_is_Some.
    unfold resolvable in Hres. rewrite Forall_forall in Hres. apply Hres.
    rewrite last_lookup in Hax. apply list_elem_of_lookup. eauto. }
  rewrite (getitem_last _ _ Hsz), (getitem_last _ _ Hax). cbn [bind].
  unfold Py.setitem. rewrite Hlo, Hj. cbn [bind].
  destruct inverse; by eexists.
Qed.

(** X4.  [_compute_array_shapes] returns exactly when every axis lies in
    [[-ndim, ndim)], [s] has a size for every axis and, for a real
    transform, at least one axis is listed.  In every other case it raises
    the same ['Invalid axes'] error - also when the axes are fine and [s]
    is too short. *)
Theorem compute_array_shapes_returns_iff a_shape s axes inverse real :
  ((exists r, _compute_array_shapes a_shape s axes inverse real = Ok r) <->
   resolvable (length a_shape) axes
   /\ (length axes <= length s)%nat
   /\ (real = true -> axes <> []))
  /\ ((forall r, _compute_array_shapes a_shape s axes inverse real <> Ok r) ->
      _compute_array_shapes a_shape s axes inverse real = Raise invalid_axes).
Proof.
  split; [split|].
  - intros [r Hr]. by eapply compute_array_shapes_Ok_inv.
  - intros (Hres & Hlen & Hne). by apply compute_array_shapes_Ok.
  - intros Hno.
    destruct (_compute_array_shapes a_shape s axes inverse real) as [r|e] eqn:Hrun.
    + by destruct (Hno r).
    + by rewrite (compute_array_shapes_error _ _ _ _ _ _ Hrun).
Qed.

(** X4, on a [(10, 7)] array: two axes with two sizes resolve; one size
    for two valid axes is reported as invalid axes. *)
Lemma compute_array_shapes_returns_iff_witness :
  (exists r, _compute_array_shapes [10; 7] [8; 8] [0; 1] false true = Ok r)
  /\ _compute_array_shapes [10; 7] [8] [0; 1] false false = Raise invalid_axes.
Proof.
  split.
  - apply (proj1 (compute_array_shapes_returns_iff [10; 7] [8; 8] [0; 1] false true)).
    split_and!; [repeat constructor; cbn; lia | cbn; lia | discriminate].
  - apply (proj2 (compute_array_shapes_returns_iff [10; 7] [8] [0; 1] false false)).
    intros r Hr.
    destruct (proj1 (proj1 (compute_array_shapes_returns_iff [10; 7] [8] [0; 1]
                              false false)) (ex_intro _ r Hr)) as (_ & Hlen & _).
    cbn in Hlen. lia.
Defined.

(** ** Sizes read from the array *)

Lemma numpy_take_Ok a_shape indices : forall vs,
  numpy_take a_shape indices = Ok vs ->
  resolvable (length a_shape) indices
  /\ length vs = length indices
  /\ forall n ax, indices !! n = Some ax ->
       exists j v, Py.index (length a_shape) ax = Some j
                   /\ a_shape !! j = Some v /\ vs !! n = Some v.
Proof.
  induction indices as [|i indices IH]; intros vs H; cbn [numpy_take] in H.
  - simplify_eq. split_and!; [by apply Forall_nil | done |]. by intros n ax Hn.
  - destruct (Py.getitem a_shape i) as [v|e] eqn:Hget; [|done]. cbn [bind] in H.
    destruct (numpy_take a_shape indices) as [vs'|e]; [|done]. cbn [bind] in H.
    simplify_eq. destruct (IH vs' eq_refl) as (Hres & Hlen & Hat).
    apply getitem_Ok in Hget as (j & Hj & Hv).
    split_and!.
    + constructor; [|done]. apply index_is_Some. by eexists.
    + cbn. by rewrite Hlen.
    + intros [|n] ax Hn; cbn in Hn; [simplify_eq; by exists j, v | by apply Hat].
Qed.

(** What the normalizer returned when [s] was [None]. *)
Lemma cook_nd_args_None_Ok a_shape axes invreal s' axes' :
  _cook_nd_args a_shape None axes invreal = Ok (s', axes') ->
  axes' = match axes with
          | Some axes => axes
          | None => last_axes (length a_shape)
          end
  /\ resolvable (length a_shape) axes'
  /\ (invreal = true -> axes' <> [])
  /\ length s' = length axes'
  /\ (length axes' <= length a_shape)%nat
  /\ forall n ax, axes' !! n = Some ax ->
       exists j v, Py.index (length a_shape) ax = Some j
         /\ a_shape !! j = Some v
         /\ s' !! n = Some (if invreal && bool_decide (n = pred (length axes'))
                            then (v - 1) * 2 else v).
Proof.
  set (axes0 := match axes with
                | Some axes => axes
                | None => last_axes (length a_shape)
                end).
  intros Hrun.
  assert (cook_defaults a_shape None axes invreal =
          let* s := numpy_take a_shape axes0 in
          if invreal then
            let* axis_last := Py.getitem axes0 (-1) in
            let* n_last := Py.getitem a_shape axis_last in
            let* s' := Py.setitem s (-1) ((n_last - 1) * 2) in
            Ok (s', axes0)
          else Ok (s, axes0)) as Hdef.
  { unfold cook_defaults, axes0. destruct axes; by rewrite ?range_last_axes. }
  unfold _cook_nd_args in Hrun. rewrite Hdef in Hrun. clear Hdef.
  destruct (numpy_take a_shape axes0) as [vs|e] eqn:Htake; [|done].
  cbn [bind] in Hrun.
  destruct (numpy_take_Ok _ _ _ Htake) as (Hres & Hlen & _).
  assert (invreal = true -> axes0 <> []) as Hne.
  { intros -> Hnil. rewrite Hnil in Hrun.
    destruct (Py.getitem (@nil Z) (-1)) as [ax|e] eqn:Hax; [|done].
    by apply getitem_last_Ok in Hax. }
  destruct (cook_defaults_taken a_shape axes invreal Hres Hne)
    as (s0 & Hdef & Hlen0 & Hat).
  fold axes0 in Hdef, Hlen0, Hat.
  assert (cook_defaults a_shape None axes invreal =
          let* s := numpy_take a_shape axes0 in
          if invreal then
            let* axis_last := Py.getitem axes0 (-1) in
            let* n_last := Py.getitem a_shape axis_last in
            let* s' := Py.setitem s (-1) ((n_last - 1) * 2) in
            Ok (s', axes0)
          else Ok (s, axes0)) as Hdef'.
  { unfold cook_defaults, axes0. destruct axes; by rewrite ?range_last_axes. }
  rewrite Hdef', Htake in Hdef. cbn [bind] in Hdef. rewrite Hdef in Hrun.
  cbn [bind] in Hrun. unfold cook_checks in Hrun.
  destruct (negb (length s0 =? length axes0)%nat); [done|].
  destruct (length a_shape <? length s0)%nat eqn:Hdim; [done|].
  apply Nat.ltb_ge in Hdim. simplify_eq.
  split_and!; [done | done | done | done | lia | done].
Qed.

(** The size found at a position after the loop: the old one, or the one
    listed with the last axis addressing the position. *)
Lemma write_axes_lookup axes s l l' j :
  write_axes 0 axes s l = Ok l' ->
  (~ written (length l) axes j /\ l' !! j = l !! j)
  \/ exists m ax, axes !! m = Some ax /\ Py.index (length l) ax = Some j
       /\ l' !! j = s !! m.
Proof.
  intros Hrun.
  destruct (written_dec (length l) axes j) as [Hno|(m & ax & Hm & Hax & Hlast)].
  - left. split; [done|]. by eapply write_axes_untouched.
  - right. exists m, ax. split_and!; [done..|].
    by destruct (write_axes_last_writer axes 0 s l l' m ax j Hrun Hm Hax Hlast).
Qed.

(** With [s=None] the resolved input shape is the shape of the array. *)
Lemma default_sizes_input_shape a_shape axes inverse real s' axes' input_shape output_shape :
  _cook_nd_args a_shape None axes (inverse && real) = Ok (s', axes') ->
  _compute_array_shapes a_shape s' axes' inverse real = Ok (input_shape, output_shape) ->
  input_shape = a_shape
  /\ (real = false -> output_shape = a_shape).
Proof.
  intros Hcook Hshapes.
  destruct (cook_nd_args_None_Ok _ _ _ _ _ Hcook)
    as (_ & Hres & _ & Hlen & _ & Hat).
  destruct (compute_array_shapes_Ok_inv _ _ _ _ _ _ Hshapes) as (_ & _ & Hne).
  destruct (compute_array_shapes_run a_shape s' axes' inverse real Hlen Hres Hne)
    as (orig & Horig & Hrun).
  rewrite Hrun in Hshapes. cbn zeta in Hshapes. clear Hrun.
  pose proof (write_axes_length _ _ _ _ _ Horig) as Hlo.
  (* positions that are not the target of the overridden size keep their size *)
  assert (forall j, (forall ax, last axes' = Some ax -> inverse && real = true ->
                                Py.index (length a_shape) ax <> Some j) ->
                    orig !! j = a_shape !! j) as Hkeep.
  { intros j Hj.
    destruct (write_axes_lookup axes' s' a_shape orig j Horig)
      as [[_ ->]|(m & ax & Hm & Hax & ->)]; [done|].
    destruct (Hat m ax Hm) as (j' & v & Hj' & Hv & ->).
    assert (j' = j) as -> by congruence. rewrite Hv. f_equal.
    destruct (inverse && real) eqn:Hinv; [|done]. cbn [andb].
    case_bool_decide as Hm'; [|done]. subst m. exfalso.
    apply (Hj ax); [by rewrite last_lookup | done | done]. }
  destruct (inverse && real) eqn:Hinv.
  - apply andb_true_iff in Hinv as [-> ->].
    injection Hshapes as <- <-. split; [|done].
    destruct (last_is_Some axes' (Hne eq_refl)) as [ax Hax].
    assert (s' <> []) as Hs
      by (intros ->; destruct axes'; [by apply Hne | done]).
    destruct (last_is_Some s' Hs) as [sz Hsz].
    rewrite last_lookup in Hax.
    destruct (Hat _ _ Hax) as (jl & v & Hjl & Hv & Hsl).
    rewrite bool_decide_eq_true_2 in Hsl by done. cbn [andb] in Hsl.
    rewrite last_lookup, Hlen, Hsl in Hsz. injection Hsz as <-.
    unfold halve_last_axis. rewrite !last_lookup, Hax, Hlen, Hsl, Hjl.
    apply list_eq. intros j. destruct (decide (j = jl)) as [->|Hjne].
    + rewrite list_lookup_insert_eq
        by (rewrite Hlo; by destruct (index_Some _ _ _ Hjl)).
      rewrite Hv. f_equal. rewrite Z.div_mul by done. lia.
    + rewrite list_lookup_insert_ne by done. apply Hkeep.
      intros ax' Hax' _. rewrite last_lookup, Hax in Hax'. congruence.
  - assert (orig = a_shape) as ->.
    { apply list_eq. intros j. apply Hkeep. by intros ax _ [=]. }
    destruct inverse, real; try discriminate Hinv; injection Hshapes as <- <-;
      split; done.
Qed.

(** X5.  When [s] is left to the normalizer, the input shape the
    resolver asks for is the shape of the array itself, for every kind of
    transform and every choice of axes: [(n - 1) * 2] undoes [n//2 + 1]
    for the inverse real transform.  A complex transform also keeps the
    shape for its output. *)
Theorem default_sizes_keep_shape a_shape axes inverse real s' axes' input_shape output_shape :
  _cook_nd_args a_shape None axes (inverse && real) = Ok (s', axes') ->
  _compute_array_shapes a_shape s' axes' inverse real = Ok (input_shape, output_shape) ->
  input_shape = a_shape
  /\ (real = false -> output_shape = a_shape).
Proof. apply default_sizes_input_shape. Qed.

(** X5, for the inverse real transform of a [(10, 7)] array. *)
Lemma default_sizes_keep_shape_witness :
  _cook_nd_args [10; 7] None None true = Ok ([10; 12], [-2; -1])
  /\ _compute_array_shapes [10; 7] [10; 12] [-2; -1] true true = Ok ([10; 7], [10; 12])
  /\ [10; 7] = [10; 7]
  /\ (true = false -> [10; 12] = [10; 7]).
Proof.
  split; [reflexivity|]. split; [reflexivity|].
  apply (default_sizes_keep_shape [10; 7] None true true [10; 12] [-2; -1]);
    reflexivity.
Defined.

(** ** Successful runs of [_Xfftn] *)

Lemma mbindM_Ok {A B} (m : M A) (k : A -> M B) w y w' :
  mbindM m k w = (Ok y, w') ->
  exists x w1, m w = (Ok x, w1) /\ k x w1 = (Ok y, w').
Proof.
  unfold mbindM. destruct (m w) as [[x|e] w1]; [|done]. intros Hk. by exists x, w1.
Qed.

Lemma ret_Ok_inv {A} (x y : A) w w' : ret x w = (Ok y, w') -> y = x /\ w' = w.
Proof. by intros [= <- <-]. Qed.

Lemma pure_Ok_inv {A} (r : result A) y w w' : pure r w = (Ok y, w') -> r = Ok y /\ w' = w.
Proof. by intros [= -> <-]. Qed.

Section XfftnRuns.
Context `{Engine}.

Lemma asarray_Ok a d a' w w' :
  asarray a d w = (Ok a', w') ->
  conversion_failure a d = None
  /\ a' = {| shape := shape a; dtype := d; data := fun idx => astype d (data a idx) |}
  /\ w' = (w ++ [EvConvert d])%list.
Proof.
  unfold asarray, mbindM, log.
  destruct (conversion_failure a d); [done|]. by intros [= <- <-].
Qed.

Lemma asarray_Raise a d e w w' :
  asarray a d w = (Raise e, w') ->
  exists c, conversion_failure a d = Some c
            /\ e = EngineError c /\ w' = (w ++ [EvConvert d])%list.
Proof.
  unfold asarray, mbindM, log.
  destruct (conversion_failure a d) as [c|]; [|done]. intros [= <- <-]. by exists c.
Qed.

Lemma n_byte_align_empty_Ok sh n d x w w' :
  n_byte_align_empty sh n d w = (Ok x, w') ->
  alloc_failure sh n d = None
  /\ x = {| shape := sh; dtype := d; data := uninitialised sh n d |}
  /\ w' = (w ++ [EvAllocate sh n d])%list.
Proof.
  unfold n_byte_align_empty, mbindM, log.
  destruct (alloc_failure sh n d); [done|]. by intros [= <- <-].
Qed.

Lemma FFTW_init_Ok input output axes dir fl th f w w' :
  FFTW_init input output axes dir fl th w = (Ok f, w') ->
  exists din dout,
    planning input output axes dir fl th = Done (din, dout)
    /\ f = {| input_array := {| shape := shape input; dtype := dtype input; data := din |};
              output_array := {| shape := shape output; dtype := dtype output; data := dout |};
              plan_axes := axes; direction := dir; flags := fl; threads := th |}
    /\ w' = (w ++ [EvPlan])%list.
Proof.
  unfold FFTW_init, mbindM, log, pure.
  destruct (planning input output axes dir fl th) as [[din dout]|c]; [|done].
  cbn. intros [= <- <-]. by exists din, dout.
Qed.

(** Everything a successful run of [_Xfftn] went through. *)
Lemma Xfftn_Ok_inv (a : ndarray) (s axes : option (list Z)) (planner_effort : string)
    (threads : Z) (auto_align_input avoid_copy inverse real : bool)
    (w w' : list event) (obj : FFTW_object) :
  _Xfftn a s axes planner_effort threads auto_align_input avoid_copy inverse real w
    = (Ok obj, w') ->
  exists s' axes' input_shape output_shape a' w1 output_dtype,
    In planner_effort _valid_efforts
    /\ _cook_nd_args (shape a) s axes (inverse && real) = Ok (s', axes')
    /\ _compute_array_shapes (shape a) s' axes' inverse real = Ok (input_shape, output_shape)
    /\ make_input_dtype a inverse real w = (Ok a', w1)
    /\ (if negb real then Ok (dtype a') else dict_item _rc_dtype_pairs (dtype a'))
       = Ok output_dtype
    /\ alloc_failure output_shape 16 output_dtype = None
    /\ let out0 := {| shape := output_shape; dtype := output_dtype;
                      data := uninitialised output_shape 16 output_dtype |} in
       let dir := plan_direction inverse in
       let fl := plan_flags auto_align_input planner_effort in
       let w3 := (w1 ++ (if avoid_copy then [] else [EvCopy])
                     ++ [EvAllocate output_shape 16 output_dtype])%list in
       (shape a' = input_shape /\ avoid_copy = false
        /\ exists din dout restored,
             planning a' out0 axes' dir fl threads = Done (din, dout)
             /\ setslice {| shape := shape a'; dtype := dtype a'; data := din |}
                  [slice_all] a' = Ok restored
             /\ obj = Plain {| input_array := restored;
                               output_array := {| shape := output_shape;
                                                  dtype := output_dtype; data := dout |};
                               plan_axes := axes'; direction := dir; flags := fl;
                               threads := threads |}
             /\ w' = (w3 ++ (if auto_align_input then [EvAlign 16] else [])
                         ++ [EvPlan])%list)
       \/ (shape a' <> input_shape
           /\ exists upd fsl din dout internal,
                _setup_input_slicers (shape a') input_shape = Ok (upd, fsl)
                /\ alloc_failure input_shape 16 (dtype a') = None
                /\ planning {| shape := input_shape; dtype := dtype a';
                               data := uninitialised input_shape 16 (dtype a') |}
                     out0 axes' dir fl threads = Done (din, dout)
                /\ (if avoid_copy
                    then internal = {| shape := input_shape; dtype := dtype a'; data := din |}
                    else exists z piece,
                           fill_zero {| shape := input_shape; dtype := dtype a';
                                        data := din |} = Ok z
                           /\ getslice a' upd = Ok piece
                           /\ setslice z fsl piece = Ok internal)
                /\ obj = Wrapped
                           {| base := {| input_array := internal;
                                         output_array := {| shape := output_shape;
                                                            dtype := output_dtype;
                                                            data := dout |};
                                         plan_axes := axes'; direction := dir;
                                         flags := fl; threads := threads |};
                              input_array_slicer := upd;
                              FFTW_array_slicer := fsl |}
                /\ w' = (w3 ++ [EvAllocate input_shape 16 (dtype a'); EvPlan])%list).
Proof.
  unfold _Xfftn. intros Hrun.
  destruct (Py.contains planner_effort _valid_efforts) eqn:Heff; [|done].
  cbn [negb] in Hrun.
  assert (In planner_effort _valid_efforts) as Hin.
  { destruct (decide (In planner_effort _valid_efforts)) as [Hin|Hin]; [done|].
    apply contains_false in Hin. congruence. }
  apply mbindM_Ok in Hrun as ([s' axes'] & w0 & [Hcook ->]%pure_Ok_inv & Hrun).
  apply mbindM_Ok in Hrun as ([input_shape output_shape] & w0 & [Hsh ->]%pure_Ok_inv & Hrun).
  apply mbindM_Ok in Hrun as (a' & w1 & Ha' & Hrun).
  apply mbindM_Ok in Hrun as (output_dtype & w2 & Hod & Hrun).
  assert ((if negb real then Ok (dtype a') else dict_item _rc_dtype_pairs (dtype a'))
          = Ok output_dtype /\ w2 = w1) as [Hod' ->].
  { destruct (negb real); [by apply ret_Ok_inv in Hod as [-> ->]|].
    by apply pure_Ok_inv in Hod. }
  apply mbindM_Ok in Hrun as (a_copy & w2 & Hcopy & Hrun).
  assert (a_copy = (if avoid_copy then None else Some a')
          /\ w2 = (w1 ++ (if avoid_copy then [] else [EvCopy]))%list) as [-> ->].
  { destruct avoid_copy; cbn [negb] in Hcopy.
    - apply ret_Ok_inv in Hcopy as [-> ->]. by rewrite app_nil_r.
    - by injection Hcopy as <- <-. }
  apply mbindM_Ok in Hrun as (out0 & w3 & (Halloc & -> & ->)%n_byte_align_empty_Ok & Hrun).
  exists s', axes', input_shape, output_shape, a', w1, output_dtype.
  split_and!; [done..|]. cbn zeta.
  fold (plan_direction inverse) in Hrun.
  assert ((if negb auto_align_input then ["FFTW_UNALIGNED"; planner_effort]
           else [planner_effort]) = plan_flags auto_align_input planner_effort) as Hfl
    by (by destruct auto_align_input).
  rewrite Hfl in Hrun. clear Hfl.
  rewrite <- app_assoc in Hrun.
  destruct (bool_decide (shape a' = input_shape)) eqn:Hsame; cbn [negb] in Hrun.
  - apply bool_decide_eq_true in Hsame. left.
    apply mbindM_Ok in Hrun as (input_array0 & w4 & Halign & Hrun).
    assert (input_array0 = a'
            /\ w4 = ((w1 ++ (if avoid_copy then [] else [EvCopy])
                         ++ [EvAllocate output_shape 16 output_dtype])
                       ++ (if auto_align_input then [EvAlign 16] else []))%list)
      as [-> ->].
    { destruct auto_align_input.
      - by injection Halign as <- <-.
      - apply ret_Ok_inv in Halign as [-> ->]. by rewrite app_nil_r. }
    apply mbindM_Ok in Hrun as (f & w5 & (din & dout & Hplan & -> & ->)%FFTW_init_Ok & Hrun).
    apply mbindM_Ok in Hrun as (c & w6 & [Hc ->]%pure_Ok_inv & Hrun).
    destruct avoid_copy; [done|]. injection Hc as <-.
    apply mbindM_Ok in Hrun as (restored & w6 & [Hres ->]%pure_Ok_inv & Hrun).
    apply ret_Ok_inv in Hrun as [-> ->].
    split_and!; [done..|]. exists din, dout, restored.
    split_and!; [done | done | done |]. by rewrite <- !app_assoc.
  - apply bool_decide_eq_false in Hsame. right. split; [done|].
    apply mbindM_Ok in Hrun as ([upd fsl] & w4 & [Hsl ->]%pure_Ok_inv & Hrun).
    apply mbindM_Ok in Hrun as (in0 & w4 & (Halloc' & -> & ->)%n_byte_align_empty_Ok & Hrun).
    apply mbindM_Ok in Hrun as (wr & w5 & Hwr & Hrun).
    unfold _FFTWWrapper_init in Hwr.
    apply mbindM_Ok in Hwr as (f & w6 & (din & dout & Hplan & -> & ->)%FFTW_init_Ok & Hwr).
    apply ret_Ok_inv in Hwr as [-> ->].
    destruct avoid_copy; cbn [negb] in Hrun.
    + apply ret_Ok_inv in Hrun as [-> ->].
      eexists upd, fsl, din, dout, _. split_and!; [done | done | done | reflexivity | |].
      * done.
      * by rewrite <- !app_assoc.
    + apply mbindM_Ok in Hrun as (z & w7 & [Hz ->]%pure_Ok_inv & Hrun).
      apply mbindM_Ok in Hrun as (c & w7 & [Hc ->]%pure_Ok_inv & Hrun).
      injection Hc as <-.
      apply mbindM_Ok in Hrun as (piece & w7 & [Hpiece ->]%pure_Ok_inv & Hrun).
      apply mbindM_Ok in Hrun as (internal & w7 & [Hint ->]%pure_Ok_inv & Hrun).
      apply ret_Ok_inv in Hrun as [-> ->].
      exists upd, fsl, din, dout, internal.
      split_and!; [done | done | done | by exists z, piece | done |].
      by rewrite <- !app_assoc.
Qed.

End XfftnRuns.

(** ** The input dtype *)

Section InputDtype.
Context `{Engine}.

(** Every run of the dtype step. *)
Lemma make_input_dtype_run (a : ndarray) (inverse real : bool) (w : list event) :
  (exists a' w',
     make_input_dtype a inverse real w = (Ok a', w')
     /\ shape a' = shape a
     /\ dict_has _rc_dtype_pairs (dtype a') = true
     /\ ((a' = a /\ w' = w)
         \/ (dtype a' <> dtype a
             /\ conversion_failure a (dtype a') = None
             /\ w' = (w ++ [EvConvert (dtype a')])%list
             /\ forall idx, data a' idx = astype (dtype a') (data a idx))))
  \/ (exists d c,
        make_input_dtype a inverse real w = (Raise (EngineError c), (w ++ [EvConvert d])%list)
        /\ conversion_failure a d = Some c
        /\ d <> dtype a
        /\ dict_has _rc_dtype_pairs d = true).
Proof.
  pose (Q := fun m : M ndarray =>
    (exists a' w',
       m w = (Ok a', w')
       /\ shape a' = shape a
       /\ dict_has _rc_dtype_pairs (dtype a') = true
       /\ ((a' = a /\ w' = w)
           \/ (dtype a' <> dtype a
               /\ conversion_failure a (dtype a') = None
               /\ w' = (w ++ [EvConvert (dtype a')])%list
               /\ forall idx, data a' idx = astype (dtype a') (data a idx))))
    \/ (exists d c,
          m w = (Raise (EngineError c), (w ++ [EvConvert d])%list)
          /\ conversion_failure a d = Some c
          /\ d <> dtype a
          /\ dict_has _rc_dtype_pairs d = true)).
  change (Q (make_input_dtype a inverse real)).
  assert (forall d, dict_has _rc_dtype_pairs d = true -> d <> dtype a -> Q (asarray a d))
    as Hconv.
  { intros d Hd Hne. unfold Q, asarray, mbindM, log.
    destruct (conversion_failure a d) as [c|] eqn:Hc.
    - right. exists d, c. by split_and!.
    - left. eexists _, _. split; [reflexivity|]. cbn [shape dtype data].
      split_and!; [done | done |]. right. by split_and!. }
  assert (forall v, dict_item _rc_dtype_pairs (dtype a) = Ok v ->
            dict_has _rc_dtype_pairs v = true /\ v <> dtype a) as Hpair.
  { intros v Hv. split; [by eapply rc_dtype_pairs_closed|].
    unfold dict_item in Hv.
    destruct (dict_get _rc_dtype_pairs (dtype a)) as [v'|] eqn:Hk; [|done].
    injection Hv as ->. by destruct (rc_dtype_pairs_partner _ _ Hk). }
  unfold make_input_dtype.
  destruct (dict_has _rc_dtype_pairs (dtype a)) eqn:Hin; cbn [negb].
  - destruct (dict_item_has _ _ Hin) as [v Hv].
    destruct (Hpair v Hv) as [Hvin Hvne].
    destruct (negb (real && negb inverse) && negb (iscomplexobj a)).
    { rewrite Hv. change (Q (asarray a v)). by apply Hconv. }
    destruct (real && negb inverse && iscomplexobj a).
    { rewrite Hv. change (Q (asarray a v)). by apply Hconv. }
    left. exists a, w. split_and!; [done | done | done |]. by left.
  - assert (forall d, dict_has _rc_dtype_pairs d = true -> d <> dtype a) as Hother
      by (intros d Hd ->; congruence).
    destruct (negb real || inverse).
    + change (Q (asarray a "complex128")). apply Hconv; [done | by apply Hother].
    + apply Hconv; [done | by apply Hother].
Qed.

(** X6.  Making the input dtype correct converts at most once and can fail
    only in that conversion, with the failure of [numpy.asarray]: the array
    comes back untouched, or as a new array of the same shape whose
    elements are the old ones converted to a different dtype, and its dtype
    is then in [_rc_dtype_pairs]; or the one conversion attempted, to a
    dtype of the table other than the array's, fails. *)
Theorem make_input_dtype_supported (a : ndarray) (inverse real : bool) (w : list event) :
  (exists a' w',
     make_input_dtype a inverse real w = (Ok a', w')
     /\ shape a' = shape a
     /\ dict_has _rc_dtype_pairs (dtype a') = true
     /\ ((a' = a /\ w' = w)
         \/ (dtype a' <> dtype a
             /\ conversion_failure a (dtype a') = None
             /\ w' = (w ++ [EvConvert (dtype a')])%list
             /\ forall idx, data a' idx = astype (dtype a') (data a idx))))
  \/ (exists d c,
        make_input_dtype a inverse real w = (Raise (EngineError c), (w ++ [EvConvert d])%list)
        /\ conversion_failure a d = Some c
        /\ d <> dtype a
        /\ dict_has _rc_dtype_pairs d = true).
Proof. apply make_input_dtype_run. Qed.

Lemma make_input_dtype_Ok a inverse real a' w w' :
  make_input_dtype a inverse real w = (Ok a', w') ->
  shape a' = shape a
  /\ dict_has _rc_dtype_pairs (dtype a') = true
  /\ (w' = w \/ exists d, w' = (w ++ [EvConvert d])%list).
Proof.
  intros Hrun.
  destruct (make_input_dtype_run a inverse real w)
    as [(a0 & w0 & Hrun0 & Hs & Hd & Hw)|(d & c & Hrun0 & _)]; [|congruence].
  rewrite Hrun in Hrun0. injection Hrun0 as <- <-. split_and!; [done..|].
  destruct Hw as [[_ ->]|(_ & _ & -> & _)]; [by left | right; by eexists].
Qed.

End InputDtype.

(** ** What [_Xfftn] returns *)

Section XfftnReturns.
Context `{Engine}.

(** X7.  With [s=None] the array itself always has the input shape, so
    [_Xfftn] never builds an [_FFTWWrapper]; and since that branch copies
    [a_copy] back, it only ever returns with [avoid_copy=False]. *)
Theorem Xfftn_default_sizes_plain (a : ndarray) (axes : option (list Z))
    (planner_effort : string) (threads : Z)
    (auto_align_input avoid_copy inverse real : bool)
    (w w' : list event) (obj : FFTW_object) :
  _Xfftn a None axes planner_effort threads auto_align_input avoid_copy inverse real w
    = (Ok obj, w') ->
  avoid_copy = false /\ exists f, obj = Plain f.
Proof.
  intros Hrun.
  destruct (Xfftn_Ok_inv _ _ _ _ _ _ _ _ _ _ _ _ Hrun)
    as (s' & axes' & input_shape & output_shape & a' & w1 & od
        & _ & Hcook & Hsh & Ha' & _ & _ & Hcases).
  destruct (default_sizes_input_shape _ _ _ _ _ _ _ _ Hcook Hsh) as [-> _].
  destruct (make_input_dtype_Ok _ _ _ _ _ _ Ha') as (Hshape & _).
  cbn zeta in Hcases.
  destruct Hcases as [(_ & Hav & din & dout & restored & _ & _ & -> & _)|(Hne & _)].
  - split; [done | by eexists].
  - by destruct Hne.
Qed.

Lemma cook_nd_args_error a_shape s axes invreal e :
  _cook_nd_args a_shape s axes invreal = Raise e ->
  is_shape_error e \/ exists msg, e = IndexError msg.
Proof.
  unfold _cook_nd_args.
  destruct (cook_defaults a_shape s axes invreal) as [[s' axes']|e0] eqn:Hdef;
    cbn [bind].
  - unfold cook_checks. destruct (negb _); [intros [= <-]; left; by left|].
    destruct (_ <? _)%nat; [intros [= <-]; left; by right | done].
  - intros [= <-]. right. by destruct (cook_defaults_raises _ _ _ _ _ Hdef) as (_ & ? & _).
Qed.

Lemma getslice_nk a sl e : getslice a sl = Raise e -> not_key_error e.
Proof. unfold getslice. destruct (_ <? _)%nat; [|done]. by intros [= <-]. Qed.

Lemma of_outcome_nk {A} (o : outcome A) e : of_outcome o = Raise e -> not_key_error e.
Proof. destruct o; [done|]. by intros [= <-]. Qed.

Lemma setslice_nk b sl src e : setslice b sl src = Raise e -> not_key_error e.
Proof.
  unfold setslice. destruct (getslice b sl) as [v|e'] eqn:Hv; cbn [bind].
  - destruct (bool_decide _); [done|]. apply of_outcome_nk.
  - intros [= <-]. by eapply getslice_nk.
Qed.

Lemma fill_zero_nk a e : fill_zero a = Raise e -> not_key_error e.
Proof.
  unfold fill_zero. destruct (getslice a [slice_all]) as [v|e'] eqn:Hv; cbn [bind];
    [done|]. intros [= <-]. by eapply getslice_nk.
Qed.

Lemma local_nk {A} name (v : option A) e : local name v = Raise e -> not_key_error e.
Proof. destruct v; [done|]. by intros [= <-]. Qed.

Lemma make_input_dtype_nk a inverse real :
  raises_only not_key_error (make_input_dtype a inverse real).
Proof.
  intros w e w' Hrun.
  destruct (make_input_dtype_run a inverse real w)
    as [(a0 & w0 & Hrun0 & _)|(d & c & Hrun0 & _)]; [congruence|].
  rewrite Hrun in Hrun0. by injection Hrun0 as -> _.
Qed.

(** No [KeyError] leaves [_Xfftn]. *)
Lemma Xfftn_raises_no_key_error (a : ndarray) (s axes : option (list Z))
    (planner_effort : string) (threads : Z)
    (auto_align_input avoid_copy inverse real : bool) :
  raises_only not_key_error
    (_Xfftn a s axes planner_effort threads auto_align_input avoid_copy inverse real).
Proof.
  unfold _Xfftn.
  destruct (negb (Py.contains planner_effort _valid_efforts));
    [by apply raises_only_raise|].
  apply raises_only_bind.
  { apply raises_only_pure. intros e He.
    destruct (cook_nd_args_error _ _ _ _ _ He) as [[->| ->]|[msg ->]]; exact I. }
  intros w0 [s' axes'] w1 _.
  apply raises_only_bind.
  { apply raises_only_pure. intros e He.
    by rewrite (compute_array_shapes_error _ _ _ _ _ _ He). }
  intros w2 [input_shape output_shape] w3 Hsh%pure_Ok.
  destruct (compute_array_shapes_length _ _ _ _ _ _ _ Hsh) as [Hli _].
  apply raises_only_bind; [apply make_input_dtype_nk|].
  intros w4 a' w5 (Hshape & Hin & _)%make_input_dtype_Ok.
  destruct (dict_item_has _ _ Hin) as [v Hv].
  repeat first
    [ apply getslice_nk
    | apply setslice_nk
    | apply fill_zero_nk
    | apply local_nk
    | apply of_outcome_nk
    | match goal with
      | |- raises_only _ (pure (dict_item _ _)) =>
          apply raises_only_pure; rewrite Hv; discriminate
      | |- raises_only _ (pure (_setup_input_slicers _ _)) =>
          apply raises_only_pure; intros e1 He1;
          destruct (setup_input_slicers_total (shape a') input_shape)
            as (? & ? & Hok & _); [congruence|];
          rewrite Hok in He1; discriminate He1
      | |- raises_only _ (ret _) => apply raises_only_ret
      | |- raises_only _ (log _) => apply raises_only_log
      | |- raises_only _ (raise _) => apply raises_only_raise; exact I
      | |- raises_only _ (pure _) => apply raises_only_pure
      | |- raises_only _ (mbindM _ _) => apply raises_only_bind
      | |- raises_only _ (if ?b then _ else _) => destruct b
      | |- raises_only _ (match ?x with (_, _) => _ end) => destruct x
      | |- raises_only _ (match ?x with Some _ => _ | None => _ end) => destruct x
      | |- forall _, _ => intro
      end
    | progress unfold copy, n_byte_align, n_byte_align_empty, FFTW_init,
        _FFTWWrapper_init ].
Qed.

(** X8.  [_Xfftn] never raises a [KeyError]: by the time a dtype is looked
    up in [_rc_dtype_pairs] it is one of the table. *)
Theorem Xfftn_no_key_error (a : ndarray) (s axes : option (list Z))
    (planner_effort : string) (threads : Z)
    (auto_align_input avoid_copy inverse real : bool)
    (w w' : list event) (e : exn) :
  _Xfftn a s axes planner_effort threads auto_align_input avoid_copy inverse real w
    = (Raise e, w') ->
  not_key_error e.
Proof.
  intros Hrun. exact (Xfftn_raises_no_key_error _ _ _ _ _ _ _ _ _ _ _ _ Hrun).
Qed.

End XfftnReturns.

(** ** The region the slicers select *)

Section Views.
Context `{Numpy}.

Lemma view_axes_lookup sh : forall sl i n s,
  sh !! i = Some n -> sl !! i = Some s ->
  view_axes sh sl !! i = Some (fst (slice_bounds s n), slice_extent s n).
Proof.
  induction sh as [|m sh IH]; intros sl i n s Hn Hs; [done|].
  destruct sl as [|s0 sl]; [done|].
  destruct i as [|i]; cbn in *; [by simplify_eq|]. by apply IH.
Qed.

Lemma source_slice_view u r :
  0 <= u -> 0 <= r ->
  (fst (slice_bounds (source_slice_of u r) u), slice_extent (source_slice_of u r) u)
  = (0, Z.min u r).
Proof.
  intros Hu Hr. unfold source_slice_of, slice_extent.
  destruct (u >? r) eqn:Hgt; rewrite slice_to_bounds by lia; cbn; f_equal; lia.
Qed.

Lemma dest_slice_view u r :
  0 <= u -> 0 <= r ->
  (fst (slice_bounds (dest_slice_of u r) r), slice_extent (dest_slice_of u r) r)
  = (0, Z.min u r).
Proof.
  intros Hu Hr. unfold dest_slice_of, slice_extent.
  destruct (u <? r) eqn:Hlt;
    rewrite ?slice_to_bounds, ?slice_all_bounds by lia; cbn; f_equal; lia.
Qed.

(** Both slicers select the common box, anchored at the origin. *)
Lemma setup_input_slicers_views a_shape input_shape upd fsl :
  length a_shape = length input_shape ->
  valid_shape a_shape -> valid_shape input_shape ->
  _setup_input_slicers a_shape input_shape = Ok (upd, fsl) ->
  length upd = length a_shape /\ length fsl = length a_shape
  /\ view_axes a_shape upd = (fun n => (0, n)) <$> common_box a_shape input_shape
  /\ view_axes input_shape fsl = (fun n => (0, n)) <$> common_box a_shape input_shape.
Proof.
  intros Hlen Hva Hvi Hrun. unfold _setup_input_slicers in Hrun.
  destruct (slicers_loop a_shape input_shape (length a_shape) 0
              (replicate (length a_shape) slice_all)
              (replicate (length a_shape) slice_all) Hlen eq_refl)
    as (src & dst & Hrun' & Hls & Hld & _ & Hfrom);
    [by rewrite length_replicate..|].
  rewrite Hrun in Hrun'. injection Hrun' as <- <-.
  assert (forall i u r, a_shape !! i = Some u -> input_shape !! i = Some r ->
            upd !! i = Some (source_slice_of u r)
            /\ fsl !! i = Some (dest_slice_of u r)) as Hsl.
  { intros i u r Hu Hr. destruct (Hfrom i u r ltac:(lia) Hu Hr) as [-> ->].
    split; [done|]. unfold dest_slice_of. destruct (u <? r); [done|].
    apply lookup_replicate_2. by eapply lookup_lt_Some. }
  assert (length (common_box a_shape input_shape) = length a_shape) as Hlb
    by (unfold common_box; rewrite length_zip_with; lia).
  split_and!; [done | done | |].
  - apply (list_eq_same_length _ _ (length a_shape));
      [by rewrite length_fmap | by rewrite view_axes_length|].
    intros i x y Hi Hx Hy.
    destruct (lookup_lt_is_Some_2 a_shape i Hi) as [u Hu].
    destruct (lookup_lt_is_Some_2 input_shape i ltac:(lia)) as [r Hr].
    destruct (Hsl i u r Hu Hr) as [Hs _].
    rewrite (view_axes_lookup _ _ _ _ _ Hu Hs) in Hx.
    unfold common_box in Hy. rewrite list_lookup_fmap, lookup_zip_with, Hu, Hr in Hy.
    cbn in Hy. simplify_eq. apply source_slice_view.
    + by eapply (proj1 (Forall_lookup _ _) Hva).
    + by eapply (proj1 (Forall_lookup _ _) Hvi).
  - apply (list_eq_same_length _ _ (length a_shape));
      [by rewrite length_fmap | rewrite view_axes_length; lia|].
    intros i x y Hi Hx Hy.
    destruct (lookup_lt_is_Some_2 a_shape i Hi) as [u Hu].
    destruct (lookup_lt_is_Some_2 input_shape i ltac:(lia)) as [r Hr].
    destruct (Hsl i u r Hu Hr) as [_ Hd].
    rewrite (view_axes_lookup _ _ _ _ _ Hr Hd) in Hx.
    unfold common_box in Hy. rewrite list_lookup_fmap, lookup_zip_with, Hu, Hr in Hy.
    cbn in Hy. simplify_eq. apply dest_slice_view.
    + by eapply (proj1 (Forall_lookup _ _) Hva).
    + by eapply (proj1 (Forall_lookup _ _) Hvi).
Qed.

Lemma inside_box box idx :
  inside ((fun n => (0, n)) <$> box) idx = in_box box idx.
Proof.
  unfold inside, in_box. apply bool_decide_ext.
  rewrite Forall2_fmap_r.
  split; intros Hall; eapply Forall2_impl; try exact Hall; cbn; intros; lia.
Qed.

Lemma in_box_length box idx : in_box box idx = true -> length idx = length box.
Proof. unfold in_box. intros Hin%bool_decide_eq_true. by eapply Forall2_length. Qed.

Lemma origin_add (box : list Z) : forall idx,
  length idx = length box ->
  zip_with Z.add (map fst ((fun n => (0, n)) <$> box)) idx = idx.
Proof.
  induction box as [|n box IH]; intros [|i idx] Hlen; try done.
  cbn in *. f_equal. apply IH. lia.
Qed.

Lemma origin_sub (box : list Z) : forall idx,
  length idx = length box ->
  zip_with Z.sub idx (map fst ((fun n => (0, n)) <$> box)) = idx.
Proof.
  induction box as [|n box IH]; intros [|i idx] Hlen; try done.
  cbn in *. f_equal; [lia|]. apply IH. lia.
Qed.

Lemma box_extents (box : list Z) : map snd ((fun n => (0, n)) <$> box) = box.
Proof. induction box as [|n box IH]; [done|]. cbn. by f_equal. Qed.

End Views.

(** ** The arrays behind the returned object *)

Section XfftnArrays.
Context `{Engine}.

Lemma view_axes_whole (sh : list Z) :
  valid_shape sh -> view_axes sh [] = (fun n => (0, n)) <$> sh.
Proof. induction 1 as [|n sh Hn Hsh IH]; [done|]. cbn. by rewrite IH. Qed.

Lemma view_axes_all (sh : list Z) :
  valid_shape sh -> view_axes sh [slice_all] = (fun n => (0, n)) <$> sh.
Proof.
  destruct 1 as [|n sh Hn Hsh]; [done|].
  cbn [view_axes]. rewrite view_axes_whole by done.
  unfold slice_extent. rewrite slice_all_bounds. cbn. do 2 f_equal. lia.
Qed.

(** [x[:] = src] for [src] of the shape of [x]. *)
Lemma setslice_all (x src restored : ndarray) :
  valid_shape (shape x) -> shape src = shape x ->
  setslice x [slice_all] src = Ok restored ->
  shape restored = shape x /\ dtype restored = dtype x
  /\ forall idx, in_box (shape x) idx = true ->
       data restored idx = astype (dtype x) (data src idx).
Proof.
  intros Hv Hshape. unfold setslice.
  destruct (getslice x [slice_all]) as [view|e] eqn:Hview; cbn [bind]; [|done].
  destruct (getslice_Ok _ _ _ Hview) as (_ & Hvs & _).
  rewrite view_axes_all, box_extents in Hvs by done.
  rewrite bool_decide_eq_true_2 by congruence.
  intros [= <-]. split_and!; [done | done |].
  intros idx Hin. cbn [write_view data].
  rewrite view_axes_all, inside_box, Hin by done.
  by rewrite origin_sub by by apply in_box_length.
Qed.

(** The copy into the internal array of an adapter. *)
Lemma padded_copy (a' : ndarray) (input_shape : list Z) upd fsl din z piece internal :
  length (shape a') = length input_shape ->
  valid_shape (shape a') -> valid_shape input_shape ->
  _setup_input_slicers (shape a') input_shape = Ok (upd, fsl) ->
  fill_zero {| shape := input_shape; dtype := dtype a'; data := din |} = Ok z ->
  getslice a' upd = Ok piece ->
  setslice z fsl piece = Ok internal ->
  shape internal = input_shape /\ dtype internal = dtype a'
  /\ forall idx,
       data internal idx =
         if in_box (common_box (shape a') input_shape) idx
         then astype (dtype a') (data a' idx)
         else astype (dtype a') zero.
Proof.
  intros Hlen Hva Hvi Hsl Hz Hpiece Hint.
  destruct (setup_input_slicers_views _ _ _ _ Hlen Hva Hvi Hsl) as (_ & _ & Hvu & Hvf).
  unfold fill_zero in Hz.
  destruct (getslice _ [slice_all]) as [v0|e0]; cbn [bind shape dtype] in Hz; [|done].
  injection Hz as <-.
  destruct (getslice_Ok _ _ _ Hpiece) as (_ & Hps & _ & Hpd).
  rewrite Hvu, box_extents in Hps.
  unfold setslice in Hint.
  destruct (getslice _ fsl) as [view|e] eqn:Hview; cbn [bind] in Hint; [|done].
  destruct (getslice_Ok _ _ _ Hview) as (_ & Hvs & _).
  cbn [shape] in Hvs. rewrite Hvf, box_extents in Hvs.
  rewrite bool_decide_eq_true_2 in Hint by congruence.
  injection Hint as <-. split_and!; [done | done |].
  intros idx. cbn [write_view data shape dtype].
  rewrite Hvf, inside_box.
  destruct (in_box (common_box (shape a') input_shape) idx) eqn:Hin; [|done].
  apply in_box_length in Hin.
  by rewrite origin_sub, Hpd, Hvu, origin_add.
Qed.

End XfftnArrays.

Section XfftnObject.
Context `{Engine}.

Lemma make_input_dtype_kind (a a' : ndarray) (inverse real : bool) (w w' : list event) :
  complex_kinds_agree ->
  make_input_dtype a inverse real w = (Ok a', w') ->
  iscomplexobj a' = negb (real && negb inverse).
Proof.
  intros [Hdef Hpair] Hrun. unfold make_input_dtype in Hrun. unfold iscomplexobj in *.
  destruct (dict_has _rc_dtype_pairs (dtype a)) eqn:Hin; cbn [negb] in Hrun.
  - destruct (dict_item_has _ _ Hin) as [v Hv].
    assert (iscomplex v = negb (iscomplex (dtype a))) as Hkv.
    { apply Hpair. unfold dict_item in Hv.
      destruct (dict_get _rc_dtype_pairs (dtype a)); by simplify_eq. }
    destruct (negb (real && negb inverse) && negb (iscomplex (dtype a))) eqn:Hc1.
    { unfold mbindM at 1, pure at 1 in Hrun. rewrite Hv in Hrun.
      apply asarray_Ok in Hrun as (_ & -> & _). cbn [dtype]. rewrite Hkv.
      by destruct real, inverse, (iscomplex (dtype a)). }
    destruct (real && negb inverse && iscomplex (dtype a)) eqn:Hc2.
    { unfold mbindM at 1, pure at 1 in Hrun. rewrite Hv in Hrun.
      apply asarray_Ok in Hrun as (_ & -> & _). cbn [dtype]. rewrite Hkv.
      by destruct real, inverse, (iscomplex (dtype a)). }
    apply ret_Ok_inv in Hrun as [-> _].
    by destruct real, inverse, (iscomplex (dtype a)).
  - destruct (negb real || inverse) eqn:Hc.
    + unfold mbindM at 1, pure at 1 in Hrun.
      change (dict_item _rc_dtype_pairs _default_dtype) with (@Ok string "complex128") in Hrun.
      apply asarray_Ok in Hrun as (_ & -> & _). cbn [dtype].
      rewrite (Hpair _default_dtype "complex128" eq_refl), Hdef.
      by destruct real, inverse.
    + apply asarray_Ok in Hrun as (_ & -> & _). cbn [dtype]. rewrite Hdef.
      by destruct real, inverse.
Qed.

(** X9.  Where numpy agrees with the dtype table on which dtypes are
    complex, and for shapes without negative sizes, the input array of the
    object [_Xfftn] returns is real exactly for a forward real transform,
    and its output array is real exactly for an inverse real transform,
    whatever the dtype of [a] was. *)
Theorem Xfftn_complex_kinds (a : ndarray) (s axes : option (list Z))
    (planner_effort : string) (nthreads : Z)
    (auto_align_input avoid_copy inverse real : bool)
    (w w' : list event) (obj : FFTW_object)
    (s' axes' input_shape output_shape : list Z) :
  complex_kinds_agree ->
  _cook_nd_args (shape a) s axes (inverse && real) = Ok (s', axes') ->
  _compute_array_shapes (shape a) s' axes' inverse real = Ok (input_shape, output_shape) ->
  valid_shape (shape a) -> valid_shape input_shape ->
  _Xfftn a s axes planner_effort nthreads auto_align_input avoid_copy inverse real w
    = (Ok obj, w') ->
  iscomplexobj (input_array (plan_of obj)) = negb (real && negb inverse)
  /\ iscomplexobj (output_array (plan_of obj)) = negb (real && inverse).
Proof.
  intros Hk Hcook Hsh Hva Hvi Hrun.
  destruct (Xfftn_Ok_inv _ _ _ _ _ _ _ _ _ _ _ _ Hrun)
    as (s0 & axes0 & input_shape0 & output_shape0 & a' & w1 & od
        & _ & Hcook0 & Hsh0 & Ha' & Hod & _ & Hcases).
  rewrite Hcook in Hcook0. injection Hcook0 as <- <-.
  rewrite Hsh in Hsh0. injection Hsh0 as <- <-.
  pose proof (make_input_dtype_kind _ _ _ _ _ _ Hk Ha') as Hin.
  destruct (make_input_dtype_Ok _ _ _ _ _ _ Ha') as (Hshape & _).
  destruct (compute_array_shapes_length _ _ _ _ _ _ _ Hsh) as [Hli _].
  assert (iscomplex od = negb (real && inverse)) as Hout.
  { unfold iscomplexobj in Hin. destruct real; cbn [negb] in Hod.
    - unfold dict_item in Hod.
      destruct (dict_get _rc_dtype_pairs (dtype a')) as [v|] eqn:Hv; [|done].
      injection Hod as <-. rewrite (proj2 Hk _ _ Hv), Hin. by destruct inverse.
    - injection Hod as <-. rewrite Hin. done. }
  rewrite <- Hshape in Hva.
  cbn zeta in Hcases. unfold iscomplexobj in *.
  destruct Hcases as [(_ & _ & din & dout & restored & _ & Hres & -> & _)
                     |(_ & upd & fsl & din & dout & internal & Hsl & _ & _ & Hcopy
                       & -> & _)];
    cbn [plan_of base input_array output_array dtype]; (split; [|exact Hout]).
  - apply setslice_all in Hres as (_ & Hd & _); [|done..].
    by rewrite Hd.
  - assert (dtype internal = dtype a') as Hd; [|by rewrite Hd].
    destruct avoid_copy; [by subst internal|].
    destruct Hcopy as (z & piece & Hz & Hpiece & Hint).
    apply (padded_copy a' input_shape upd fsl din z piece internal); try done.
    by rewrite Hshape.
Qed.

(** X10.  What [_Xfftn] hands to the planner: the cooked axes, the
    direction chosen by [inverse], the effort (after [FFTW_UNALIGNED]
    unless the input is aligned automatically), the thread count, and an
    output array of the resolved output shape.  The object is an
    [_FFTWWrapper] exactly when the shape of [a] is not the resolved input
    shape, and its slicers are then those of [_setup_input_slicers]. *)
Theorem Xfftn_plan_parameters (a : ndarray) (s axes : option (list Z))
    (planner_effort : string) (nthreads : Z)
    (auto_align_input avoid_copy inverse real : bool)
    (w w' : list event) (obj : FFTW_object)
    (s' axes' input_shape output_shape : list Z) :
  _cook_nd_args (shape a) s axes (inverse && real) = Ok (s', axes') ->
  _compute_array_shapes (shape a) s' axes' inverse real = Ok (input_shape, output_shape) ->
  _Xfftn a s axes planner_effort nthreads auto_align_input avoid_copy inverse real w
    = (Ok obj, w') ->
  plan_axes (plan_of obj) = axes'
  /\ direction (plan_of obj) = plan_direction inverse
  /\ flags (plan_of obj) = plan_flags auto_align_input planner_effort
  /\ threads (plan_of obj) = nthreads
  /\ shape (output_array (plan_of obj)) = output_shape
  /\ match obj with
     | Plain _ => shape a = input_shape
     | Wrapped wr =>
         shape a <> input_shape
         /\ _setup_input_slicers (shape a) input_shape
            = Ok (input_array_slicer wr, FFTW_array_slicer wr)
     end.
Proof.
  intros Hcook Hsh Hrun.
  destruct (Xfftn_Ok_inv _ _ _ _ _ _ _ _ _ _ _ _ Hrun)
    as (s0 & axes0 & input_shape0 & output_shape0 & a' & w1 & od
        & _ & Hcook0 & Hsh0 & Ha' & _ & _ & Hcases).
  rewrite Hcook in Hcook0. injection Hcook0 as <- <-.
  rewrite Hsh in Hsh0. injection Hsh0 as <- <-.
  destruct (make_input_dtype_Ok _ _ _ _ _ _ Ha') as (Hshape & _).
  rewrite Hshape in Hcases. cbn zeta in Hcases.
  destruct Hcases as [(Hsame & _ & din & dout & restored & _ & _ & -> & _)
                     |(Hne & upd & fsl & din & dout & internal & Hsl & _ & _ & _ & -> & _)];
    cbn; by split_and!.
Qed.

(** X11.  A run of [_Xfftn] that returns has planned exactly once, and has
    allocated once for a plain [pyfftw.FFTW] (the output array) and twice
    for an [_FFTWWrapper] (the output array and the internal input). *)
Theorem Xfftn_plans_once (a : ndarray) (s axes : option (list Z))
    (planner_effort : string) (nthreads : Z)
    (auto_align_input avoid_copy inverse real : bool)
    (w w' : list event) (obj : FFTW_object) :
  _Xfftn a s axes planner_effort nthreads auto_align_input avoid_copy inverse real w
    = (Ok obj, w') ->
  plans w' = S (plans w)
  /\ allocations w' = (allocations w + match obj with Plain _ => 1 | Wrapped _ => 2 end)%nat.
Proof.
  intros Hrun.
  destruct (Xfftn_Ok_inv _ _ _ _ _ _ _ _ _ _ _ _ Hrun)
    as (s0 & axes0 & input_shape & output_shape & a' & w1 & od
        & _ & _ & _ & Ha' & _ & _ & Hcases).
  destruct (make_input_dtype_Ok _ _ _ _ _ _ Ha') as (_ & _ & Hw1).
  cbn zeta in Hcases. unfold plans, allocations.
  destruct Hcases as [(_ & _ & din & dout & restored & _ & _ & -> & ->)
                     |(_ & upd & fsl & din & dout & internal & _ & _ & _ & _ & -> & ->)];
    destruct Hw1 as [->|[d ->]];
    rewrite !List.filter_app, !length_app;
    destruct avoid_copy, auto_align_input; cbn; lia.
Qed.

(** X12.  The internal input array of an adapter built with
    [avoid_copy=False]: it has the resolved input shape and the dtype of
    the converted array; inside the common box of the two shapes it holds
    the elements of the converted array, everywhere else it holds zero.  So
    a shorter axis is zero-padded at its end and a longer one truncated. *)
Theorem Xfftn_zero_pads (a a' : ndarray) (s axes : option (list Z))
    (planner_effort : string) (nthreads : Z)
    (auto_align_input inverse real : bool)
    (w w1 w' : list event) (obj : FFTW_object)
    (s' axes' input_shape output_shape : list Z) :
  _cook_nd_args (shape a) s axes (inverse && real) = Ok (s', axes') ->
  _compute_array_shapes (shape a) s' axes' inverse real = Ok (input_shape, output_shape) ->
  make_input_dtype a inverse real w = (Ok a', w1) ->
  valid_shape (shape a) -> valid_shape input_shape ->
  shape a <> input_shape ->
  _Xfftn a s axes planner_effort nthreads auto_align_input false inverse real w
    = (Ok obj, w') ->
  exists wr,
    obj = Wrapped wr
    /\ shape (get_input_array (base wr)) = input_shape
    /\ dtype (get_input_array (base wr)) = dtype a'
    /\ forall idx,
         data (get_input_array (base wr)) idx =
           if in_box (common_box (shape a) input_shape) idx
           then astype (dtype a') (data a' idx)
           else astype (dtype a') zero.
Proof.
  intros Hcook Hsh Ha Hva Hvi Hne Hrun.
  destruct (Xfftn_Ok_inv _ _ _ _ _ _ _ _ _ _ _ _ Hrun)
    as (s0 & axes0 & input_shape0 & output_shape0 & a0 & w0 & od
        & _ & Hcook0 & Hsh0 & Ha0 & _ & _ & Hcases).
  rewrite Hcook in Hcook0. injection Hcook0 as <- <-.
  rewrite Hsh in Hsh0. injection Hsh0 as <- <-.
  rewrite Ha in Ha0. injection Ha0 as <- <-.
  destruct (make_input_dtype_Ok _ _ _ _ _ _ Ha) as (Hshape & _).
  destruct (compute_array_shapes_length _ _ _ _ _ _ _ Hsh) as [Hli _].
  cbn zeta in Hcases.
  destruct Hcases as [(Hsame & _)
                     |(_ & upd & fsl & din & dout & internal & Hsl & _ & _ & Hcopy & -> & _)];
    [congruence|].
  destruct Hcopy as (z & piece & Hz & Hpiece & Hint).
  eexists. split; [reflexivity|]. cbn [base get_input_array input_array].
  rewrite <- Hshape.
  apply (padded_copy a' input_shape upd fsl din z piece internal);
    try done; rewrite Hshape; done.
Qed.

(** X13.  Planning may overwrite the input array; a plain [pyfftw.FFTW]
    returned by [_Xfftn] has had it written back: inside its shape, the
    input array of the object holds the elements of the converted [a]. *)
Theorem Xfftn_restores_input (a a' : ndarray) (s axes : option (list Z))
    (planner_effort : string) (nthreads : Z)
    (auto_align_input avoid_copy inverse real : bool)
    (w w1 w' : list event) (f : FFTW) :
  make_input_dtype a inverse real w = (Ok a', w1) ->
  valid_shape (shape a) ->
  _Xfftn a s axes planner_effort nthreads auto_align_input avoid_copy inverse real w
    = (Ok (Plain f), w') ->
  shape (get_input_array f) = shape a
  /\ dtype (get_input_array f) = dtype a'
  /\ forall idx, in_box (shape a) idx = true ->
       data (get_input_array f) idx = astype (dtype a') (data a' idx).
Proof.
  intros Ha Hva Hrun.
  destruct (Xfftn_Ok_inv _ _ _ _ _ _ _ _ _ _ _ _ Hrun)
    as (s0 & axes0 & input_shape & output_shape & a0 & w0 & od
        & _ & _ & _ & Ha0 & _ & _ & Hcases).
  rewrite Ha in Ha0. injection Ha0 as <- <-.
  destruct (make_input_dtype_Ok _ _ _ _ _ _ Ha) as (Hshape & _).
  cbn zeta in Hcases.
  destruct Hcases as [(_ & _ & din & dout & restored & _ & Hres & Hobj & _)
                     |(_ & upd & fsl & din & dout & internal & _ & _ & _ & _ & Hobj & _)];
    [|discriminate Hobj].
  injection Hobj as ->. cbn [get_input_array input_array].
  rewrite <- Hshape.
  apply (setslice_all {| shape := shape a'; dtype := dtype a'; data := din |} a' restored);
    [by rewrite Hshape | done | done].
Qed.

(** X14.  An adapter built by [_Xfftn] accepts every new input of the
    shape of the array it was built from: the call does not raise the
    shape error, the common box of the internal array is overwritten with
    the new elements, the rest of it is kept, and the result is that of the
    engine's call on the object bound to the updated array. *)
Theorem Xfftn_adapter_accepts (a new_input : ndarray) (s axes : option (list Z))
    (planner_effort : string) (nthreads : Z)
    (auto_align_input avoid_copy inverse real : bool)
    (w w' : list event) (wr : _FFTWWrapper)
    (s' axes' input_shape output_shape : list Z)
    (output : option ndarray) (normalise_idft : bool) :
  _cook_nd_args (shape a) s axes (inverse && real) = Ok (s', axes') ->
  _compute_array_shapes (shape a) s' axes' inverse real = Ok (input_shape, output_shape) ->
  valid_shape (shape a) -> valid_shape input_shape ->
  _Xfftn a s axes planner_effort nthreads auto_align_input avoid_copy inverse real w
    = (Ok (Wrapped wr), w') ->
  shape new_input = shape a ->
  exists updated,
    _FFTWWrapper_call wr (Some new_input) output normalise_idft
      = (of_outcome (fst (execute (with_input_array (base wr) updated) None output
                            normalise_idft)),
         {| base := snd (execute (with_input_array (base wr) updated) None output
                           normalise_idft);
            input_array_slicer := input_array_slicer wr;
            FFTW_array_slicer := FFTW_array_slicer wr |})
    /\ shape updated = input_shape
    /\ forall idx,
         data updated idx =
           if in_box (common_box (shape a) input_shape) idx
           then astype (dtype (get_input_array (base wr))) (data new_input idx)
           else data (get_input_array (base wr)) idx.
Proof.
  intros Hcook Hsh Hva Hvi Hrun Hnew.
  destruct (Xfftn_Ok_inv _ _ _ _ _ _ _ _ _ _ _ _ Hrun)
    as (s0 & axes0 & input_shape0 & output_shape0 & a' & w1 & od
        & _ & Hcook0 & Hsh0 & Ha' & _ & _ & Hcases).
  rewrite Hcook in Hcook0. injection Hcook0 as <- <-.
  rewrite Hsh in Hsh0. injection Hsh0 as <- <-.
  destruct (make_input_dtype_Ok _ _ _ _ _ _ Ha') as (Hshape & _).
  destruct (compute_array_shapes_length _ _ _ _ _ _ _ Hsh) as [Hli _].
  cbn zeta in Hcases.
  destruct Hcases as [(_ & _ & din & dout & restored & _ & _ & Hobj & _)
                     |(Hne & upd & fsl & din & dout & internal & Hsl & _ & _ & Hcopy
                       & Hobj & _)];
    [discriminate Hobj|].
  injection Hobj as ->. cbn [base input_array_slicer FFTW_array_slicer get_input_array
                             input_array].
  rewrite Hshape in Hsl, Hne.
  destruct (setup_input_slicers_views _ _ _ _ (eq_sym Hli) Hva Hvi Hsl)
    as (Hlu & Hlf & Hvu & Hvf).
  assert (shape internal = input_shape) as Hishape.
  { destruct avoid_copy; [by subst internal|].
    destruct Hcopy as (z & piece & Hz & Hpiece & Hint).
    rewrite <- Hshape in Hsl, Hva.
    apply (padded_copy a' input_shape upd fsl din z piece internal);
      try done. by rewrite Hshape. }
  assert (shape a <> []) as Hrank.
  { intros Hnil. apply Hne. rewrite Hnil in *. by destruct input_shape. }
  assert (fsl <> []) as Hfsl.
  { intros ->. destruct (shape a); [done | discriminate Hlf]. }
  exists (write_view internal fsl
            {| shape := map snd (view_axes (shape new_input) upd);
               dtype := dtype new_input;
               data := fun idx =>
                 data new_input
                   (zip_with Z.add (map fst (view_axes (shape new_input) upd)) idx) |}).
  split_and!.
  - unfold _FFTWWrapper_call.
    cbn [base input_array_slicer FFTW_array_slicer get_input_array input_array].
    destruct (getslice internal fsl) as [si|e] eqn:Hsi.
    2: { unfold getslice in Hsi. rewrite Hishape, Hlf, Hli, Nat.ltb_irrefl in Hsi.
         discriminate Hsi. }
    cbn [bind].
    destruct (getslice new_input upd) as [sn|e] eqn:Hsn.
    2: { unfold getslice in Hsn. rewrite Hnew, Hlu, Nat.ltb_irrefl in Hsn.
         discriminate Hsn. }
    cbn [bind].
    destruct (getslice_Ok _ _ _ Hsi) as (_ & Hsis & _).
    destruct (getslice_Ok _ _ _ Hsn) as (_ & Hsns & _).
    rewrite bool_decide_eq_true_2.
    2: { rewrite Hsis, Hsns, Hishape, Hnew, Hvu, Hvf. done. }
    cbn [negb].
    destruct (getslice si [slice_all]) as [v|e] eqn:Hall.
    2: { pose proof (getslice_view_sliceable _ _ _ Hsi Hfsl) as Hs.
         by rewrite Hall in Hs. }
    cbn [bind].
    assert (sn = {| shape := map snd (view_axes (shape new_input) upd);
                    dtype := dtype new_input;
                    data := fun idx =>
                      data new_input
                        (zip_with Z.add (map fst (view_axes (shape new_input) upd)) idx) |})
      as ->.
    { unfold getslice in Hsn. destruct (_ <? _)%nat; [done|]. by injection Hsn as <-. }
    by destruct (execute _ None output normalise_idft).
  - by cbn.
  - intros idx. cbn [write_view data shape dtype].
    rewrite Hishape, Hvf, inside_box, Hnew, Hvu.
    destruct (in_box (common_box (shape a) input_shape) idx) eqn:Hin; [|done].
    apply in_box_length in Hin.
    by rewrite origin_sub, origin_add.
Qed.

End XfftnObject.

(** ** On the concrete engine *)

(** X7, for a complex array of four elements and no [s]. *)
Lemma Xfftn_default_sizes_plain_witness :
  exists obj w',
    @_Xfftn int_numpy quiet_engine (ramp 4 "complex128") None None "FFTW_MEASURE" 1
      false false false false [] = (Ok obj, w')
    /\ false = false /\ exists f, obj = Plain f.
Proof.
  assert (exists obj w',
            @_Xfftn int_numpy quiet_engine (ramp 4 "complex128") None None "FFTW_MEASURE" 1
              false false false false [] = (Ok obj, w')) as (obj & w' & Hrun)
    by (eexists _, _; vm_compute; reflexivity).
  exists obj, w'. split; [exact Hrun|].
  exact (@Xfftn_default_sizes_plain int_numpy quiet_engine (ramp 4 "complex128") None
           "FFTW_MEASURE" 1 false false false false [] w' obj Hrun).
Defined.

(** X8, on the run that reads the unassigned [a_copy]. *)
Lemma Xfftn_no_key_error_witness :
  @_Xfftn int_numpy quiet_engine (ramp 4 "complex128") None None "FFTW_MEASURE" 1
    false true false false []
  = (Raise (UnboundLocalError "a_copy"), [EvAllocate [4] 16 "complex128"; EvPlan])
  /\ not_key_error (UnboundLocalError "a_copy").
Proof.
  split; [reflexivity|].
  apply (@Xfftn_no_key_error int_numpy quiet_engine (ramp 4 "complex128") None None
           "FFTW_MEASURE" 1 false true false false []
           [EvAllocate [4] 16 "complex128"; EvPlan]).
  reflexivity.
Defined.

Lemma int_numpy_kinds_agree : @complex_kinds_agree int_numpy.
Proof.
  split; [reflexivity|]. intros k v Hk.
  unfold _rc_dtype_pairs in Hk. cbn [dict_get] in Hk.
  repeat match type of Hk with
         | (if String.eqb k ?c then _ else _) = _ =>
             destruct (String.eqb_spec k c) as [->|_];
             [injection Hk as <-; reflexivity|]
         end.
  discriminate Hk.
Qed.

(** X9, for a forward real transform of a [float64] array: the input
    stays real and the output is complex. *)
Lemma Xfftn_complex_kinds_witness :
  exists obj w',
    @_Xfftn int_numpy quiet_engine (ramp 4 "float64") None None "FFTW_MEASURE" 1
      false false false true [] = (Ok obj, w')
    /\ @iscomplexobj int_numpy (@input_array int_numpy (plan_of obj)) = false
    /\ @iscomplexobj int_numpy (@output_array int_numpy (plan_of obj)) = true.
Proof.
  assert (exists obj w',
            @_Xfftn int_numpy quiet_engine (ramp 4 "float64") None None "FFTW_MEASURE" 1
              false false false true [] = (Ok obj, w')) as (obj & w' & Hrun)
    by (eexists _, _; vm_compute; reflexivity).
  assert (valid_shape [4]) as Hv4 by (unfold valid_shape; repeat constructor; lia).
  exists obj, w'. split; [exact Hrun|].
  exact (@Xfftn_complex_kinds int_numpy quiet_engine (ramp 4 "float64")
           None None "FFTW_MEASURE" 1 false false false true [] w' obj
           [4] [-1] [4] [3] int_numpy_kinds_agree eq_refl eq_refl Hv4 Hv4 Hrun).
Defined.

(** X10, for four complex elements transformed on six points. *)
Lemma Xfftn_plan_parameters_witness :
  exists obj w',
    @_Xfftn int_numpy quiet_engine (ramp 4 "complex128") (Some [6]) None "FFTW_MEASURE" 1
      false false false false [] = (Ok obj, w')
    /\ @plan_axes int_numpy (plan_of obj) = [-1]
    /\ @direction int_numpy (plan_of obj) = "FFTW_FORWARD"
    /\ @flags int_numpy (plan_of obj) = ["FFTW_UNALIGNED"; "FFTW_MEASURE"]
    /\ @threads int_numpy (plan_of obj) = 1
    /\ @shape int_numpy (@output_array int_numpy (plan_of obj)) = [6]
    /\ match obj with
       | Plain _ => [4] = [6]
       | Wrapped wr =>
           [4] <> [6]
           /\ _setup_input_slicers [4] [6]
              = Ok (@input_array_slicer int_numpy wr, @FFTW_array_slicer int_numpy wr)
       end.
Proof.
  assert (exists obj w',
            @_Xfftn int_numpy quiet_engine (ramp 4 "complex128") (Some [6]) None
              "FFTW_MEASURE" 1 false false false false [] = (Ok obj, w'))
    as (obj & w' & Hrun)
    by (eexists _, _; vm_compute; reflexivity).
  exists obj, w'. split; [exact Hrun|].
  exact (@Xfftn_plan_parameters int_numpy quiet_engine (ramp 4 "complex128") (Some [6]) None
           "FFTW_MEASURE" 1 false false false false [] w' obj [6] [-1] [6] [6]
           eq_refl eq_refl Hrun).
Defined.

(** X11, on the same run: one plan, two allocations. *)
Lemma Xfftn_plans_once_witness :
  exists obj w',
    @_Xfftn int_numpy quiet_engine (ramp 4 "complex128") (Some [6]) None "FFTW_MEASURE" 1
      false false false false [] = (Ok obj, w')
    /\ plans w' = 1%nat
    /\ allocations w' = match obj with Plain _ => 1%nat | Wrapped _ => 2%nat end.
Proof.
  assert (exists obj w',
            @_Xfftn int_numpy quiet_engine (ramp 4 "complex128") (Some [6]) None
              "FFTW_MEASURE" 1 false false false false [] = (Ok obj, w'))
    as (obj & w' & Hrun)
    by (eexists _, _; vm_compute; reflexivity).
  exists obj, w'. split; [exact Hrun|].
  exact (@Xfftn_plans_once int_numpy quiet_engine (ramp 4 "complex128") (Some [6]) None
           "FFTW_MEASURE" 1 false false false false [] w' obj Hrun).
Defined.

(** X12, on the same run: the internal array holds the four elements and
    two zeros. *)
Lemma Xfftn_zero_pads_witness :
  exists wr w',
    @_Xfftn int_numpy quiet_engine (ramp 4 "complex128") (Some [6]) None "FFTW_MEASURE" 1
      false false false false [] = (Ok (Wrapped wr), w')
    /\ map (fun i => @data int_numpy (@get_input_array int_numpy (@base int_numpy wr)) [i])
         [0; 1; 2; 3; 4; 5]
       = [10; 11; 12; 13; 0; 0].
Proof.
  assert (exists obj w',
            @_Xfftn int_numpy quiet_engine (ramp 4 "complex128") (Some [6]) None
              "FFTW_MEASURE" 1 false false false false [] = (Ok obj, w'))
    as (obj & w' & Hrun)
    by (eexists _, _; vm_compute; reflexivity).
  assert (valid_shape [4]) as Hv4 by (unfold valid_shape; repeat constructor; lia).
  assert (valid_shape [6]) as Hv6 by (unfold valid_shape; repeat constructor; lia).
  destruct (@Xfftn_zero_pads int_numpy quiet_engine (ramp 4 "complex128")
              (ramp 4 "complex128") (Some [6]) None "FFTW_MEASURE" 1 false false false
              [] [] w' obj [6] [-1] [6] [6] eq_refl eq_refl eq_refl Hv4 Hv6
              ltac:(discriminate) Hrun)
    as (wr & Hobj & _ & _ & Hdata).
  exists wr, w'. split; [by rewrite <- Hobj|].
  cbn [map]. rewrite !Hdata. reflexivity.
Defined.

(** X13, for four complex elements and no [s]: the planner of the concrete
    engine overwrites the input, the returned object holds it again. *)
Lemma Xfftn_restores_input_witness :
  exists f w',
    @_Xfftn int_numpy quiet_engine (ramp 4 "complex128") None None "FFTW_MEASURE" 1
      false false false false [] = (Ok (Plain f), w')
    /\ map (fun i => @data int_numpy (@get_input_array int_numpy f) [i]) [0; 1; 2; 3]
       = [10; 11; 12; 13].
Proof.
  assert (exists f w',
            @_Xfftn int_numpy quiet_engine (ramp 4 "complex128") None None
              "FFTW_MEASURE" 1 false false false false [] = (Ok (Plain f), w'))
    as (f & w' & Hrun)
    by (eexists _, _; vm_compute; reflexivity).
  assert (valid_shape [4]) as Hv4 by (unfold valid_shape; repeat constructor; lia).
  destruct (@Xfftn_restores_input int_numpy quiet_engine (ramp 4 "complex128")
              (ramp 4 "complex128") None None "FFTW_MEASURE" 1 false false false false
              [] [] w' f eq_refl Hv4 Hrun)
    as (_ & _ & Hdata).
  exists f, w'. split; [exact Hrun|].
  cbn [map]. rewrite !Hdata by reflexivity. reflexivity.
Defined.

(** X14, on the adapter for four elements on six points, called with four
    new elements. *)
Lemma Xfftn_adapter_accepts_witness :
  exists wr w' updated,
    @_Xfftn int_numpy quiet_engine (ramp 4 "complex128") (Some [6]) None "FFTW_MEASURE" 1
      false false false false [] = (Ok (Wrapped wr), w')
    /\ fst (@_FFTWWrapper_call int_numpy quiet_engine wr (Some (ramp 4 "complex128"))
              None true)
       = of_outcome (fst (@execute int_numpy quiet_engine
                            (with_input_array (@base int_numpy wr) updated)
                            None None true))
    /\ @shape int_numpy updated = [6].
Proof.
  assert (exists wr w',
            @_Xfftn int_numpy quiet_engine (ramp 4 "complex128") (Some [6]) None
              "FFTW_MEASURE" 1 false false false false [] = (Ok (Wrapped wr), w'))
    as (wr & w' & Hrun)
    by (eexists _, _; vm_compute; reflexivity).
  assert (valid_shape [4]) as Hv4 by (unfold valid_shape; repeat constructor; lia).
  assert (valid_shape [6]) as Hv6 by (unfold valid_shape; repeat constructor; lia).
  destruct (@Xfftn_adapter_accepts int_numpy quiet_engine (ramp 4 "complex128")
              (ramp 4 "complex128") (Some [6]) None "FFTW_MEASURE" 1 false false false
              false [] w' wr [6] [-1] [6] [6] None true eq_refl eq_refl Hv4 Hv6
              Hrun eq_refl)
    as (updated & Hcall & Hs & _).
  exists wr, w', updated. split_and!; [exact Hrun | by rewrite Hcall | exact Hs].
Defined.

(** ** Cooked arguments and repeated calls *)

(** X15.  What [_cook_nd_args] returns has passed its own checks: as many
    sizes as axes, and no more than the array has dimensions.  Cooking the
    cooked pair again, with either value of [invreal], gives it back. *)
Theorem cook_nd_args_idempotent (a_shape : list Z) (s axes : option (list Z))
    (invreal invreal' : bool) (s' axes' : list Z) :
  _cook_nd_args a_shape s axes invreal = Ok (s', axes') ->
  length s' = length axes'
  /\ (length s' <= length a_shape)%nat
  /\ _cook_nd_args a_shape (Some s') (Some axes') invreal' = Ok (s', axes').
Proof.
  unfold _cook_nd_args at 1.
  destruct (cook_defaults a_shape s axes invreal) as [[s0 axes0]|e]; cbn [bind]; [|done].
  unfold cook_checks.
  destruct (length s0 =? length axes0)%nat eqn:Heq; cbn [negb]; [|done].
  destruct (length a_shape <? length s0)%nat eqn:Hlt; [done|].
  intros [= <- <-]. apply Nat.eqb_eq in Heq. apply Nat.ltb_ge in Hlt.
  split_and!; [done | done |].
  unfold _cook_nd_args. rewrite cook_defaults_given. cbn [bind].
  by apply cook_checks_pass.
Qed.

(** X15, at shape [(10, 7)] with everything defaulted for an inverse real
    transform. *)
Lemma cook_nd_args_idempotent_witness :
  length [10; 12] = length [-2; -1]
  /\ (length [10; 12] <= length [10; 7])%nat
  /\ _cook_nd_args [10; 7] (Some [10; 12]) (Some [-2; -1]) false = Ok ([10; 12], [-2; -1]).
Proof. apply (cook_nd_args_idempotent [10; 7] None None true false). reflexivity. Defined.

Section CallInvariant.
Context `{Engine}.

(** X16.  No call of an adapter changes its slicers, whatever the input
    and whether the call returns or raises. *)
Theorem wrapper_call_keeps_slicers (self : _FFTWWrapper) (new_input output : option ndarray)
    (normalise_idft : bool) :
  input_array_slicer (snd (_FFTWWrapper_call self new_input output normalise_idft))
    = input_array_slicer self
  /\ FFTW_array_slicer (snd (_FFTWWrapper_call self new_input output normalise_idft))
     = FFTW_array_slicer self.
Proof.
  unfold _FFTWWrapper_call.
  destruct new_input as [new_input|].
  - destruct (getslice (get_input_array (base self)) (FFTW_array_slicer self))
      as [si|e1]; cbn [bind]; [|done].
    destruct (getslice new_input (input_array_slicer self)) as [sn|e2]; cbn [bind]; [|done].
    destruct (negb (bool_decide (shape si = shape sn))); [done|].
    destruct (getslice si [slice_all]) as [v|e3]; cbn [bind]; [|done].
    by destruct (execute _ None output normalise_idft).
  - by destruct (execute _ None output normalise_idft).
Qed.

End CallInvariant.
